(** * Azure computer-vision demo scripts: a shallow embedding

    The repository consists of [main.py] (a REST client written with
    [requests] plus a small annotation renderer written with PIL) and three
    SDK samples ([OCR.py], [caption.py], [objects.py]).  The functions become
    Rocq functions over an explicit model of what the scripts touch: the
    process environment, the file system, the remote service, the heap of
    PIL image objects, the fonts and image encoders available, and standard
    output.

    Conventions.
    - Python exceptions are values of [Exn]; a computation yields an
      [Outcome]: it returns ([Ret]) or raises ([Raise]).
    - JSON numbers are [num]: Python [int] or [float]; floats are kept as the
      exact rational they denote.
    - A printed line is kept as the pieces of its f-string: literal text and
      interpolated numbers with their format spec, so that no digit
      formatting of floats has to be invented.
    - A JSON response is taken in the shape the service documents (typed
      records), or is [null].
    - An image file is known by the raster it decodes to, and pixels are RGB
      triples: the other modes of PIL images, and files with a valid header
      and damaged pixel data (which PIL opens, and fails to load later), are
      outside the model.  What [Image.save] writes is decided by the encoder
      of the output path's format, which belongs to the world: it may change
      pixels (JPEG) and it may fail.
    - The calls recorded in [network] are the calls the scripts make to
      [requests.post] and to the SDK client; what these libraries do with a
      call (a URL they reject, a connection that fails) is the world's
      answer to it. *)

From Stdlib Require Import ZArith QArith Qminmax Qround Lia Ascii String.
From stdpp Require Import base option list strings gmap pretty.

Open Scope Z_scope.

(** ** Numbers *)

Inductive num :=
  | NInt (z : Z)
  | NFloat (q : Q).

Definition num_val (n : num) : Q :=
  match n with
  | NInt z => inject_Z z
  | NFloat q => q
  end.

(** [a - b]: an [int] when both are, a [float] otherwise. *)
Definition num_sub (a b : num) : num :=
  match a, b with
  | NInt x, NInt y => NInt (x - y)
  | _, _ => NFloat (Qred (num_val a - num_val b))
  end.

(** [a > b] *)
Definition num_gt (a b : num) : bool :=
  negb (Qle_bool (num_val a) (num_val b)).

(** [int(a)]: truncation towards zero. *)
Definition num_int (a : num) : Z :=
  match a with
  | NInt z => z
  | NFloat q => if Qle_bool 0 q then Qfloor q else Qceiling q
  end.

(** ** The JSON shapes [main.py] reads *)

Record caption_t := { cap_text : string; cap_confidence : num }.
Record tag_t := { tag_name : string; tag_confidence : num }.
Record rectangle_t := { rect_x : num; rect_y : num; rect_w : num; rect_h : num }.
Record object_t := { obj_tags : list tag_t; obj_rectangle : rectangle_t }.
Record line_t := { line_text : string; line_boundingBox : list num }.
Record block_t := { block_lines : list line_t }.
Record readResult_t := { read_blocks : list block_t }.

(** The unified analyze response: a dict whose keys are optional.  Keys that
    [main.py] never inspects ([smartCrops], [metadata], [modelVersion]) are
    only counted. *)
Record analyze_doc := {
  doc_caption : option caption_t;
  doc_tags : option (list tag_t);
  doc_objects : option (list object_t);
  doc_denseCaptions : option (list caption_t);
  doc_readResult : option readResult_t;
  doc_other_keys : nat
}.

Record faceAttributes_t := {
  fa_age : num;
  fa_gender : string;
  fa_emotion : list (string * num)   (* a dict, in iteration order *)
}.
Record faceRectangle_t := { fr_left : num; fr_top : num; fr_width : num; fr_height : num }.
Record face_t := { face_attributes : faceAttributes_t; face_rectangle : faceRectangle_t }.

(** What [response.json()] can yield, when it is not [None]: a JSON object
    of the analyze shape, or a JSON array of faces. *)
Inductive json_doc :=
  | DAnalyze (d : analyze_doc)
  | DFaces (l : list face_t).

(** ** HTTP *)

Record Response := {
  status_code : Z;
  reason : string;
  resp_url : string;
  resp_text : string;                     (* the body *)
  resp_json : string + option json_doc    (* json.loads of the body: its error,
                                             None for a body of null, or the document *)
}.

(** ** Exceptions *)

Inductive Exn :=
  | KeyError (key : string)
  | FileNotFoundError (path : string)
  | OSError (msg : string)
  | UnidentifiedImageError (path : string)
  | RequestException (msg : string)       (* requests: connection errors, timeouts *)
  | HTTPError (r : Response)              (* requests: raise_for_status *)
  | JSONDecodeError (msg : string)
  | HttpResponseError (msg : string)      (* azure.core *)
  | ValueError (msg : string)
  | IndexError (msg : string)
  | TypeError (msg : string)
  | SystemExit.

(** [except Exception] catches everything but [SystemExit]. *)
Definition is_Exception (e : Exn) : bool :=
  match e with
  | SystemExit => false
  | _ => true
  end.

(** [except IOError]: [OSError] and its subclasses, which include PIL's
    [UnidentifiedImageError] and the exceptions of [requests]. *)
Definition is_IOError (e : Exn) : bool :=
  match e with
  | FileNotFoundError _ | OSError _ | UnidentifiedImageError _
  | RequestException _ | HTTPError _ => true
  | _ => false
  end.

(** The message [raise_for_status] builds. *)
Definition http_error_msg (r : Response) : string :=
  pretty (status_code r) +:+
  (if decide (status_code r < 500) then " Client Error: " else " Server Error: ") +:+
  reason r +:+ " for url: " +:+ resp_url r.

(** [str(e)] *)
Definition str_exn (e : Exn) : string :=
  match e with
  | KeyError k => "'" +:+ k +:+ "'"
  | FileNotFoundError p => "[Errno 2] No such file or directory: '" +:+ p +:+ "'"
  | UnidentifiedImageError p => "cannot identify image file '" +:+ p +:+ "'"
  | HTTPError r => http_error_msg r
  | OSError m | RequestException m | JSONDecodeError m | HttpResponseError m
  | ValueError m | IndexError m | TypeError m => m
  | SystemExit => ""
  end.

Inductive Outcome (A : Type) :=
  | Ret (a : A)
  | Raise (e : Exn).
Arguments Ret {A} a.
Arguments Raise {A} e.

#[global] Instance Outcome_ret : MRet Outcome := @Ret.
#[global] Instance Outcome_bind : MBind Outcome := λ A B f m,
  match m with
  | Ret a => f a
  | Raise e => Raise e
  end.

(** ** Sequences *)

(** [l[i]] for a non-negative literal index. *)
Definition list_getitem {A} (l : list A) (i : nat) : Outcome A :=
  match l !! i with
  | Some a => Ret a
  | None => Raise (IndexError "list index out of range")
  end.

(** [max(l, key=key)]: the running maximum is replaced only by an element
    whose key is strictly greater. *)
Definition max_step {A} (key : A → num) (best y : A) : A :=
  if num_gt (key y) (key best) then y else best.

Definition py_max {A} (key : A → num) (l : list A) : Outcome A :=
  match l with
  | [] => Raise (ValueError "max() arg is an empty sequence")
  | x :: r => Ret (fold_left (max_step key) r x)
  end.

(** ** main.py, demo_ocr, lines 237-241: the annotation box of a line *)

Definition ocr_line_box (boundingBox : list num) : Outcome (list num) :=
  x ← list_getitem boundingBox 0;
  y ← list_getitem boundingBox 1;
  b2 ← list_getitem boundingBox 2;
  let w := num_sub b2 x in
  b5 ← list_getitem boundingBox 5;
  let h := num_sub b5 y in
  mret [x; y; w; h].

(** ** main.py, demo_face_detection, line 316: the dominant emotion *)

Definition dominant_emotion (emotion : list (string * num)) : Outcome string :=
  m ← py_max snd emotion;
  mret (fst m).

(** ** Strings *)

Definition nl : string := String (ascii_of_nat 10) "".

Definition ascii_upper (c : ascii) : ascii :=
  let n := nat_of_ascii c in
  if ((97 <=? n) && (n <=? 122))%nat then ascii_of_nat (n - 32) else c.

Definition ascii_lower (c : ascii) : ascii :=
  let n := nat_of_ascii c in
  if ((65 <=? n) && (n <=? 90))%nat then ascii_of_nat (n + 32) else c.

Fixpoint str_map (f : ascii → ascii) (s : string) : string :=
  match s with
  | EmptyString => EmptyString
  | String c r => String (f c) (str_map f r)
  end.

(** [s.capitalize()] *)
Definition capitalize (s : string) : string :=
  match s with
  | EmptyString => EmptyString
  | String c r => String (ascii_upper c) (str_map ascii_lower r)
  end.

(** [s[0].upper()] *)
Definition first_upper (s : string) : Outcome string :=
  match s with
  | EmptyString => Raise (IndexError "string index out of range")
  | String c _ => Ret (String (ascii_upper c) "")
  end.

(** [sep.join(l)] *)
Definition join (sep : string) (l : list string) : string := String.concat sep l.

(** ** Images, fonts and drawing (PIL) *)

Definition Color : Type := Z * Z * Z.
Definition red : Color := (255, 0, 0).

(** A raster: rows of pixels, top row first. *)
Definition Image : Type := list (list Color).

Definition im_height (im : Image) : Z := Z.of_nat (length im).
Definition im_width (im : Image) : Z :=
  match im with
  | [] => 0
  | r :: _ => Z.of_nat (length r)
  end.

Definition getpixel (im : Image) (px py : nat) : option Color :=
  row ← im !! py; row !! px.

(** Every pixel the mask selects takes the ink; pixels outside the raster
    are clipped because only existing pixels are visited. *)
Definition paint (mask : Z → Z → bool) (ink : Color) (im : Image) : Image :=
  imap (λ py row, imap (λ px c, if mask (Z.of_nat px) (Z.of_nat py) then ink else c) row) im.

(** A font is known by the pixels its rendering of a text covers, relative
    to the anchor point. *)
Record Font := { font_name : string; text_mask : string → list (Z * Z) }.

(** [ImageDraw.rectangle([(x0, y0), (x1, y1)], outline=ink, width=width)]:
    the band of [width] pixels along the inside of the box's edges. *)
Definition outline_mask (x0 y0 x1 y1 width : Z) (px py : Z) : bool :=
  bool_decide (x0 ≤ px ≤ x1 ∧ y0 ≤ py ≤ y1 ∧
               (px < x0 + width ∨ x1 - width < px ∨ py < y0 + width ∨ y1 - width < py)).

Definition draw_rectangle (x0 y0 x1 y1 : Z) (ink : Color) (width : Z) (im : Image)
  : Outcome Image :=
  if decide (x1 < x0) then Raise (ValueError "x1 must be greater than or equal to x0")
  else if decide (y1 < y0) then Raise (ValueError "y1 must be greater than or equal to y0")
  else Ret (paint (outline_mask x0 y0 x1 y1 width) ink im).

(** [ImageDraw.text((x, y), text, fill=ink, font=font)] *)
Definition draw_text (x y : Z) (text : string) (ink : Color) (font : Font) (im : Image)
  : Image :=
  paint (λ px py, bool_decide ((px - x, py - y) ∈ text_mask font text)) ink im.

(** The error of [Image.save] when the file cannot be written. *)
Definition save_error (path : string) : Exn := OSError ("cannot write " +:+ path).

(** An encoder, as [Image.save] uses it: for a raster, the exception it
    raises or the pixels, by column and row, that the file it writes decodes
    to.  The written image always has the dimensions of the raster; its
    pixels are the encoder's business (JPEG changes them). *)
Definition Encoder : Type := Image → Exn + (nat → nat → Color).

(** The raster of the shape of [im] with the pixels [f]. *)
Definition decoded (f : nat → nat → Color) (im : Image) : Image :=
  imap (λ py row, imap (λ px _, f px py) row) im.

(** ** The world and the state a script runs in *)

Inductive FileData :=
  | Blob (s : string)           (* a file that PIL does not recognise as an image *)
  | Picture (im : Image).       (* an image file that decodes to the raster [im] *)

Record Request := {
  req_url : string;
  req_headers : list (string * string);
  req_params : list (string * string);
  req_data : FileData
}.

Inductive Transport :=
  | Failed (msg : string)       (* requests raises: connection error, timeout, rejected URL *)
  | Replied (r : Response).

(** The image-analysis SDK ([OCR.py]). *)
Record DetectedTextWord := {
  word_text : string;
  word_bounding_polygon : list (Z * Z);
  word_confidence : num
}.
Record DetectedTextLine := {
  dline_text : string;
  dline_bounding_polygon : list (Z * Z);
  dline_words : list DetectedTextWord
}.
Record DetectedTextBlock := { dblock_lines : list DetectedTextLine }.
Record ReadResult := { rr_blocks : list DetectedTextBlock }.
Record CaptionResult := { cr_text : string; cr_confidence : num }.
Record ImageAnalysisResult := {
  result_caption : option CaptionResult;
  result_read : option ReadResult
}.

Record SdkCall := {
  sdk_endpoint : string;
  sdk_key : string;
  sdk_image_data : FileData;
  sdk_visual_features : list string;
  sdk_gender_neutral_caption : bool
}.

(** A call to [requests.post] or to the SDK client's [analyze]. *)
Inductive NetCall :=
  | Post (r : Request)
  | Analyze (c : SdkCall).

Record World := {
  environ : gmap string string;              (* os.environ at start *)
  dotenv : gmap string string;               (* the .env file read by load_dotenv *)
  server : Request → Transport;              (* what requests.post meets *)
  sdk_service : SdkCall → string + ImageAnalysisResult;
  fonts : gmap string Font;                  (* font files ImageFont.truetype can open *)
  default_font : Font;                       (* ImageFont.load_default() *)
  writable : string → bool;                  (* whether the path can be opened for writing *)
  encoder : string → Exn + Encoder;          (* the encoder Image.save finds for the path's
                                                extension, or the ValueError it raises *)
  save_cleans_up : bool                      (* whether Image.save removes a file it created
                                                when the encoder fails: Pillow does, its
                                                older versions leave the empty file *)
}.

Inductive piece :=
  | Lit (s : string)
  | Num (spec : string) (v : num)            (* {v:spec} *)
  | Poly (p : list (Z * Z)).                 (* a bounding polygon *)

Record State := {
  stdout : list (list piece);                (* one entry per print call *)
  heap : list Image;                         (* PIL image objects; a reference is an index *)
  network : list NetCall;                    (* in the order issued *)
  fs : gmap string FileData
}.

Definition M (A : Type) : Type := State → Outcome A * State.

#[global] Instance M_ret : MRet M := λ A a st, (Ret a, st).
#[global] Instance M_bind : MBind M := λ A B f m st,
  match m st with
  | (Ret a, st') => f a st'
  | (Raise e, st') => (Raise e, st')
  end.

Definition raise {A} (e : Exn) : M A := λ st, (Raise e, st).
Definition lift {A} (o : Outcome A) : M A := λ st, (o, st).

(** [try: body  except <class> as e: handler e] *)
Definition try_except {A} (body : M A) (class : Exn → bool) (handler : Exn → M A) : M A :=
  λ st,
    match body st with
    | (Raise e, st') => if class e then handler e st' else (Raise e, st')
    | r => r
    end.

Definition print (l : list piece) : M unit := λ st,
  (Ret tt, {| stdout := stdout st ++ [l]; heap := heap st;
              network := network st; fs := fs st |}).

Definition issue (c : NetCall) : M unit := λ st,
  (Ret tt, {| stdout := stdout st; heap := heap st;
              network := network st ++ [c]; fs := fs st |}).

Definition alloc (im : Image) : M nat := λ st,
  (Ret (length (heap st)),
   {| stdout := stdout st; heap := heap st ++ [im];
      network := network st; fs := fs st |}).

(** The object behind a reference.  References come from [alloc] and objects
    are never freed, so the error branch is not reached by the scripts. *)
Definition deref (r : nat) : M Image := λ st,
  match heap st !! r with
  | Some im => (Ret im, st)
  | None => (Raise (ValueError "dangling image reference"), st)
  end.

Definition store (r : nat) (im : Image) : M unit := λ st,
  (Ret tt, {| stdout := stdout st; heap := <[r := im]> (heap st);
              network := network st; fs := fs st |}).

Definition write_file (path : string) (d : FileData) : M unit := λ st,
  (Ret tt, {| stdout := stdout st; heap := heap st;
              network := network st; fs := <[path := d]> (fs st) |}).

(** [for a in l: s = body s a] *)
Fixpoint for_each {A S} (l : list A) (body : S → A → M S) (s : S) : M S :=
  match l with
  | [] => mret s
  | a :: r => s' ← body s a; for_each r body s'
  end.

(** [with open(path, "rb") as f: data = f.read()] *)
Definition read_file (path : string) : M FileData := λ st,
  match fs st !! path with
  | Some d => (Ret d, st)
  | None => (Raise (FileNotFoundError path), st)
  end.

(** [requests.post(url, headers=..., params=..., data=...)] *)
Definition requests_post (w : World) (url : string) (headers params : list (string * string))
    (data : FileData) : M Response :=
  let req := {| req_url := url; req_headers := headers;
                req_params := params; req_data := data |} in
  _ ← issue (Post req);
  match server w req with
  | Failed msg => raise (RequestException msg)
  | Replied r => mret r
  end.

(** [response.raise_for_status()]: raises on 4xx and 5xx only. *)
Definition raise_for_status (r : Response) : M unit :=
  if decide (400 ≤ status_code r < 600) then raise (HTTPError r) else mret tt.

(** [response.json()]: [None] for a body of [null]. *)
Definition response_json (r : Response) : M (option json_doc) :=
  match resp_json r with
  | inl msg => raise (JSONDecodeError msg)
  | inr d => mret d
  end.

Definition num_add (a b : num) : num :=
  match a, b with
  | NInt x, NInt y => NInt (x + y)
  | _, _ => NFloat (Qred (num_val a + num_val b))
  end.

(** * main.py *)

Module Main.

(** Lines 32-33: the module-level configuration, read when the module is
    loaded; [os.environ[k]] raises [KeyError] for a missing variable. *)
Record Config := { ENDPOINT : string; API_KEY : string }.

Definition environ_getitem (w : World) (k : string) : Outcome string :=
  match environ w !! k with
  | Some v => Ret v
  | None => Raise (KeyError k)
  end.

Definition load_module (w : World) : Outcome Config :=
  endpoint ← environ_getitem w "VISION_ENDPOINT";
  key ← environ_getitem w "VISION_KEY";
  mret {| ENDPOINT := endpoint; API_KEY := key |}.

(** [Image.open(path)] *)
Definition Image_open (path : string) : M nat := λ st,
  match fs st !! path with
  | None => (Raise (FileNotFoundError path), st)
  | Some (Blob _) => (Raise (UnidentifiedImageError path), st)
  | Some (Picture im) => alloc im st
  end.

(** [img.copy()] *)
Definition Image_copy (r : nat) : M nat :=
  im ← deref r; alloc im.

(** What is left of the output file when the encoder fails: [Image.save]
    has opened it with mode "w+b", which empties a file that existed and
    creates one that did not; a file that it created it then removes, when
    it cleans up. *)
Definition truncate_file (w : World) (path : string) : M unit := λ st,
  match fs st !! path with
  | Some _ => write_file path (Blob "") st
  | None => if save_cleans_up w then (Ret tt, st) else write_file path (Blob "") st
  end.

(** [img.save(path)]: the format is looked up by the extension
    ([ValueError] when it names none), then the file is opened for writing,
    then the encoder runs. *)
Definition Image_save (w : World) (r : nat) (path : string) : M unit :=
  im ← deref r;
  match encoder w path with
  | inl e => raise e
  | inr encode =>
      if writable w path then
        match encode im with
        | inr f => write_file path (Picture (decoded f im))
        | inl e => _ ← truncate_file w path; raise e
        end
      else raise (save_error path)
  end.

(** [ImageFont.truetype(name, size)] *)
Definition ImageFont_truetype (w : World) (name : string) (size : Z) : M Font :=
  match fonts w !! name with
  | Some f => mret f
  | None => raise (OSError "cannot open resource")
  end.

(** [ImageDraw.Draw(img).rectangle([(x0, y0), (x1, y1)], outline="red", width=2)]:
    the image object is changed in place. *)
Definition ImageDraw_rectangle (r : nat) (x0 y0 x1 y1 : num) (ink : Color) (width : Z)
  : M unit :=
  im ← deref r;
  im' ← lift (draw_rectangle (num_int x0) (num_int y0) (num_int x1) (num_int y1) ink width im);
  store r im'.

(** [ImageDraw.Draw(img).text((x, y), text, fill="red", font=font)] *)
Definition ImageDraw_text (r : nat) (x y : num) (text : string) (ink : Color) (font : Font)
  : M unit :=
  im ← deref r;
  store r (draw_text (num_int x) (num_int y) text ink font im).

(** Lines 38-48 *)
Definition display_image (image_path title : string) : M (option nat) :=
  try_except
    (img ← Image_open image_path;
     im ← deref img;
     _ ← print [Lit ("Displaying " +:+ title +:+ " - Size: (" +:+ pretty (im_width im)
                     +:+ ", " +:+ pretty (im_height im) +:+ ")")];
     mret (Some img))
    is_Exception
    (λ e, _ ← print [Lit ("Error displaying image: " +:+ str_exn e)];
          mret None).

Record Annotation := { box : list num; label : string }.

(** [x, y, w, h = annotation["box"]] *)
Definition unpack4 (l : list num) : Outcome (num * num * num * num) :=
  match l with
  | [x; y; w; h] => Ret (x, y, w, h)
  | _ => Raise (ValueError "wrong number of values to unpack")
  end.

(** Lines 54-58 *)
Definition select_font (w : World) : M Font :=
  try_except (ImageFont_truetype w "arial.ttf" 15)
             is_IOError
             (λ _, mret (default_font w)).

(** Lines 60-68, one iteration *)
Definition draw_annotation (original_image : nat) (font : Font) (annotation : Annotation)
  : M unit :=
  '(x, y, w, h) ← lift (unpack4 (box annotation));
  _ ← ImageDraw_rectangle original_image x y (num_add x w) (num_add y h) red 2;
  ImageDraw_text original_image x (num_sub y (NInt 20)) (label annotation) red font.

(** Lines 50-72 *)
Definition save_image_with_annotations (w : World) (original_image : nat)
    (annotations : list Annotation) (output_path : string) : M nat :=
  font ← select_font w;
  _ ← for_each annotations (λ _ annotation, draw_annotation original_image font annotation) tt;
  _ ← Image_save w original_image output_path;
  _ ← print [Lit ("Annotated image saved to " +:+ output_path)];
  mret original_image.

Definition request_headers (cfg : Config) : list (string * string) :=
  [("Ocp-Apim-Subscription-Key", API_KEY cfg);
   ("Content-Type", "application/octet-stream")].

(** [if not features: features = ["tags", "objects", "caption"]] *)
Definition features_or_default (features : option (list string)) : list string :=
  match features with
  | None | Some [] => ["tags"; "objects"; "caption"]
  | Some l => l
  end.

(** Lines 77-118; [features = None] is the omitted argument. *)
Definition analyze_image (w : World) (cfg : Config) (image_path : string)
    (features : option (list string)) : M (option json_doc) :=
  let features := features_or_default features in
  let analyze_url := ENDPOINT cfg +:+ "computervision/imageanalysis:analyze" in
  let params := [("features", join "," features);
                 ("language", "en");
                 ("gender-neutral-caption", "false")] in
  let headers := request_headers cfg in
  try_except
    (image_data ← read_file image_path;
     response ← requests_post w analyze_url headers params image_data;
     _ ← raise_for_status response;
     response_json response)
    is_Exception
    (λ e, _ ← print [Lit ("Error in analyze_image: " +:+ str_exn e)];
          mret None).

(** Lines 171-209 *)
Definition read_image_text (w : World) (cfg : Config) (image_path : string)
  : M (option json_doc) :=
  let ocr_url := ENDPOINT cfg +:+ "computervision/imageanalysis:analyze" in
  let params := [("features", "read"); ("language", "en")] in
  let headers := request_headers cfg in
  try_except
    (image_data ← read_file image_path;
     response ← requests_post w ocr_url headers params image_data;
     _ ← raise_for_status response;
     response_json response)
    is_Exception
    (λ e, _ ← print [Lit ("Error in read_image_text: " +:+ str_exn e)];
          mret None).

(** Lines 253-293 *)
Definition detect_faces (w : World) (cfg : Config) (image_path : string)
  : M (option json_doc) :=
  let face_api_url := ENDPOINT cfg +:+ "face/v1.0/detect" in
  let params := [("returnFaceId", "true");
                 ("returnFaceLandmarks", "false");
                 ("returnFaceAttributes", "age,gender,emotion,smile");
                 ("recognitionModel", "recognition_04")] in
  let headers := request_headers cfg in
  try_except
    (image_data ← read_file image_path;
     response ← requests_post w face_api_url headers params image_data;
     _ ← raise_for_status response;
     response_json response)
    is_Exception
    (λ e, _ ← print [Lit ("Error in detect_faces: " +:+ str_exn e)];
          mret None).

(** [len(d)] of an analyze response. *)
Definition present {A} (o : option A) : nat :=
  match o with
  | Some _ => 1
  | None => 0
  end.

Definition doc_len (d : analyze_doc) : nat :=
  (present (doc_caption d) + present (doc_tags d) + present (doc_objects d) +
   present (doc_denseCaptions d) + present (doc_readResult d) + doc_other_keys d)%nat.

(** [not results] for what a client function returned: [None], an empty list
    and an empty dict are the false values. *)
Definition py_not (results : option json_doc) : bool :=
  match results with
  | None => true
  | Some (DFaces l) => bool_decide (l = [])
  | Some (DAnalyze d) => bool_decide (doc_len d = 0%nat)
  end.

(** [if img and annotations:] an image object is always true, a list is
    true when it is not empty. *)
Definition img_and_annotations (img : option nat) (annotations : list Annotation)
  : option nat :=
  match img, annotations with
  | Some r, _ :: _ => Some r
  | _, _ => None
  end.

(** [save_image_with_annotations(img.copy(), annotations, output_path)]
    guarded by [if img and annotations:], as the three demos call it. *)
Definition annotate_copy (w : World) (img : option nat) (annotations : list Annotation)
    (output_path : string) : M unit :=
  match img_and_annotations img annotations with
  | Some r =>
      c ← Image_copy r;
      _ ← save_image_with_annotations w c annotations output_path;
      mret tt
  | None => mret tt
  end.

(** Lines 152-159, one iteration *)
Definition object_annotation (annotations : list Annotation) (obj : object_t)
  : M (list Annotation) :=
  tag0 ← lift (list_getitem (obj_tags obj) 0);
  let name := tag_name tag0 in
  let confidence := tag_confidence tag0 in
  let rect := obj_rectangle obj in
  let box := [rect_x rect; rect_y rect; rect_w rect; rect_h rect] in
  _ ← print [Lit ("- " +:+ name +:+ " (Confidence: "); Num ".2f" confidence; Lit ")"];
  mret (annotations ++ [{| box := box; label := name |}]).

(** Lines 131-166: what [demo_image_analysis] does with the result. *)
Definition report_image_analysis (w : World) (img : option nat) (results : option json_doc)
  : M unit :=
  if py_not results then print [Lit "Failed to analyze image."]
  else
    match results with
    | Some (DAnalyze d) =>
        _ ← match doc_caption d with
            | Some c =>
                print [Lit (nl +:+ "Image Caption: " +:+ cap_text c +:+ " (Confidence: ");
                       Num ".2f" (cap_confidence c); Lit ")"]
            | None => mret tt
            end;
        _ ← match doc_tags d with
            | Some tags =>
                _ ← print [Lit (nl +:+ "Tags detected:")];
                for_each tags (λ _ tag,
                  print [Lit ("- " +:+ tag_name tag +:+ " (Confidence: ");
                         Num ".2f" (tag_confidence tag); Lit ")"]) tt
            | None => mret tt
            end;
        _ ← match doc_objects d with
            | Some objects =>
                _ ← print [Lit (nl +:+ "Objects detected:")];
                annotations ← for_each objects object_annotation [];
                annotate_copy w img annotations "objects_detected.jpg"
            | None => mret tt
            end;
        print [Lit (nl +:+ "Image analysis completed!")]
    | _ =>
        (* a list has none of the keys *)
        print [Lit (nl +:+ "Image analysis completed!")]
    end.

(** Lines 120-166 *)
Definition demo_image_analysis (w : World) (cfg : Config) (image_path : string) : M unit :=
  _ ← print [Lit (nl +:+ "=== Image Analysis Demo ===")];
  img ← display_image image_path "Original Image";
  let features := ["tags"; "objects"; "caption"; "denseCaptions"; "smartCrops"] in
  results ← analyze_image w cfg image_path (Some features);
  report_image_analysis w img results.

(** Lines 231-241, one iteration of the inner loop; [extracted_text] is
    accumulated but never read, and is left out. *)
Definition line_annotation (annotations : list Annotation) (line : line_t)
  : M (list Annotation) :=
  let text := line_text line in
  _ ← print [Lit ("- " +:+ text)];
  b ← lift (ocr_line_box (line_boundingBox line));
  mret (annotations ++ [{| box := b; label := text |}]).

(** Lines 221-248: what [demo_ocr] does with the result. *)
Definition report_ocr (w : World) (img : option nat) (ocr_results : option json_doc)
  : M unit :=
  match ocr_results with
  | Some (DAnalyze {| doc_readResult := Some readResult |}) =>
      _ ← print [Lit (nl +:+ "Extracted Text:")];
      annotations ← for_each (read_blocks readResult)
                       (λ annotations block,
                          for_each (block_lines block) line_annotation annotations) [];
      _ ← annotate_copy w img annotations "text_detected.jpg";
      print [Lit (nl +:+ "OCR processing completed!")]
  | _ =>
      (* None, a dict without "readResult", or a list *)
      print [Lit "Failed to extract text from image."]
  end.

(** Lines 211-248 *)
Definition demo_ocr (w : World) (cfg : Config) (image_path : string) : M unit :=
  _ ← print [Lit (nl +:+ "=== OCR Demo ===")];
  img ← display_image image_path "Text Image";
  ocr_results ← read_image_text w cfg image_path;
  report_ocr w img ocr_results.

(** Lines 312-329, one iteration; the state is the counter of [enumerate] and
    the list of annotations. *)
Definition face_annotation (s : nat * list Annotation) (face : face_t)
  : M (nat * list Annotation) :=
  let '(i, annotations) := s in
  let age := fa_age (face_attributes face) in
  let gender := fa_gender (face_attributes face) in
  emotion ← lift (dominant_emotion (fa_emotion (face_attributes face)));
  let rect := face_rectangle face in
  let x := fr_left rect in
  let y := fr_top rect in
  let w := fr_width rect in
  let h := fr_height rect in
  _ ← print [Lit ("- Face " +:+ pretty (S i) +:+ ": Age ~"); Num "" age;
             Lit (", " +:+ capitalize gender +:+ ", Emotion: " +:+ emotion)];
  g ← lift (first_upper gender);
  mret (S i, annotations ++
             [{| box := [x; y; w; h];
                 label := "Age: " +:+ pretty (num_int age) +:+ ", " +:+ g |}]).

(** Lines 305-336: what [demo_face_detection] does with the result. *)
Definition report_faces (w : World) (img : option nat) (face_results : option json_doc)
  : M unit :=
  if py_not face_results then print [Lit "Failed to detect faces or no faces found."]
  else
    match face_results with
    | Some (DFaces faces) =>
        _ ← print [Lit (nl +:+ "Detected " +:+ pretty (length faces) +:+ " faces:")];
        '(_, annotations) ← for_each faces face_annotation (0%nat, []);
        _ ← annotate_copy w img annotations "faces_detected.jpg";
        print [Lit (nl +:+ "Face detection completed!")]
    | Some (DAnalyze d) =>
        (* iterating a dict yields its keys, and a key is a string *)
        _ ← print [Lit (nl +:+ "Detected " +:+ pretty (doc_len d) +:+ " faces:")];
        raise (TypeError "string indices must be integers")
    | None => mret tt
    end.

(** Lines 295-336 *)
Definition demo_face_detection (w : World) (cfg : Config) (image_path : string) : M unit :=
  _ ← print [Lit (nl +:+ "=== Face Detection Demo ===")];
  img ← display_image image_path "Faces Image";
  face_results ← detect_faces w cfg image_path;
  report_faces w img face_results.

(** Lines 386-408 *)
Definition run_azure_vision_demo (w : World) (cfg : Config) : M unit :=
  _ ← print [Lit "===== Azure Computer Vision API Demo ====="];
  _ ← (if bool_decide (ENDPOINT cfg = "https://your-resource-name.cognitiveservices.azure.com/")
          || bool_decide (API_KEY cfg = "your_api_key_here")
       then
         _ ← print [Lit (nl +:+ "WARNING: Please set your actual Azure API key and endpoint before running this demo.")];
         print [Lit "The demo will run with mock data for demonstration purposes."]
       else mret tt);
  _ ← demo_image_analysis w cfg "sample_image.jpg";
  _ ← print [Lit (nl +:+ "===== Demo Completed =====")];
  _ ← print [Lit (nl +:+ "To use this demo with your own images:")];
  _ ← print [Lit "1. Update the ENDPOINT and API_KEY variables with your Azure credentials"];
  _ ← print [Lit "2. Provide paths to your own image files for each demo function"];
  print [Lit "3. Install required packages: pip install requests pillow"].

(** [python main.py]: load the module, then run the demo. *)
Definition main (w : World) : M unit :=
  cfg ← lift (load_module w);
  run_azure_vision_demo w cfg.

(** Lines 341-354 *)
Definition generate_description (w : World) (cfg : Config) (image_path : string)
  : M (option json_doc) :=
  analyze_image w cfg image_path (Some ["caption"; "denseCaptions"]).

(** Lines 366-381: what [demo_image_description] does with the result; the
    state of the loop is the counter of [enumerate]. *)
Definition report_description (description_results : option json_doc) : M unit :=
  match description_results with
  | Some (DAnalyze {| doc_caption := Some c; doc_denseCaptions := dense |}) =>
      _ ← print [Lit (nl +:+ "Image Caption: " +:+ cap_text c +:+ " (Confidence: ");
                 Num ".2f" (cap_confidence c); Lit ")"];
      _ ← match dense with
          | Some captions =>
              _ ← print [Lit (nl +:+ "Detailed Region Descriptions:")];
              _ ← for_each captions (λ i caption,
                    _ ← print [Lit ("- Region " +:+ pretty (S i) +:+ ": " +:+ cap_text caption
                                    +:+ " (Confidence: ");
                               Num ".2f" (cap_confidence caption); Lit ")"];
                    mret (S i)) 0%nat;
              mret tt
          | None => mret tt
          end;
      print [Lit (nl +:+ "Image description completed!")]
  | _ =>
      (* None, a dict without "caption", or a list *)
      print [Lit "Failed to generate description."]
  end.

(** Lines 356-381 *)
Definition demo_image_description (w : World) (cfg : Config) (image_path : string)
  : M unit :=
  _ ← print [Lit (nl +:+ "=== Image Description Demo ===")];
  _ ← display_image image_path "Scene Image";
  description_results ← generate_description w cfg image_path;
  report_description description_results.

End Main.

(** * OCR.py *)

Module OCRpy.

(** [load_dotenv()] at import: variables of the .env file are added to the
    environment unless already set there. *)
Definition loaded_environ (w : World) : gmap string string := environ w ∪ dotenv w.

(** [os.getenv(k)] *)
Definition getenv (w : World) (k : string) : option string := loaded_environ w !! k.

(** [not v] for what [os.getenv] returned. *)
Definition not_set (v : option string) : bool :=
  match v with
  | None | Some "" => true
  | Some _ => false
  end.

(** [client.analyze(image_data=..., visual_features=..., gender_neutral_caption=...)] *)
Definition client_analyze (w : World) (c : SdkCall) : M ImageAnalysisResult :=
  _ ← issue (Analyze c);
  match sdk_service w c with
  | inl msg => raise (HttpResponseError msg)
  | inr r => mret r
  end.

(** Lines 46-49, one iteration of the outer loop *)
Definition print_line (line : DetectedTextLine) : M unit :=
  _ ← print [Lit ("   Line: '" +:+ dline_text line +:+ "', Bounding box ");
             Poly (dline_bounding_polygon line)];
  for_each (dline_words line) (λ _ word,
    print [Lit ("     Word: '" +:+ word_text word +:+ "', Bounding polygon ");
           Poly (word_bounding_polygon word);
           Lit ", Confidence "; Num ".4f" (word_confidence word)]) tt.

(** Lines 9-49 *)
Definition OCR (w : World) : M unit :=
  let endpoint := getenv w "VISION_ENDPOINT" in
  let key := getenv w "VISION_KEY" in
  if not_set endpoint || not_set key then
    _ ← print [Lit "Missing environment variable 'VISION_ENDPOINT' or 'VISION_KEY'"];
    _ ← print [Lit "Set them before running this sample."];
    raise SystemExit
  else
    image_data ← read_file "text_sample.jpg";
    result ← client_analyze w
               {| sdk_endpoint := default "" endpoint; sdk_key := default "" key;
                  sdk_image_data := image_data;
                  sdk_visual_features := ["CAPTION"; "READ"; "TAGS"];
                  sdk_gender_neutral_caption := true |};
    _ ← print [Lit "Image analysis results:"];
    _ ← print [Lit " Caption:"];
    _ ← match result_caption result with
        | Some c =>
            print [Lit ("   '" +:+ cr_text c +:+ "', Confidence ");
                   Num ".4f" (cr_confidence c)]
        | None => mret tt
        end;
    _ ← print [Lit " Read:"];
    match result_read result with
    | Some read =>
        block0 ← lift (list_getitem (rr_blocks read) 0);
        for_each (dblock_lines block0) (λ _ line, print_line line) tt
    | None => mret tt
    end.

End OCRpy.

(** * caption.py *)

Module Captionpy.

(** Lines 9-41 *)
Definition caption (w : World) : M unit :=
  let endpoint := OCRpy.getenv w "VISION_ENDPOINT" in
  let key := OCRpy.getenv w "VISION_KEY" in
  if OCRpy.not_set endpoint || OCRpy.not_set key then
    _ ← print [Lit "Missing environment variable 'VISION_ENDPOINT' or 'VISION_KEY'"];
    _ ← print [Lit "Set them before running this sample."];
    raise SystemExit
  else
    image_data ← read_file "scene_sample.jpg";
    result ← OCRpy.client_analyze w
               {| sdk_endpoint := default "" endpoint; sdk_key := default "" key;
                  sdk_image_data := image_data;
                  sdk_visual_features := ["CAPTION"; "READ"; "TAGS"];
                  sdk_gender_neutral_caption := true |};
    _ ← print [Lit "Image analysis results:"];
    _ ← print [Lit " Caption:"];
    match result_caption result with
    | Some c =>
        print [Lit ("   '" +:+ cr_text c +:+ "', Confidence ");
               Num ".4f" (cr_confidence c)]
    | None => mret tt
    end.

End Captionpy.

(** * objects.py *)

Module Objectspy.

(** The part of the analysis result that objects.py reads. *)
Record DetectedTag := { dtag_name : string; dtag_confidence : num }.
Record DetectedObject := {
  dobj_tags : list DetectedTag;
  dobj_bounding_box : Z * Z * Z * Z          (* x, y, w, h *)
}.
Record ObjectsAnalysisResult := {
  result_objects : option (list DetectedObject);
  metadata_height : Z;
  metadata_width : Z;
  model_version : string
}.

(** [client.analyze(image_data=..., visual_features=[VisualFeatures.OBJECTS])];
    [service] is the remote service as this script meets it. *)
Definition client_analyze (service : SdkCall → string + ObjectsAnalysisResult) (c : SdkCall)
  : M ObjectsAnalysisResult :=
  _ ← issue (Analyze c);
  match service c with
  | inl msg => raise (HttpResponseError msg)
  | inr r => mret r
  end.

(** Lines 40-41, one iteration; the bounding box is interpolated as its two
    pairs (x, y) and (w, h). *)
Definition print_object (object : DetectedObject) : M unit :=
  tag0 ← lift (list_getitem (dobj_tags object) 0);
  let '(x, y, bw, bh) := dobj_bounding_box object in
  print [Lit ("   '" +:+ dtag_name tag0 +:+ "', "); Poly [(x, y); (bw, bh)];
         Lit ", Confidence: "; Num ".4f" (dtag_confidence tag0)].

(** Lines 9-44 *)
Definition sample_objects_image_file (w : World)
    (service : SdkCall → string + ObjectsAnalysisResult) : M unit :=
  let endpoint := OCRpy.getenv w "VISION_ENDPOINT" in
  let key := OCRpy.getenv w "VISION_KEY" in
  if OCRpy.not_set endpoint || OCRpy.not_set key then
    _ ← print [Lit "Missing environment variable 'VISION_ENDPOINT' or 'VISION_KEY'"];
    _ ← print [Lit "Set them before running this sample."];
    raise SystemExit
  else
    image_data ← read_file "sample.jpg";
    result ← client_analyze service
               {| sdk_endpoint := default "" endpoint; sdk_key := default "" key;
                  sdk_image_data := image_data;
                  sdk_visual_features := ["OBJECTS"];
                  sdk_gender_neutral_caption := false |};
    _ ← print [Lit "Image analysis results:"];
    _ ← print [Lit " Objects:"];
    _ ← match result_objects result with
        | Some objects => for_each objects (λ _ object, print_object object) tt
        | None => mret tt
        end;
    _ ← print [Lit " Image height: "; Num "" (NInt (metadata_height result))];
    _ ← print [Lit " Image width: "; Num "" (NInt (metadata_width result))];
    print [Lit (" Model version: " +:+ model_version result)].

End Objectspy.

(** * The specification's words, for comparison *)

(** The x-coordinates and the y-coordinates of a flat list of points. *)
Fixpoint x_coords (bb : list num) : list num :=
  match bb with
  | x :: _ :: r => x :: x_coords r
  | _ => []
  end.

Fixpoint y_coords (bb : list num) : list num :=
  match bb with
  | _ :: y :: r => y :: y_coords r
  | _ => []
  end.

Definition Qmin_list (l : list Q) : option Q :=
  match l with
  | [] => None
  | q :: r => Some (fold_left Qmin r q)
  end.

Definition Qmax_list (l : list Q) : option Q :=
  match l with
  | [] => None
  | q :: r => Some (fold_left Qmax r q)
  end.

(** The minimal enclosing axis-aligned rectangle [(x, y, width, height)] of
    the polygon, as the specification defines it. *)
Definition spec_enclosing_rect (bb : list num) : option (Q * Q * Q * Q) :=
  xmin ← Qmin_list (num_val <$> x_coords bb);
  ymin ← Qmin_list (num_val <$> y_coords bb);
  xmax ← Qmax_list (num_val <$> x_coords bb);
  ymax ← Qmax_list (num_val <$> y_coords bb);
  Some (xmin, ymin, xmax - xmin, ymax - ymin)%Q.

(** A box [[x, y, w, h]] denotes the rectangle [r]. *)
Definition box_denotes (b : list num) (r : Q * Q * Q * Q) : Prop :=
  match b, r with
  | [x; y; w; h], (rx, ry, rw, rh) =>
      (num_val x == rx ∧ num_val y == ry ∧ num_val w == rw ∧ num_val h == rh)%Q
  | _, _ => False
  end.

(** A quadrilateral whose first corner is not its top-left one. *)
Definition skewed_box : list num :=
  [NInt 10; NInt 10; NInt 50; NInt 5; NInt 55; NInt 25; NInt 5; NInt 30].

(** An upright rectangle listed clockwise from its top-left corner. *)
Definition upright_box : list num :=
  [NInt 10; NInt 20; NInt 110; NInt 20; NInt 110; NInt 45; NInt 10; NInt 45].

(** * Requests, worlds and inputs used in the statements and examples *)

(** The request [analyze_image] sends for the file content [data]. *)
Definition analyze_request (cfg : Main.Config) (features : option (list string))
    (data : FileData) : Request :=
  {| req_url := Main.ENDPOINT cfg +:+ "computervision/imageanalysis:analyze";
     req_headers := Main.request_headers cfg;
     req_params := [("features", join "," (Main.features_or_default features));
                    ("language", "en");
                    ("gender-neutral-caption", "false")];
     req_data := data |}.

(** The request [detect_faces] sends for the file content [data]. *)
Definition faces_request (cfg : Main.Config) (data : FileData) : Request :=
  {| req_url := Main.ENDPOINT cfg +:+ "face/v1.0/detect";
     req_headers := Main.request_headers cfg;
     req_params := [("returnFaceId", "true");
                    ("returnFaceLandmarks", "false");
                    ("returnFaceAttributes", "age,gender,emotion,smile");
                    ("recognitionModel", "recognition_04")];
     req_data := data |}.

(** The call [OCR] makes for the file content [data]. *)
Definition ocr_call (endpoint key : string) (data : FileData) : SdkCall :=
  {| sdk_endpoint := endpoint; sdk_key := key;
     sdk_image_data := data;
     sdk_visual_features := ["CAPTION"; "READ"; "TAGS"];
     sdk_gender_neutral_caption := true |}.

Definition black : Color := (0, 0, 0).

(** A black image of the given size. *)
Definition blank (width height : nat) : Image := replicate height (replicate width black).

Definition bitmap_font : Font := {| font_name := "default"; text_mask := λ _, [(0, 0)] |}.

Definition reply (status : Z) (why : string) (body : string) (j : string + json_doc)
  : Response :=
  {| status_code := status; reason := why; resp_url := "https://vision.example/";
     resp_text := body;
     resp_json := match j with
                  | inl msg => inl msg
                  | inr d => inr (Some d)
                  end |}.

(** A reply whose body is the JSON value [null]. *)
Definition reply_null (status : Z) (why : string) : Response :=
  {| status_code := status; reason := why; resp_url := "https://vision.example/";
     resp_text := "null"; resp_json := inr None |}.

(** A stand-in for the JPEG encoder: it refuses an image without pixels and
    otherwise loses a little of every saturated channel, the way a pure red
    (255, 0, 0) comes back as (254, 0, 0) from a JPEG file. *)
Definition jpeg_channel (v : Z) : Z := if decide (v = 255) then 254 else v.

Definition jpeg_pixel (c : Color) : Color :=
  let '(r, g, b) := c in (jpeg_channel r, jpeg_channel g, jpeg_channel b).

Definition jpeg_encoder : Encoder := λ im,
  if decide (im_width im = 0) then inl (ValueError "cannot write empty image as JPEG")
  else inr (λ px py, jpeg_pixel (default black (getpixel im px py))).

(** A lossless encoder, as PNG is for these rasters. *)
Definition png_encoder : Encoder := λ im,
  inr (λ px py, default black (getpixel im px py)).

(** [s] ends with [suffix]. *)
Definition ends_with (suffix s : string) : bool :=
  String.prefix (String.rev suffix) (String.rev s).

(** The encoders registered by extension. *)
Definition sample_encoder (path : string) : Exn + Encoder :=
  if ends_with ".jpg" path || ends_with ".jpeg" path then inr jpeg_encoder
  else if ends_with ".png" path then inr png_encoder
  else inl (ValueError "unknown file extension").

Definition empty_doc : analyze_doc :=
  {| doc_caption := None; doc_tags := None; doc_objects := None;
     doc_denseCaptions := None; doc_readResult := None; doc_other_keys := 2 |}.

(** A process environment with both variables set to the given values. *)
Definition env_of (endpoint key : string) : gmap string string :=
  <["VISION_ENDPOINT" := endpoint]> (<["VISION_KEY" := key]> ∅).

(** A world with no font file, no .env file, every path writable except
    those under [/readonly/], and encoders for .jpg, .jpeg and .png. *)
Definition world_of (env : gmap string string) (srv : Request → Transport)
    (sdk : SdkCall → string + ImageAnalysisResult) : World :=
  {| environ := env; dotenv := ∅; server := srv; sdk_service := sdk;
     fonts := ∅; default_font := bitmap_font;
     writable := λ p, negb (String.prefix "/readonly/" p);
     encoder := sample_encoder;
     save_cleans_up := true |}.

Definition no_sdk (c : SdkCall) : string + ImageAnalysisResult := inl "unreachable".

(** A start state: nothing printed, no image loaded, nothing sent, and the
    sample files present as 4x4 black images. *)
Definition start : State :=
  {| stdout := []; heap := []; network := [];
     fs := <["sample_image.jpg" := Picture (blank 4 4)]>
           (<["faces_sample.jpg" := Picture (blank 4 4)]>
           (<["text_sample.jpg" := Picture (blank 4 4)]> ∅)) |}.

Definition config0 : Main.Config :=
  {| Main.ENDPOINT := "https://vision.example/"; Main.API_KEY := "secret" |}.

Definition sample_emotion : list (string * num) :=
  [("anger", NFloat (1 # 100)); ("happiness", NFloat (9 # 10));
   ("sadness", NFloat (5 # 100)); ("surprise", NFloat (9 # 10))].

(** The state after more lines were printed, and after more calls were
    made to [requests.post] or to the SDK client. *)
Definition printed (st : State) (lines : list (list piece)) : State :=
  {| stdout := stdout st ++ lines; heap := heap st;
     network := network st; fs := fs st |}.

Definition sent (st : State) (calls : list NetCall) : State :=
  {| stdout := stdout st; heap := heap st;
     network := network st ++ calls; fs := fs st |}.

(** What lines 46-49 of OCR.py print for one line of text. *)
Definition line_output (line : DetectedTextLine) : list (list piece) :=
  [Lit ("   Line: '" +:+ dline_text line +:+ "', Bounding box ");
   Poly (dline_bounding_polygon line)]
  :: ((λ word, [Lit ("     Word: '" +:+ word_text word +:+ "', Bounding polygon ");
                Poly (word_bounding_polygon word);
                Lit ", Confidence "; Num ".4f" (word_confidence word)])
      <$> dline_words line).

Definition block_output (b : DetectedTextBlock) : list (list piece) :=
  concat (line_output <$> dblock_lines b).

(** What OCR.py prints before it reaches the read result. *)
Definition ocr_preamble (res : ImageAnalysisResult) : list (list piece) :=
  [[Lit "Image analysis results:"]; [Lit " Caption:"]] ++
  match result_caption res with
  | Some c => [[Lit ("   '" +:+ cr_text c +:+ "', Confidence "); Num ".4f" (cr_confidence c)]]
  | None => []
  end ++
  [[Lit " Read:"]].

Definition missing_variable_message : list (list piece) :=
  [[Lit "Missing environment variable 'VISION_ENDPOINT' or 'VISION_KEY'"];
   [Lit "Set them before running this sample."]].

Definition error_body : json_doc :=
  DAnalyze {| doc_caption := None; doc_tags := None; doc_objects := None;
              doc_denseCaptions := None; doc_readResult := None; doc_other_keys := 1 |}.

(** The service answers every request with 404. *)
Definition world_404 : World :=
  world_of (env_of "https://vision.example/" "secret")
           (λ _, Replied (reply 404 "Not Found" "resource not found" (inr error_body)))
           no_sdk.

(** The service answers every request with 300 and a JSON body. *)
Definition world_300 : World :=
  world_of (env_of "https://vision.example/" "secret")
           (λ _, Replied (reply 300 "Multiple Choices" "choices" (inr (DAnalyze empty_doc))))
           no_sdk.

(** The key is set but empty; the service refuses with 401. *)
Definition world_empty_key : World :=
  world_of (env_of "https://vision.example/" "")
           (λ _, Replied (reply 401 "Unauthorized" "access denied" (inr error_body)))
           no_sdk.

(** The key is not set at all. *)
Definition world_no_key : World :=
  world_of (<["VISION_ENDPOINT" := "https://vision.example/"]> ∅)
           (λ _, Failed "unreachable") no_sdk.

(** No service can be reached. *)
Definition world_offline : World :=
  world_of (env_of "https://vision.example/" "secret")
           (λ _, Failed "unreachable") no_sdk.

(** The face service finds no face. *)
Definition world_no_faces : World :=
  world_of (env_of "https://vision.example/" "secret")
           (λ _, Replied (reply 200 "OK" "[]" (inr (DFaces []))))
           no_sdk.

(** The service answers every request with 200 and a body of [null]. *)
Definition world_null : World :=
  world_of (env_of "https://vision.example/" "secret")
           (λ _, Replied (reply_null 200 "OK"))
           no_sdk.

(** The face service fails. *)
Definition world_faces_down : World :=
  world_of (env_of "https://vision.example/" "secret")
           (λ _, Replied (reply 500 "Internal Server Error" "" (inl "Expecting value")))
           no_sdk.

Definition a_word (t : string) : DetectedTextWord :=
  {| word_text := t; word_bounding_polygon := [(0, 0); (8, 0); (8, 8); (0, 8)];
     word_confidence := NFloat (99 # 100) |}.

Definition a_line (t : string) : DetectedTextLine :=
  {| dline_text := t; dline_bounding_polygon := [(0, 0); (8, 0); (8, 8); (0, 8)];
     dline_words := [a_word t] |}.

(** A read result of two blocks, and one of no block. *)
Definition two_blocks : ImageAnalysisResult :=
  {| result_caption := None;
     result_read := Some {| rr_blocks := [ {| dblock_lines := [a_line "first"] |};
                                           {| dblock_lines := [a_line "second"] |} ] |} |}.

Definition no_block : ImageAnalysisResult :=
  {| result_caption := None; result_read := Some {| rr_blocks := [] |} |}.

Definition world_sdk (res : ImageAnalysisResult) : World :=
  world_of (env_of "https://vision.example/" "secret")
           (λ _, Failed "unreachable") (λ _, inr res).

(** ** The renderer's effect on the state *)

(** The state after the image object [r] was changed to [im], and after a
    file was written. *)
Definition set_image (st : State) (r : nat) (im : Image) : State :=
  {| stdout := stdout st; heap := <[r := im]> (heap st);
     network := network st; fs := fs st |}.

Definition wrote (st : State) (path : string) (d : FileData) : State :=
  {| stdout := stdout st; heap := heap st;
     network := network st; fs := <[path := d]> (fs st) |}.


(** Every run of [m] relates its start state to its end state by [R]. *)
Definition keeps {A} (R : State → State → Prop) (m : M A) : Prop :=
  ∀ st o st', m st = (o, st') → R st st'.

(** Valid box and label data: four numbers, of which the width and the
    height are not negative. *)
Definition valid_annotation (a : Main.Annotation) : Prop :=
  ∃ x y w h, Main.box a = [x; y; w; h] ∧ (0 <= num_val w)%Q ∧ (0 <= num_val h)%Q.

(** The font the renderer ends up with. *)
Definition chosen_font (w : World) : Font :=
  default (default_font w) (fonts w !! "arial.ttf").

(** One annotation in the top-left corner of a 4x4 image. *)
Definition corner_annotation : Main.Annotation :=
  {| Main.box := [NInt 0; NInt 0; NInt 3; NInt 3]; Main.label := "Cat" |}.

(** The start state after one 4x4 black image was opened. *)
Definition loaded : State :=
  {| stdout := []; heap := [blank 4 4]; network := []; fs := fs start |}.

(** An image of one colour, and the state after a red 4x4 image was
    opened. *)
Definition plain (c : Color) (width height : nat) : Image :=
  replicate height (replicate width c).

Definition loaded_red : State :=
  {| stdout := []; heap := [plain red 4 4]; network := []; fs := fs start |}.


(** * More definitions for statements about the rest of the code *)

(** ** Relations between the start state and the end state of a run *)

(** Nothing was printed, sent or written; only image objects may differ. *)
Definition draw_only (st st' : State) : Prop :=
  stdout st' = stdout st ∧ network st' = network st ∧ fs st' = fs st.

(** No image object and no file was touched. *)
Definition io_only (st st' : State) : Prop :=
  heap st' = heap st ∧ fs st' = fs st.

(** No call was made to [requests.post] or to the SDK client. *)
Definition net_same (st st' : State) : Prop := network st' = network st.

(** No such call was made and no file was written. *)
Definition net_fs_same (st st' : State) : Prop :=
  network st' = network st ∧ fs st' = fs st.

(** Every file other than [p] is as it was. *)
Definition fs_frame (p : string) (st st' : State) : Prop :=
  ∀ q, q ≠ p → fs st' !! q = fs st !! q.

(** Two rasters of the same size: as many rows, of the same lengths. *)
Definition same_size (im im' : Image) : Prop := length <$> im' = length <$> im.

(** Every image object that existed is still there, with its size. *)
Definition sizes_kept (st st' : State) : Prop :=
  ∀ r im, heap st !! r = Some im → ∃ im', heap st' !! r = Some im' ∧ same_size im im'.

(** ** The three client functions of main.py, side by side *)

(** What a client function named [fn], which posts [request data], does. *)
Definition client_outcome (w : World) (fn : string) (request : FileData → Request)
    (image_path : string) (st : State) : Outcome (option json_doc) * State :=
  let failed (st1 : State) (e : Exn) :=
    (Ret None, printed st1 [[Lit ("Error in " +:+ fn +:+ ": " +:+ str_exn e)]]) in
  match fs st !! image_path with
  | None => failed st (FileNotFoundError image_path)
  | Some data =>
      let st1 := sent st [Post (request data)] in
      match server w (request data) with
      | Failed msg => failed st1 (RequestException msg)
      | Replied r =>
          if decide (400 ≤ status_code r < 600) then failed st1 (HTTPError r)
          else match resp_json r with
               | inl msg => failed st1 (JSONDecodeError msg)
               | inr d => (Ret d, st1)
               end
      end
  end.

(** The request [read_image_text] sends for the file content [data]. *)
Definition read_request (cfg : Main.Config) (data : FileData) : Request :=
  {| req_url := Main.ENDPOINT cfg +:+ "computervision/imageanalysis:analyze";
     req_headers := Main.request_headers cfg;
     req_params := [("features", "read"); ("language", "en")];
     req_data := data |}.

(** The requests of main.py written out: the subscription key and the
    content type as headers, the file's content as the body. *)
Definition post_request (url key : string) (params : list (string * string))
    (data : FileData) : Request :=
  {| req_url := url;
     req_headers := [("Ocp-Apim-Subscription-Key", key);
                     ("Content-Type", "application/octet-stream")];
     req_params := params;
     req_data := data |}.

(** The features parameter for the argument [features] of [analyze_image]. *)
Definition features_param (features : option (list string)) : string :=
  match features with
  | None | Some [] => "tags,objects,caption"
  | Some l => String.concat "," l
  end.

Definition analyze_post (endpoint key : string) (features : option (list string))
    (data : FileData) : Request :=
  post_request (endpoint +:+ "computervision/imageanalysis:analyze") key
    [("features", features_param features); ("language", "en");
     ("gender-neutral-caption", "false")] data.

Definition read_post (endpoint key : string) (data : FileData) : Request :=
  post_request (endpoint +:+ "computervision/imageanalysis:analyze") key
    [("features", "read"); ("language", "en")] data.

Definition faces_post (endpoint key : string) (data : FileData) : Request :=
  post_request (endpoint +:+ "face/v1.0/detect") key
    [("returnFaceId", "true"); ("returnFaceLandmarks", "false");
     ("returnFaceAttributes", "age,gender,emotion,smile");
     ("recognitionModel", "recognition_04")] data.

(** The one request of python main.py. *)
Definition main_post (endpoint key : string) (data : FileData) : Request :=
  post_request (endpoint +:+ "computervision/imageanalysis:analyze") key
    [("features", "tags,objects,caption,denseCaptions,smartCrops"); ("language", "en");
     ("gender-neutral-caption", "false")] data.

(** The three client functions, each with its name and the request it
    makes for the file content. *)
Definition clients (w : World) (cfg : Main.Config) (features : option (list string))
  : list (string * (string → M (option json_doc)) * (FileData → Request)) :=
  [("analyze_image", λ image_path, Main.analyze_image w cfg image_path features,
    analyze_post (Main.ENDPOINT cfg) (Main.API_KEY cfg) features);
   ("read_image_text", Main.read_image_text w cfg,
    read_post (Main.ENDPOINT cfg) (Main.API_KEY cfg));
   ("detect_faces", Main.detect_faces w cfg,
    faces_post (Main.ENDPOINT cfg) (Main.API_KEY cfg))].

(** ** What the renderer draws and writes *)

(** The raster after one annotation with a box of four numbers was drawn:
    the red outline, two pixels wide, from (x, y) to (x + w, y + h), then the
    label in red, 20 pixels above the box. *)
Definition draw_one (font : Font) (im : Image) (a : Main.Annotation) : Image :=
  match Main.box a with
  | [x; y; w; h] =>
      draw_text (num_int x) (num_int (num_sub y (NInt 20))) (Main.label a) red font
        (paint (outline_mask (num_int x) (num_int y)
                  (num_int (num_add x w)) (num_int (num_add y h)) 2) red im)
  | _ => im
  end.

(** The raster after the annotations were drawn, in order. *)
Definition drawn (font : Font) (annotations : list Main.Annotation) (im : Image) : Image :=
  fold_left (draw_one font) annotations im.

(** The state after a new image object holding [im] was created. *)
Definition allocated (st : State) (im : Image) : State :=
  {| stdout := stdout st; heap := heap st ++ [im];
     network := network st; fs := fs st |}.

(** The state after a save to [path] failed in the encoder: a file that
    existed is left empty, and so is a file that did not exist when
    [Image.save] does not clean up. *)
Definition truncated (w : World) (st : State) (path : string) : State :=
  match fs st !! path with
  | Some _ => wrote st path (Blob "")
  | None => if save_cleans_up w then st else wrote st path (Blob "")
  end.

(** A string of ASCII characters only. *)
Definition ascii_only (s : string) : Prop :=
  forallb (λ c, (nat_of_ascii c <? 128)%nat) (list_ascii_of_string s) = true.

(** An annotation that the renderer can draw with any font: four numbers,
    of which the width and the height are not negative, and a label in
    ASCII. *)
Definition drawable (a : Main.Annotation) : Prop :=
  valid_annotation a ∧ ascii_only (Main.label a).

(** ** What the demo loops collect and print *)

(** All lines of a read result, in reading order. *)
Definition all_lines (rr : readResult_t) : list line_t :=
  concat (block_lines <$> read_blocks rr).

(** A line that [demo_ocr] can annotate: its bounding box holds at least 6
    numbers. *)
Definition line_ok (line : line_t) : Prop := (6 ≤ length (line_boundingBox line))%nat.

(** The annotation [demo_ocr] makes for such a line, and what it prints. *)
Definition line_annotation_of (line : line_t) : Main.Annotation :=
  {| Main.box := match line_boundingBox line with
                 | x0 :: y0 :: x1 :: _ :: _ :: y2 :: _ =>
                     [x0; y0; num_sub x1 x0; num_sub y2 y0]
                 | _ => []
                 end;
     Main.label := line_text line |}.

Definition line_printed (line : line_t) : list piece := [Lit ("- " +:+ line_text line)].

(** A face that [demo_face_detection] can annotate: it has at least one
    emotion score and a gender that is not the empty string. *)
Definition face_ok (face : face_t) : Prop :=
  fa_emotion (face_attributes face) ≠ [] ∧ fa_gender (face_attributes face) ≠ "".

Definition emotion_of (face : face_t) : string :=
  match dominant_emotion (fa_emotion (face_attributes face)) with
  | Ret name => name
  | Raise _ => ""
  end.

Definition initial_of (gender : string) : string :=
  match gender with
  | EmptyString => ""
  | String c _ => String (ascii_upper c) ""
  end.

(** The annotation [demo_face_detection] makes for such a face, and what it
    prints for the face met at position [i] (counted from 0). *)
Definition face_annotation_of (face : face_t) : Main.Annotation :=
  {| Main.box := [fr_left (face_rectangle face); fr_top (face_rectangle face);
                  fr_width (face_rectangle face); fr_height (face_rectangle face)];
     Main.label := "Age: " +:+ pretty (num_int (fa_age (face_attributes face))) +:+ ", "
                   +:+ initial_of (fa_gender (face_attributes face)) |}.

Definition face_printed (i : nat) (face : face_t) : list piece :=
  [Lit ("- Face " +:+ pretty (S i) +:+ ": Age ~"); Num "" (fa_age (face_attributes face));
   Lit (", " +:+ capitalize (fa_gender (face_attributes face)) +:+ ", Emotion: "
        +:+ emotion_of face)].

(** What [demo_image_description] prints for the dense caption met at
    position [i] (counted from 0). *)
Definition region_printed (i : nat) (caption : caption_t) : list piece :=
  [Lit ("- Region " +:+ pretty (S i) +:+ ": " +:+ cap_text caption +:+ " (Confidence: ");
   Num ".2f" (cap_confidence caption); Lit ")"].

(** A face of age 31.7 with two emotion scores, and one with no score. *)
Definition a_face : face_t :=
  {| face_attributes := {| fa_age := NFloat (317 # 10); fa_gender := "female";
                           fa_emotion := [("neutral", NFloat (2 # 10));
                                          ("happiness", NFloat (8 # 10))] |};
     face_rectangle := {| fr_left := NInt 1; fr_top := NInt 1;
                          fr_width := NInt 2; fr_height := NInt 2 |} |}.

Definition a_face_without_emotion : face_t :=
  {| face_attributes := {| fa_age := NInt 40; fa_gender := "male"; fa_emotion := [] |};
     face_rectangle := {| fr_left := NInt 0; fr_top := NInt 0;
                          fr_width := NInt 1; fr_height := NInt 1 |} |}.

Definition a_text_line (t : string) (bb : list num) : line_t :=
  {| line_text := t; line_boundingBox := bb |}.

(** A read result of two blocks with one line each. *)
Definition two_line_doc : analyze_doc :=
  {| doc_caption := None; doc_tags := None; doc_objects := None;
     doc_denseCaptions := None;
     doc_readResult :=
       Some {| read_blocks :=
                 [ {| block_lines := [a_text_line "STOP" upright_box] |};
                   {| block_lines := [a_text_line "GO" upright_box] |} ] |};
     doc_other_keys := 2 |}.

(** The same with a second line whose bounding box is too short. *)
Definition short_box_doc : analyze_doc :=
  {| doc_caption := None; doc_tags := None; doc_objects := None;
     doc_denseCaptions := None;
     doc_readResult :=
       Some {| read_blocks :=
                 [ {| block_lines := [a_text_line "STOP" upright_box] |};
                   {| block_lines := [a_text_line "GO" [NInt 1; NInt 2; NInt 3; NInt 4]] |} ] |};
     doc_other_keys := 2 |}.

(** What [demo_image_analysis] prints for the caption and for a tag, and
    what it prints before it reaches the objects. *)
Definition caption_printed (c : caption_t) : list piece :=
  [Lit (nl +:+ "Image Caption: " +:+ cap_text c +:+ " (Confidence: ");
   Num ".2f" (cap_confidence c); Lit ")"].

Definition tag_printed (tag : tag_t) : list piece :=
  [Lit ("- " +:+ tag_name tag +:+ " (Confidence: "); Num ".2f" (tag_confidence tag); Lit ")"].

Definition analysis_preamble (d : analyze_doc) : list (list piece) :=
  match doc_caption d with
  | Some c => [caption_printed c]
  | None => []
  end ++
  match doc_tags d with
  | Some tags => [Lit (nl +:+ "Tags detected:")] :: (tag_printed <$> tags)
  | None => []
  end.

(** An object that [demo_image_analysis] can annotate: it has a tag. *)
Definition object_ok (obj : object_t) : Prop := obj_tags obj ≠ [].

(** Its annotation and the line printed for it: both use the first tag. *)
Definition object_annotation_of (obj : object_t) : Main.Annotation :=
  {| Main.box := [rect_x (obj_rectangle obj); rect_y (obj_rectangle obj);
                  rect_w (obj_rectangle obj); rect_h (obj_rectangle obj)];
     Main.label := from_option tag_name "" (head (obj_tags obj)) |}.

Definition object_printed (obj : object_t) : list piece :=
  from_option tag_printed [] (head (obj_tags obj)).

Definition an_object (name : string) (tags : nat) : object_t :=
  {| obj_tags := replicate tags {| tag_name := name; tag_confidence := NFloat (9 # 10) |};
     obj_rectangle := {| rect_x := NInt 0; rect_y := NInt 0;
                         rect_w := NInt 2; rect_h := NInt 2 |} |}.

(** An analyze response with a caption, dense captions and two objects, the
    second of which has no tag. *)
Definition sample_doc : analyze_doc :=
  {| doc_caption := Some {| cap_text := "a cat"; cap_confidence := NFloat (8 # 10) |};
     doc_tags := None;
     doc_objects := Some [an_object "cat" 1; an_object "dog" 0];
     doc_denseCaptions := Some [ {| cap_text := "a cat"; cap_confidence := NFloat (8 # 10) |};
                                 {| cap_text := "a tail"; cap_confidence := NFloat (5 # 10) |} ];
     doc_readResult := None;
     doc_other_keys := 2 |}.

(** The same response without its caption. *)
Definition dense_only_doc : analyze_doc :=
  {| doc_caption := None; doc_tags := None; doc_objects := None;
     doc_denseCaptions := doc_denseCaptions sample_doc;
     doc_readResult := None; doc_other_keys := 2 |}.

(** No file was written. *)
Definition fs_same (st st' : State) : Prop := fs st' = fs st.

(** An analyze response with one tagged object. *)
Definition one_object_doc : analyze_doc :=
  {| doc_caption := None; doc_tags := None;
     doc_objects := Some [an_object "cat" 1];
     doc_denseCaptions := None; doc_readResult := None; doc_other_keys := 2 |}.

(** The five features [demo_image_analysis] asks for. *)
Definition demo_features : option (list string) :=
  Some ["tags"; "objects"; "caption"; "denseCaptions"; "smartCrops"].

(** A start state whose sample file is not an image. *)
Definition start_not_an_image : State :=
  {| stdout := []; heap := []; network := [];
     fs := <["sample_image.jpg" := Blob "not an image"]> ∅ |}.

(** The service finds one tagged object. *)
Definition world_one_object : World :=
  world_of (env_of "https://vision.example/" "secret")
           (λ _, Replied (reply 200 "OK" "{...}" (inr (DAnalyze one_object_doc))))
           no_sdk.

(** The configuration holds the placeholder values of the README. *)
Definition world_placeholders : World :=
  world_of (env_of "https://your-resource-name.cognitiveservices.azure.com/" "your_api_key_here")
           (λ _, Failed "name resolution failed") no_sdk.

(** ** The SDK samples *)

(** The call objects.py makes for the file content [data]. *)
Definition objects_call (endpoint key : string) (data : FileData) : SdkCall :=
  {| sdk_endpoint := endpoint; sdk_key := key;
     sdk_image_data := data;
     sdk_visual_features := ["OBJECTS"];
     sdk_gender_neutral_caption := false |}.

(** What caption.py prints for a result. *)
Definition caption_output (res : ImageAnalysisResult) : list (list piece) :=
  [[Lit "Image analysis results:"]; [Lit " Caption:"]] ++
  match result_caption res with
  | Some c => [[Lit ("   '" +:+ cr_text c +:+ "', Confidence "); Num ".4f" (cr_confidence c)]]
  | None => []
  end.

(** An object that objects.py can print: it has a tag. *)
Definition detected_ok (object : Objectspy.DetectedObject) : Prop :=
  Objectspy.dobj_tags object ≠ [].

(** The line objects.py prints for such an object. *)
Definition detected_printed (object : Objectspy.DetectedObject) : list piece :=
  match Objectspy.dobj_tags object, Objectspy.dobj_bounding_box object with
  | tag0 :: _, (x, y, bw, bh) =>
      [Lit ("   '" +:+ Objectspy.dtag_name tag0 +:+ "', "); Poly [(x, y); (bw, bh)];
       Lit ", Confidence: "; Num ".4f" (Objectspy.dtag_confidence tag0)]
  | [], _ => []
  end.

(** The three lines objects.py prints last. *)
Definition metadata_output (res : Objectspy.ObjectsAnalysisResult) : list (list piece) :=
  [[Lit " Image height: "; Num "" (NInt (Objectspy.metadata_height res))];
   [Lit " Image width: "; Num "" (NInt (Objectspy.metadata_width res))];
   [Lit (" Model version: " +:+ Objectspy.model_version res)]].

Definition a_detected (name : string) (tags : nat) : Objectspy.DetectedObject :=
  {| Objectspy.dobj_tags :=
       replicate tags {| Objectspy.dtag_name := name;
                         Objectspy.dtag_confidence := NFloat (9 # 10) |};
     Objectspy.dobj_bounding_box := (0, 0, 2, 2) |}.

(** A result with one tagged object followed by an untagged one. *)
Definition objects_result : Objectspy.ObjectsAnalysisResult :=
  {| Objectspy.result_objects := Some [a_detected "cat" 1; a_detected "dog" 0];
     Objectspy.metadata_height := 4; Objectspy.metadata_width := 4;
     Objectspy.model_version := "2023-10-01" |}.

(** A start state with the files the SDK samples read. *)
Definition sdk_start : State :=
  {| stdout := []; heap := []; network := [];
     fs := <["scene_sample.jpg" := Picture (blank 4 4)]>
           (<["sample.jpg" := Picture (blank 4 4)]>
           (<["text_sample.jpg" := Picture (blank 4 4)]> ∅)) |}.

(** The SDK service is down. *)
Definition world_sdk_down : World :=
  world_of (env_of "https://vision.example/" "secret")
           (λ _, Failed "unreachable") (λ _, inl "(401) Access denied").

(** A result with a caption and no read result. *)
Definition caption_only : ImageAnalysisResult :=
  {| result_caption := Some {| cr_text := "a cat"; cr_confidence := NFloat (8 # 10) |};
     result_read := None |}.

(** A bounding box in the top-left corner of a 4x4 image. *)
Definition corner_box : list num :=
  [NInt 0; NInt 0; NInt 3; NInt 0; NInt 3; NInt 3; NInt 0; NInt 3].

(** A read result of two blocks with one line each, both in that corner. *)
Definition corner_lines_doc : analyze_doc :=
  {| doc_caption := None; doc_tags := None; doc_objects := None;
     doc_denseCaptions := None;
     doc_readResult :=
       Some {| read_blocks :=
                 [ {| block_lines := [a_text_line "STOP" corner_box] |};
                   {| block_lines := [a_text_line "GO" corner_box] |} ] |};
     doc_other_keys := 2 |}.

(** A face whose gender is written in ASCII. *)
Definition face_ascii (face : face_t) : Prop :=
  ascii_only (fa_gender (face_attributes face)).

(** * Theorems *)

(** ** Numbers *)

Lemma num_val_sub a b : (num_val (num_sub a b) == num_val a - num_val b)%Q.
Proof.
  destruct a as [x|p], b as [y|q]; simpl; rewrite ?Qred_correct; try reflexivity.
  unfold Z.sub. rewrite inject_Z_plus, inject_Z_opp. reflexivity.
Qed.

Lemma num_gt_spec a b : num_gt a b = true ↔ (num_val b < num_val a)%Q.
Proof.
  unfold num_gt. rewrite negb_true_iff, <- not_true_iff_false, Qle_bool_iff.
  split; [apply Qnot_le_lt | apply Qlt_not_le].
Qed.

Lemma num_gt_false a b : num_gt a b = false ↔ (num_val a <= num_val b)%Q.
Proof.
  unfold num_gt. rewrite negb_false_iff. apply Qle_bool_iff.
Qed.

(** ** Minimum and maximum of a list of rationals *)

Lemma fold_Qmin_least (l : list Q) (m q : Q) :
  (m <= q)%Q → (∀ x, x ∈ l → (m <= x)%Q) → (m <= fold_left Qmin l q)%Q.
Proof.
  revert q. induction l as [|a l IH]; intros q Hq Hl; simpl; [done|].
  apply IH.
  - apply Q.min_glb; [done | apply Hl; left].
  - intros x Hx. apply Hl. by right.
Qed.

Lemma fold_Qmin_le (l : list Q) (q : Q) : (fold_left Qmin l q <= q)%Q.
Proof.
  revert q. induction l as [|a l IH]; intros q; simpl; [apply Qle_refl|].
  eapply Qle_trans; [apply IH | apply Q.le_min_l].
Qed.

Lemma fold_Qmin_le_elem (l : list Q) (q x : Q) : x ∈ l → (fold_left Qmin l q <= x)%Q.
Proof.
  revert q. induction l as [|a l IH]; intros q Hx; simpl.
  - by apply elem_of_nil in Hx.
  - apply elem_of_cons in Hx as [->|Hx].
    + eapply Qle_trans; [apply fold_Qmin_le | apply Q.le_min_r].
    + by apply IH.
Qed.

Lemma fold_Qmax_greatest (l : list Q) (m q : Q) :
  (q <= m)%Q → (∀ x, x ∈ l → (x <= m)%Q) → (fold_left Qmax l q <= m)%Q.
Proof.
  revert q. induction l as [|a l IH]; intros q Hq Hl; simpl; [done|].
  apply IH.
  - apply Q.max_lub; [done | apply Hl; left].
  - intros x Hx. apply Hl. by right.
Qed.

Lemma fold_Qmax_ge (l : list Q) (q : Q) : (q <= fold_left Qmax l q)%Q.
Proof.
  revert q. induction l as [|a l IH]; intros q; simpl; [apply Qle_refl|].
  eapply Qle_trans; [apply Q.le_max_l | apply IH].
Qed.

Lemma fold_Qmax_ge_elem (l : list Q) (q x : Q) : x ∈ l → (x <= fold_left Qmax l q)%Q.
Proof.
  revert q. induction l as [|a l IH]; intros q Hx; simpl.
  - by apply elem_of_nil in Hx.
  - apply elem_of_cons in Hx as [->|Hx].
    + eapply Qle_trans; [apply Q.le_max_r | apply fold_Qmax_ge].
    + by apply IH.
Qed.

(** ** C1: the OCR annotation box *)

(** What lines 237-241 compute for a list of 8 numbers: the first point, and
    the offsets of the second point's x and of the third point's y from it. *)
Lemma ocr_line_box_eq x0 y0 x1 y1 x2 y2 x3 y3 :
  ocr_line_box [x0; y0; x1; y1; x2; y2; x3; y3]
  = Ret [x0; y0; num_sub x1 x0; num_sub y2 y0].
Proof. reflexivity. Qed.

(** C1, as stated, fails: for the quadrilateral (10,10) (50,5) (55,25) (5,30)
    the code yields the box [10, 10, 40, 15] while the minimal enclosing
    rectangle is x = 5, y = 5, width = 50, height = 25. *)
Lemma ocr_box_not_enclosing :
  ocr_line_box skewed_box = Ret [NInt 10; NInt 10; NInt 40; NInt 15] ∧
  spec_enclosing_rect skewed_box = Some (inject_Z 5, inject_Z 5, inject_Z 55 - inject_Z 5, inject_Z 30 - inject_Z 5)%Q ∧
  ¬ (∃ b r, ocr_line_box skewed_box = Ret b ∧
            spec_enclosing_rect skewed_box = Some r ∧
            box_denotes b r).
Proof.
  split; [reflexivity|]. split; [reflexivity|].
  intros (b & r & Hb & Hr & Hd).
  vm_compute in Hb. vm_compute in Hr.
  injection Hb as <-. injection Hr as <-.
  destruct Hd as [Hx _]. vm_compute in Hx. discriminate.
Qed.

(** C1 (amended): for every bounding box of 8 numbers the derived box is
    x = the first point's x, y = the first point's y, width = the second
    point's x minus x, height = the third point's y minus y; it denotes the
    minimal enclosing rectangle whenever the first point's coordinates are
    the least x and the least y, the second point's x is the greatest x and
    the third point's y is the greatest y (an upright rectangle listed
    clockwise from its top-left corner). *)
Theorem ocr_box_first_corner (bb : list num) :
  length bb = 8%nat →
  ∃ x0 y0 x1 y1 x2 y2 x3 y3,
    bb = [x0; y0; x1; y1; x2; y2; x3; y3] ∧
    ocr_line_box bb = Ret [x0; y0; num_sub x1 x0; num_sub y2 y0] ∧
    ((∀ x, x ∈ x_coords bb → (num_val x0 <= num_val x <= num_val x1)%Q) →
     (∀ y, y ∈ y_coords bb → (num_val y0 <= num_val y <= num_val y2)%Q) →
     ∃ r, spec_enclosing_rect bb = Some r ∧
          box_denotes [x0; y0; num_sub x1 x0; num_sub y2 y0] r).
Proof.
  intros Hlen.
  destruct bb as [|x0 [|y0 [|x1 [|y1 [|x2 [|y2 [|x3 [|y3 [|? ?]]]]]]]]]; try discriminate.
  exists x0, y0, x1, y1, x2, y2, x3, y3.
  split; [done|]. split; [reflexivity|].
  intros Hx Hy.
  eexists. split; [reflexivity|].
  assert (Hxmin : (fold_left Qmin (num_val <$> [x1; x2; x3]) (num_val x0) == num_val x0)%Q).
  { apply Qle_antisym; [apply fold_Qmin_le|].
    apply fold_Qmin_least; [apply Qle_refl|].
    intros q Hq. apply list_elem_of_fmap in Hq as (n & -> & Hn).
    apply Hx. simpl. by right. }
  assert (Hymin : (fold_left Qmin (num_val <$> [y1; y2; y3]) (num_val y0) == num_val y0)%Q).
  { apply Qle_antisym; [apply fold_Qmin_le|].
    apply fold_Qmin_least; [apply Qle_refl|].
    intros q Hq. apply list_elem_of_fmap in Hq as (n & -> & Hn).
    apply Hy. simpl. by right. }
  assert (Hxmax : (fold_left Qmax (num_val <$> [x1; x2; x3]) (num_val x0) == num_val x1)%Q).
  { apply Qle_antisym.
    - apply fold_Qmax_greatest; [apply Hx; left|].
      intros q Hq. apply list_elem_of_fmap in Hq as (n & -> & Hn).
      apply Hx. simpl. by right.
    - apply fold_Qmax_ge_elem. left. }
  assert (Hymax : (fold_left Qmax (num_val <$> [y1; y2; y3]) (num_val y0) == num_val y2)%Q).
  { apply Qle_antisym.
    - apply fold_Qmax_greatest; [apply Hy; left|].
      intros q Hq. apply list_elem_of_fmap in Hq as (n & -> & Hn).
      apply Hy. simpl. by right.
    - apply fold_Qmax_ge_elem. right. left. }
  simpl in *. rewrite !num_val_sub.
  repeat split; try (symmetry; assumption).
  - rewrite Hxmax, Hxmin. reflexivity.
  - rewrite Hymax, Hymin. reflexivity.
Qed.

Lemma ocr_box_first_corner_witness :
  ∃ r, spec_enclosing_rect upright_box = Some r ∧
       box_denotes [NInt 10; NInt 20; NInt 100; NInt 25] r.
Proof.
  destruct (ocr_box_first_corner upright_box eq_refl)
    as (x0 & y0 & x1 & y1 & x2 & y2 & x3 & y3 & Hbb & _ & H).
  injection Hbb as <- <- <- <- <- <- <- <-.
  apply H.
  - intros x Hx. simpl in Hx. rewrite !elem_of_cons in Hx.
    destruct Hx as [->|[->|[->|[->|Hx]]]]; [| | | |by apply elem_of_nil in Hx];
      split; simpl; unfold Qle; simpl; lia.
  - intros y Hy. simpl in Hy. rewrite !elem_of_cons in Hy.
    destruct Hy as [->|[->|[->|[->|Hy]]]]; [| | | |by apply elem_of_nil in Hy];
      split; simpl; unfold Qle; simpl; lia.
Defined.

(** ** C4: the dominant emotion *)

Section PyMax.
Context {A : Type} (key : A → num).

(** The running maximum after the whole list: it sits at some position,
    no element has a greater key, and every element before that position
    has a strictly smaller key. *)
Lemma fold_max_first (r : list A) (x : A) :
  ∃ i : nat,
    (x :: r) !! i = Some (fold_left (max_step key) r x) ∧
    (∀ (j : nat) y, (x :: r) !! j = Some y →
                    (num_val (key y) <= num_val (key (fold_left (max_step key) r x)))%Q) ∧
    (∀ (j : nat) y, (j < i)%nat → (x :: r) !! j = Some y →
                    (num_val (key y) < num_val (key (fold_left (max_step key) r x)))%Q).
Proof.
  induction r as [|z r IH] using rev_ind.
  - exists 0%nat. simpl. split; [done|]. split.
    + intros [|j] y Hy; simpl in Hy; [|done]. injection Hy as <-. apply Qle_refl.
    + intros j y Hj. lia.
  - destruct IH as (i & Hi & Hle & Hlt).
    rewrite fold_left_app. simpl.
    set (m := fold_left (max_step key) r x) in *.
    assert (Hlen : (i < length (x :: r))%nat) by (by eapply lookup_lt_Some).
    change (x :: r ++ [z]) with ((x :: r) ++ [z]).
    destruct (num_gt (key z) (key m)) eqn:Hgt.
    + replace (max_step key m z) with z by (unfold max_step; by rewrite Hgt).
      apply num_gt_spec in Hgt.
      exists (length (x :: r)). split; [|split].
      * apply lookup_snoc_Some. by right.
      * intros j y Hy.
        apply lookup_snoc_Some in Hy as [[_ Hy]|[_ <-]]; [|apply Qle_refl].
        apply Qlt_le_weak. eapply Qle_lt_trans; [exact (Hle j y Hy) | exact Hgt].
      * intros j y Hj Hy.
        apply lookup_snoc_Some in Hy as [[_ Hy]|[-> _]]; [|lia].
        eapply Qle_lt_trans; [exact (Hle j y Hy) | exact Hgt].
    + replace (max_step key m z) with m by (unfold max_step; by rewrite Hgt).
      apply num_gt_false in Hgt.
      exists i. split; [|split].
      * apply lookup_snoc_Some. by left.
      * intros j y Hy.
        apply lookup_snoc_Some in Hy as [[_ Hy]|[_ <-]]; [exact (Hle j y Hy) | exact Hgt].
      * intros j y Hj Hy.
        apply lookup_snoc_Some in Hy as [[_ Hy]|[-> _]]; [exact (Hlt j y Hj Hy) | lia].
Qed.

Lemma py_max_first (l : list A) :
  l ≠ [] →
  ∃ (i : nat) m,
    py_max key l = Ret m ∧ l !! i = Some m ∧
    (∀ (j : nat) y, l !! j = Some y → (num_val (key y) <= num_val (key m))%Q) ∧
    (∀ (j : nat) y, (j < i)%nat → l !! j = Some y → (num_val (key y) < num_val (key m))%Q).
Proof.
  destruct l as [|x r]; [done|]. intros _.
  destruct (fold_max_first r x) as (i & Hi & Hle & Hlt).
  exists i, (fold_left (max_step key) r x). by repeat split.
Qed.
End PyMax.

(** C4: for a non-empty emotion map (in iteration order) the dominant
    emotion is the label of an entry whose score no entry exceeds, and every
    entry met before it has a strictly smaller score: among the entries with
    the maximum score it is the first in iteration order. *)
Theorem dominant_emotion_first_max (emotion : list (string * num)) :
  emotion ≠ [] →
  ∃ (i : nat) name score,
    dominant_emotion emotion = Ret name ∧
    emotion !! i = Some (name, score) ∧
    (∀ (j : nat) name' score', emotion !! j = Some (name', score') →
                               (num_val score' <= num_val score)%Q) ∧
    (∀ (j : nat) name' score', (j < i)%nat → emotion !! j = Some (name', score') →
                               (num_val score' < num_val score)%Q).
Proof.
  intros Hne.
  destruct (py_max_first snd emotion Hne) as (i & [name score] & Hmax & Hi & Hle & Hlt).
  exists i, name, score. unfold dominant_emotion. rewrite Hmax. simpl.
  split; [done|]. split; [done|]. split.
  - intros j n s Hj. by apply (Hle j (n, s)).
  - intros j n s Hj Hl. by apply (Hlt j (n, s)).
Qed.

Lemma dominant_emotion_first_max_witness :
  ∃ (i : nat) name score,
    dominant_emotion sample_emotion = Ret name ∧
    sample_emotion !! i = Some (name, score) ∧
    (∀ (j : nat) name' score', sample_emotion !! j = Some (name', score') →
                               (num_val score' <= num_val score)%Q) ∧
    (∀ (j : nat) name' score', (j < i)%nat → sample_emotion !! j = Some (name', score') →
                               (num_val score' < num_val score)%Q).
Proof. apply (dominant_emotion_first_max sample_emotion). discriminate. Defined.

(** On a tie between "happiness" and "surprise" the first one wins. *)
Example dominant_emotion_sample : dominant_emotion sample_emotion = Ret "happiness".
Proof. reflexivity. Qed.

(** With an empty emotion map [max] raises. *)
Example dominant_emotion_empty :
  dominant_emotion [] = Raise (ValueError "max() arg is an empty sequence").
Proof. reflexivity. Qed.

(** ** Running the client functions *)

Ltac munfold :=
  unfold mbind, M_bind, mret, M_ret, try_except, read_file, requests_post, issue,
    raise, lift, raise_for_status, response_json, print in *.

(** ** Running a script *)

Lemma printed_nil (st : State) : printed st [] = st.
Proof. destruct st. unfold printed. simpl. by rewrite app_nil_r. Qed.

Lemma printed_printed (st : State) (a b : list (list piece)) :
  printed (printed st a) b = printed st (a ++ b).
Proof. unfold printed. simpl. by rewrite app_assoc. Qed.

Lemma print_run (l : list piece) (st : State) : print l st = (Ret tt, printed st [l]).
Proof. reflexivity. Qed.

Lemma for_each_print {A} (f : A → list piece) (l : list A) (st : State) :
  for_each l (λ _ a, print (f a)) tt st = (Ret tt, printed st (f <$> l)).
Proof.
  revert st. induction l as [|a l IH]; intros st; simpl.
  - by rewrite printed_nil.
  - unfold mbind, M_bind. rewrite print_run, IH. by rewrite printed_printed.
Qed.

Lemma bind_inv {A B} (m : M A) (f : A → M B) (st st' : State) (o : Outcome B) :
  (m ≫= f) st = (o, st') →
  (∃ a st1, m st = (Ret a, st1) ∧ f a st1 = (o, st')) ∨
  (∃ e, m st = (Raise e, st') ∧ o = Raise e).
Proof.
  unfold mbind, M_bind. destruct (m st) as [[a|e] st1].
  - intros H. left. by exists a, st1.
  - intros [= <- <-]. right. by exists e.
Qed.

Lemma bind_assoc_run {A B C} (m : M A) (f : A → M B) (g : B → M C) (st : State) :
  ((m ≫= f) ≫= g) st = (m ≫= λ a, f a ≫= g) st.
Proof. unfold mbind, M_bind. by destruct (m st) as [[a|e] st1]. Qed.

Lemma bind_ret_run {A B} (m : M A) (f : A → M B) (st st1 : State) (a : A) :
  m st = (Ret a, st1) → (m ≫= f) st = f a st1.
Proof. unfold mbind, M_bind. by intros ->. Qed.

Lemma bind_raise_run {A B} (m : M A) (f : A → M B) (st st1 : State) (e : Exn) :
  m st = (Raise e, st1) → (m ≫= f) st = (Raise e, st1).
Proof. unfold mbind, M_bind. by intros ->. Qed.

Lemma ret_run {A} (a : A) (st : State) : (mret a : M A) st = (Ret a, st).
Proof. reflexivity. Qed.

Lemma for_each_cons {A S} (a : A) (l : list A) (body : S → A → M S) (s : S) (st : State) :
  for_each (a :: l) body s st = (s' ← body s a; for_each l body s') st.
Proof. reflexivity. Qed.

Lemma for_each_app {A S} (l1 l2 : list A) (body : S → A → M S) (s : S) (st : State) :
  for_each (l1 ++ l2) body s st = (s' ← for_each l1 body s; for_each l2 body s') st.
Proof.
  revert s st. induction l1 as [|a l IH]; intros s st; simpl; [done|].
  unfold mbind, M_bind in *. destruct (body s a st) as [[s'|e] st1]; [apply IH | done].
Qed.

(** A loop over blocks with a loop over each block's lines inside does what
    one loop over all the lines does. *)
Lemma for_each_concat {A S} (ls : list (list A)) (body : S → A → M S) (s : S) (st : State) :
  for_each ls (λ s l, for_each l body s) s st = for_each (concat ls) body s st.
Proof.
  revert s st. induction ls as [|l ls IH]; intros s st; simpl; [done|].
  rewrite for_each_app. unfold mbind, M_bind.
  destruct (for_each l body s st) as [[s'|e] st1]; [apply IH | done].
Qed.

Lemma for_each_fmap {A B S} (f : A → B) (l : list A) (body : S → B → M S) (s : S)
    (st : State) :
  for_each (f <$> l) body s st = for_each l (λ s a, body s (f a)) s st.
Proof.
  revert s st. induction l as [|a l IH]; intros s st; simpl; [done|].
  unfold mbind, M_bind. destruct (body s (f a) st) as [[s'|e] st1]; [apply IH | done].
Qed.

(** ** C2: a non-success status *)

(** C2, as stated, fails: on a 404 reply [analyze_image] does not fail with
    an error carrying the status and body; it prints a message and returns
    [None], and the caller receives neither the status code nor the body. *)
Lemma analyze_image_404_returns_None :
  Main.analyze_image world_404 config0 "sample_image.jpg" None start
  = (Ret None,
     printed (sent start [Post (analyze_request config0 None (Picture (blank 4 4)))])
       [[Lit "Error in analyze_image: 404 Client Error: Not Found for url: https://vision.example/"]]) ∧
  ¬ (∃ e st', Main.analyze_image world_404 config0 "sample_image.jpg" None start
              = (Raise e, st')).
Proof.
  split; [by vm_compute|].
  intros (e & st' & H). vm_compute in H. discriminate.
Qed.

(** A status that is neither 2xx nor 4xx/5xx is not an error for
    [raise_for_status]: the decoded body is returned. *)
Example analyze_image_300_returns_body :
  ∃ st', Main.analyze_image world_300 config0 "sample_image.jpg" None start
         = (Ret (Some (DAnalyze empty_doc)), st').
Proof. eexists. by vm_compute. Qed.

(** C2 (amended): when the image file is read, the transport succeeds and
    the reply has a 4xx or 5xx status, the HTTP error raised inside is
    caught: [analyze_image] prints one line "Error in analyze_image: ..."
    with the error's message, returns [None] (no default result), and
    exactly one request has been issued (no retry). *)
Theorem analyze_image_http_error (w : World) (cfg : Main.Config) (image_path : string)
    (features : option (list string)) (st : State) (data : FileData) (r : Response) :
  fs st !! image_path = Some data →
  server w (analyze_request cfg features data) = Replied r →
  400 ≤ status_code r < 600 →
  Main.analyze_image w cfg image_path features st
  = (Ret None,
     printed (sent st [Post (analyze_request cfg features data)])
       [[Lit ("Error in analyze_image: " +:+ http_error_msg r)]]).
Proof.
  intros Hf Hs Hr.
  unfold Main.analyze_image, analyze_request in *. munfold.
  rewrite Hf. simpl. rewrite Hs. simpl.
  destruct (decide (400 ≤ status_code r < 600)); [|done].
  reflexivity.
Qed.

Lemma analyze_image_http_error_witness :
  Main.analyze_image world_404 config0 "sample_image.jpg" None start
  = (Ret None,
     printed (sent start [Post (analyze_request config0 None (Picture (blank 4 4)))])
       [[Lit ("Error in analyze_image: " +:+
              http_error_msg (reply 404 "Not Found" "resource not found" (inr error_body)))]]).
Proof.
  apply (analyze_image_http_error world_404 config0 "sample_image.jpg" None start
           (Picture (blank 4 4)) (reply 404 "Not Found" "resource not found" (inr error_body))).
  - reflexivity.
  - reflexivity.
  - simpl. lia.
Defined.

(** ** C9: the default feature set *)

(** C9: with [features] omitted ([None]) or empty, every request that
    [analyze_image] issues carries the query parameter
    features = "tags,objects,caption"; and once the image file is read,
    exactly one such request is issued. *)
Theorem analyze_image_default_features (w : World) (cfg : Main.Config)
    (image_path : string) (features : option (list string)) (st : State) :
  features = None ∨ features = Some [] →
  (∀ data, fs st !! image_path = Some data →
     ∃ o st' req,
       Main.analyze_image w cfg image_path features st = (o, st') ∧
       network st' = network st ++ [Post req] ∧
       req_params req = [("features", "tags,objects,caption");
                         ("language", "en");
                         ("gender-neutral-caption", "false")] ∧
       req_data req = data) ∧
  (fs st !! image_path = None →
     ∃ o st', Main.analyze_image w cfg image_path features st = (o, st') ∧
              network st' = network st).
Proof.
  intros Hfeat.
  assert (Hd : Main.features_or_default features = ["tags"; "objects"; "caption"])
    by (by destruct Hfeat as [->| ->]).
  split.
  - intros data Hf.
    unfold Main.analyze_image. munfold. rewrite Hf, Hd. simpl.
    match goal with
    | |- context [server w ?q] => destruct (server w q) as [msg|r]; simpl
    end.
    + do 3 eexists. split; [reflexivity|]. by simpl.
    + destruct (decide (400 ≤ status_code r < 600)); simpl.
      * do 3 eexists. split; [reflexivity|]. by simpl.
      * destruct (resp_json r) as [msg|d]; simpl;
          (do 3 eexists; split; [reflexivity|]; by simpl).
  - intros Hf.
    unfold Main.analyze_image. munfold. rewrite Hf. simpl.
    do 2 eexists. split; [reflexivity|]. by simpl.
Qed.

Lemma analyze_image_default_features_witness :
  ∃ o st' req,
    Main.analyze_image world_404 config0 "sample_image.jpg" (Some []) start = (o, st') ∧
    network st' = network start ++ [Post req] ∧
    req_params req = [("features", "tags,objects,caption");
                      ("language", "en");
                      ("gender-neutral-caption", "false")] ∧
    req_data req = Picture (blank 4 4).
Proof.
  apply (analyze_image_default_features world_404 config0 "sample_image.jpg" (Some []) start).
  - by right.
  - reflexivity.
Defined.

(** ** C3: missing configuration *)

Lemma not_set_spec (v : option string) :
  OCRpy.not_set v = true ↔ v = None ∨ v = Some "".
Proof.
  destruct v as [[|c s]|]; simpl; split; intros H; try done; auto.
  - destruct H as [H|H]; discriminate.
Qed.

(** C3, as stated, fails for main.py: with VISION_KEY set to the empty
    string the module loads, the demo runs, and a request with an empty
    subscription key is sent. *)
Lemma main_empty_key_sends_request :
  environ world_empty_key !! "VISION_KEY" = Some "" ∧
  (∃ st', Main.main world_empty_key start = (Ret tt, st') ∧
          network st' =
            [Post (analyze_request
                     {| Main.ENDPOINT := "https://vision.example/"; Main.API_KEY := "" |}
                     (Some ["tags"; "objects"; "caption"; "denseCaptions"; "smartCrops"])
                     (Picture (blank 4 4)))]) ∧
  ¬ (∃ e st', Main.main world_empty_key start = (Raise e, st') ∧
              network st' = network start).
Proof.
  split; [reflexivity|]. split.
  - eexists. split; by vm_compute.
  - intros (e & st' & H & _). vm_compute in H. discriminate.
Qed.

(** C3 (amended): OCR.py stops before any network call, after printing the
    missing-variable message, whenever the endpoint or the key is missing
    or empty (once the .env file is taken into account); main.py stops
    with [KeyError], before anything is printed or sent, whenever one of the
    two variables is missing from the environment. *)
Theorem config_checked_before_network (w : World) (st : State) :
  (OCRpy.getenv w "VISION_ENDPOINT" = None ∨ OCRpy.getenv w "VISION_ENDPOINT" = Some "" ∨
   OCRpy.getenv w "VISION_KEY" = None ∨ OCRpy.getenv w "VISION_KEY" = Some "" →
   OCRpy.OCR w st = (Raise SystemExit, printed st missing_variable_message)) ∧
  (environ w !! "VISION_ENDPOINT" = None ∨ environ w !! "VISION_KEY" = None →
   ∃ k, Main.main w st = (Raise (KeyError k), st)).
Proof.
  split.
  - intros H.
    assert (Hn : OCRpy.not_set (OCRpy.getenv w "VISION_ENDPOINT")
                 || OCRpy.not_set (OCRpy.getenv w "VISION_KEY") = true).
    { apply orb_true_iff. rewrite !not_set_spec. tauto. }
    unfold OCRpy.OCR. rewrite Hn. munfold. simpl.
    unfold printed, missing_variable_message. by rewrite <- app_assoc.
  - intros H. unfold Main.main, Main.load_module, Main.environ_getitem. munfold.
    destruct (environ w !! "VISION_ENDPOINT") as [e|] eqn:He; simpl.
    + destruct H as [H|H]; [done|]. rewrite H. simpl. by eexists.
    + by eexists.
Qed.

Lemma config_checked_before_network_witness :
  OCRpy.OCR world_empty_key start = (Raise SystemExit, printed start missing_variable_message) ∧
  ∃ k, Main.main world_no_key start = (Raise (KeyError k), start).
Proof.
  split.
  - apply (config_checked_before_network world_empty_key start).
    right. right. right. reflexivity.
  - apply (config_checked_before_network world_no_key start).
    right. reflexivity.
Defined.

(** ** C10: OCR.py prints the first block only *)

Lemma print_line_run (line : DetectedTextLine) (st : State) :
  OCRpy.print_line line st = (Ret tt, printed st (line_output line)).
Proof.
  unfold OCRpy.print_line. unfold mbind, M_bind. rewrite print_run.
  rewrite for_each_print. by rewrite printed_printed.
Qed.

Lemma print_lines_run (lines : list DetectedTextLine) (st : State) :
  for_each lines (λ _ line, OCRpy.print_line line) tt st
  = (Ret tt, printed st (concat (line_output <$> lines))).
Proof.
  revert st. induction lines as [|a l IH]; intros st; simpl.
  - by rewrite printed_nil.
  - unfold mbind, M_bind. rewrite print_line_run, IH. by rewrite printed_printed.
Qed.

(** C10: when the configuration is present, the image is read and the
    service returns a result whose [read] is not [None], OCR.py indexes
    [blocks[0]]: with no block it raises [IndexError] (after the lines
    printed so far); with at least one block it returns, having printed the
    lines and words of the first block only, whatever blocks follow. *)
Theorem OCR_first_block_only (w : World) (st : State) (endpoint key : string)
    (data : FileData) (res : ImageAnalysisResult) (read : ReadResult) :
  OCRpy.getenv w "VISION_ENDPOINT" = Some endpoint → endpoint ≠ "" →
  OCRpy.getenv w "VISION_KEY" = Some key → key ≠ "" →
  fs st !! "text_sample.jpg" = Some data →
  sdk_service w (ocr_call endpoint key data) = inr res →
  result_read res = Some read →
  (rr_blocks read = [] →
   OCRpy.OCR w st
   = (Raise (IndexError "list index out of range"),
      printed (sent st [Analyze (ocr_call endpoint key data)]) (ocr_preamble res))) ∧
  (∀ b rest, rr_blocks read = b :: rest →
   OCRpy.OCR w st
   = (Ret tt,
      printed (sent st [Analyze (ocr_call endpoint key data)])
              (ocr_preamble res ++ block_output b))).
Proof.
  intros He Hne Hk Hnk Hf Hs Hr.
  assert (Hset : OCRpy.not_set (Some endpoint) || OCRpy.not_set (Some key) = false).
  { apply orb_false_iff. split.
    - destruct endpoint; [done|reflexivity].
    - destruct key; [done|reflexivity]. }
  assert (Hpre :
    OCRpy.OCR w st
    = match result_read res with
      | Some read =>
          block0 ← lift (list_getitem (rr_blocks read) 0);
          for_each (dblock_lines block0) (λ _ line, OCRpy.print_line line) tt
      | None => mret tt
      end (printed (sent st [Analyze (ocr_call endpoint key data)]) (ocr_preamble res))).
  { unfold OCRpy.OCR. rewrite He, Hk, Hset.
    unfold OCRpy.client_analyze, ocr_call in *. munfold. rewrite Hf. simpl.
    rewrite Hs. simpl.
    unfold ocr_preamble, printed, sent. simpl.
    destruct (result_caption res) as [c|]; simpl; by rewrite <- ?app_assoc. }
  rewrite Hpre, Hr. clear Hpre.
  split.
  - intros ->. reflexivity.
  - intros b rest ->. unfold mbind, M_bind, lift. simpl.
    rewrite print_lines_run. by rewrite printed_printed.
Qed.

Lemma OCR_first_block_only_witness :
  (OCRpy.OCR (world_sdk no_block) start
   = (Raise (IndexError "list index out of range"),
      printed (sent start [Analyze (ocr_call "https://vision.example/" "secret"
                                             (Picture (blank 4 4)))])
              (ocr_preamble no_block))) ∧
  (OCRpy.OCR (world_sdk two_blocks) start
   = (Ret tt,
      printed (sent start [Analyze (ocr_call "https://vision.example/" "secret"
                                             (Picture (blank 4 4)))])
              (ocr_preamble two_blocks
               ++ block_output {| dblock_lines := [a_line "first"] |}))).
Proof.
  split.
  - apply (OCR_first_block_only (world_sdk no_block) start
             "https://vision.example/" "secret" (Picture (blank 4 4)) no_block
             {| rr_blocks := [] |}); try reflexivity; discriminate.
  - apply (OCR_first_block_only (world_sdk two_blocks) start
             "https://vision.example/" "secret" (Picture (blank 4 4)) two_blocks
             {| rr_blocks := [ {| dblock_lines := [a_line "first"] |};
                               {| dblock_lines := [a_line "second"] |} ] |}
             eq_refl ltac:(discriminate) eq_refl ltac:(discriminate) eq_refl eq_refl eq_refl)
      with (rest := [ {| dblock_lines := [a_line "second"] |} ]).
    reflexivity.
Defined.

(** The second block's line is not in the output. *)
Example OCR_two_blocks_output :
  ∃ st', OCRpy.OCR (world_sdk two_blocks) start = (Ret tt, st') ∧
         stdout st' = [[Lit "Image analysis results:"]; [Lit " Caption:"]; [Lit " Read:"]]
                      ++ line_output (a_line "first").
Proof. eexists. split; by vm_compute. Qed.

(** ** The renderer: which image objects a run can change *)

Section Keeps.
Context (R : State → State → Prop).
Hypothesis R_refl : ∀ st, R st st.
Hypothesis R_trans : ∀ a b c, R a b → R b c → R a c.

Lemma keeps_ret {A} (a : A) : keeps R (mret a).
Proof. intros st o st' H. injection H as _ <-. apply R_refl. Qed.

Lemma keeps_raise {A} (e : Exn) : keeps R (raise e : M A).
Proof. intros st o st' H. injection H as _ <-. apply R_refl. Qed.

Lemma keeps_lift {A} (x : Outcome A) : keeps R (lift x).
Proof. intros st o st' H. injection H as _ <-. apply R_refl. Qed.

Lemma keeps_bind {A B} (m : M A) (f : A → M B) :
  keeps R m → (∀ a, keeps R (f a)) → keeps R (m ≫= f).
Proof.
  intros Hm Hf st o st' H. unfold mbind, M_bind in H.
  destruct (m st) as [[a|e] st1] eqn:E.
  - eapply R_trans; [by eapply Hm | by eapply Hf].
  - injection H as _ <-. by eapply Hm.
Qed.

Lemma keeps_try_except {A} (body : M A) (class : Exn → bool) (handler : Exn → M A) :
  keeps R body → (∀ e, keeps R (handler e)) → keeps R (try_except body class handler).
Proof.
  intros Hb Hh st o st' H. unfold try_except in H.
  destruct (body st) as [[a|e] st1] eqn:E.
  - injection H as _ <-. by eapply Hb.
  - destruct (class e).
    + eapply R_trans; [by eapply Hb | by eapply Hh].
    + injection H as _ <-. by eapply Hb.
Qed.

Lemma keeps_for_each {A S} (l : list A) (body : S → A → M S) (s : S) :
  (∀ s a, keeps R (body s a)) → keeps R (for_each l body s).
Proof.
  intros Hb. revert s. induction l as [|a l IH]; intros s; simpl.
  - apply keeps_ret.
  - apply keeps_bind; [apply Hb | intros s'; apply IH].
Qed.
End Keeps.













(** ** C5: the renderer draws on the object it is given *)




(** ** Saving an image *)

Lemma Image_save_run (w : World) (r : nat) (path : string) (st : State) (im : Image) :
  heap st !! r = Some im →
  Main.Image_save w r path st
  = match encoder w path with
    | inl e => (Raise e, st)
    | inr encode =>
        if writable w path then
          match encode im with
          | inr f => (Ret tt, wrote st path (Picture (decoded f im)))
          | inl e => (Raise e, truncated w st path)
          end
        else (Raise (save_error path), st)
    end.
Proof.
  intros Hr. unfold Main.Image_save, mbind, M_bind, deref. rewrite Hr.
  destruct (encoder w path) as [e|encode]; [reflexivity|].
  destruct (writable w path); [|reflexivity].
  destruct (encode im) as [e|f]; [|reflexivity].
  unfold Main.truncate_file, truncated.
  destruct (fs st !! path); [done|]. by destruct (save_cleans_up w).
Qed.

(** The end of [save_image_with_annotations]: lines 70-72. *)
Lemma save_and_return_run (w : World) (r : nat) (path : string) (st : State) (im : Image) :
  heap st !! r = Some im →
  (_ ← Main.Image_save w r path;
   _ ← print [Lit ("Annotated image saved to " +:+ path)];
   mret r) st
  = match encoder w path with
    | inl e => (Raise e, st)
    | inr encode =>
        if writable w path then
          match encode im with
          | inr f =>
              (Ret r, printed (wrote st path (Picture (decoded f im)))
                        [[Lit ("Annotated image saved to " +:+ path)]])
          | inl e => (Raise e, truncated w st path)
          end
        else (Raise (save_error path), st)
    end.
Proof.
  intros Hr. unfold mbind, M_bind.
  rewrite (Image_save_run w r path st im Hr).
  destruct (encoder w path) as [e|encode]; [reflexivity|].
  destruct (writable w path); [|reflexivity].
  by destruct (encode im).
Qed.

(** An encoder that returns every pixel as it is writes the raster itself. *)
Lemma decoded_lossless (f : nat → nat → Color) (im : Image) :
  (∀ px py c, getpixel im px py = Some c → f px py = c) → decoded f im = im.
Proof.
  unfold decoded, getpixel, Image. intros Hf. apply list_eq. intros py.
  rewrite list_lookup_imap. specialize (λ px, Hf px py).
  match goal with |- _ <$> ?o = _ => destruct o as [row|] end; [|done].
  simpl in *. f_equal. apply list_eq. intros px.
  rewrite list_lookup_imap. specialize (Hf px).
  destruct (row !! px) as [c|]; [|done].
  simpl. f_equal. by apply Hf.
Qed.

(** Font selection returns in every world. *)
Lemma select_font_run (w : World) (st : State) :
  Main.select_font w st = (Ret (chosen_font w), st).
Proof.
  unfold Main.select_font, Main.ImageFont_truetype, try_except, chosen_font.
  by destruct (fonts w !! "arial.ttf").
Qed.

(** ** C8: rendering no annotation *)

(** C8, as stated, fails: rendering no annotation onto a red 4x4 image and
    saving it to objects_detected.jpg, the path [demo_image_analysis] uses,
    leaves the image object as it was, but the image in the file is the
    encoder's version of it, whose pixels differ from the input's. *)
Lemma render_empty_reencodes :
  ∃ st' out,
    Main.save_image_with_annotations world_offline 0 [] "objects_detected.jpg" loaded_red
    = (Ret 0%nat, st') ∧
    heap st' !! 0%nat = Some (plain red 4 4) ∧
    fs st' !! "objects_detected.jpg" = Some (Picture out) ∧
    getpixel (plain red 4 4) 0 0 = Some (255, 0, 0) ∧
    getpixel out 0 0 = Some (254, 0, 0) ∧
    out ≠ plain red 4 4.
Proof.
  do 2 eexists. split; [by vm_compute|].
  split; [reflexivity|]. split; [by vm_compute|].
  split; [reflexivity|]. split; [reflexivity|].
  vm_compute. discriminate.
Qed.

(** C8 (amended): with an empty annotation list nothing is drawn: the image
    object is left as it was and the raster handed to the encoder is the
    input's.  What the output file holds is the encoder's version of that
    raster, in the format of the output path's extension: it is the input
    raster itself when the encoder returns every pixel as it is, and not in
    general.  When the extension names no format or the file cannot be
    opened, the state is unchanged; when the encoder fails, an output file
    that existed is left empty. *)
Theorem render_empty_draws_nothing (w : World) (r : nat) (output_path : string)
    (st : State) (im : Image) :
  heap st !! r = Some im →
  Main.save_image_with_annotations w r [] output_path st
  = match encoder w output_path with
    | inl e => (Raise e, st)
    | inr encode =>
        if writable w output_path then
          match encode im with
          | inr f =>
              (Ret r, printed (wrote st output_path (Picture (decoded f im)))
                        [[Lit ("Annotated image saved to " +:+ output_path)]])
          | inl e => (Raise e, truncated w st output_path)
          end
        else (Raise (save_error output_path), st)
    end ∧
  ∀ encode f,
    encoder w output_path = inr encode → writable w output_path = true →
    encode im = inr f →
    (∀ px py c, getpixel im px py = Some c → f px py = c) →
    Main.save_image_with_annotations w r [] output_path st
    = (Ret r, printed (wrote st output_path (Picture im))
                [[Lit ("Annotated image saved to " +:+ output_path)]]).
Proof.
  intros Hr.
  assert (Hrun : Main.save_image_with_annotations w r [] output_path st
                 = (_ ← Main.Image_save w r output_path;
                    _ ← print [Lit ("Annotated image saved to " +:+ output_path)];
                    mret r) st).
  { unfold Main.save_image_with_annotations.
    rewrite (bind_ret_run _ _ _ _ _ (select_font_run w st)).
    simpl for_each. by rewrite (bind_ret_run _ _ _ _ _ (ret_run tt st)). }
  rewrite Hrun, (save_and_return_run w r output_path st im Hr).
  split; [reflexivity|].
  intros encode f -> -> -> Hf. by rewrite (decoded_lossless f im Hf).
Qed.

Lemma render_empty_draws_nothing_witness :
  Main.save_image_with_annotations world_offline 0 [] "objects_detected.png" loaded
  = (Ret 0%nat, printed (wrote loaded "objects_detected.png" (Picture (blank 4 4)))
                  [[Lit "Annotated image saved to objects_detected.png"]]).
Proof.
  destruct (render_empty_draws_nothing world_offline 0 "objects_detected.png" loaded
              (blank 4 4) eq_refl) as [_ H].
  apply (H png_encoder (λ px py, default black (getpixel (blank 4 4) px py)));
    try reflexivity.
  intros px py c Hc. by rewrite Hc.
Defined.

(** ** C7: font selection and the success of the renderer *)

Lemma num_val_add a b : (num_val (num_add a b) == num_val a + num_val b)%Q.
Proof.
  destruct a as [x|p], b as [y|q]; simpl; rewrite ?Qred_correct; try reflexivity.
  rewrite inject_Z_plus. reflexivity.
Qed.

(** [int] is the floor of a non-negative number and the ceiling of a
    negative one. *)
Lemma num_int_trunc (a : num) :
  num_int a = if Qle_bool 0 (num_val a) then Qfloor (num_val a) else Qceiling (num_val a).
Proof.
  destruct a as [z|q]; [|reflexivity].
  unfold num_int, num_val.
  destruct (Qle_bool 0 (inject_Z z)); [by rewrite Qfloor_Z | by rewrite Qceiling_Z].
Qed.

Lemma num_int_mono (a b : num) : (num_val a <= num_val b)%Q → num_int a ≤ num_int b.
Proof.
  intros Hab. rewrite !num_int_trunc.
  destruct (Qle_bool 0 (num_val a)) eqn:Ha, (Qle_bool 0 (num_val b)) eqn:Hb.
  - by apply Qfloor_resp_le.
  - apply Qle_bool_iff in Ha. apply not_true_iff_false in Hb.
    exfalso. apply Hb. apply Qle_bool_iff. by eapply Qle_trans.
  - apply not_true_iff_false in Ha. rewrite Qle_bool_iff in Ha.
    apply Qle_bool_iff in Hb.
    transitivity 0.
    + rewrite <- (Qceiling_Z 0). apply Qceiling_resp_le.
      apply Qlt_le_weak. by apply Qnot_le_lt.
    + rewrite <- (Qfloor_Z 0). by apply Qfloor_resp_le.
  - by apply Qceiling_resp_le.
Qed.

Lemma set_image_set_image (st : State) (r : nat) (a b : Image) :
  set_image (set_image st r a) r b = set_image st r b.
Proof. unfold set_image. simpl. by rewrite list_insert_insert_eq. Qed.

Lemma set_image_same (st : State) (r : nat) (im : Image) :
  heap st !! r = Some im → set_image st r im = st.
Proof.
  intros H. destruct st as [o h n f]. unfold set_image. simpl in *.
  by rewrite list_insert_id.
Qed.

Lemma lookup_set_image (st : State) (r : nat) (im im' : Image) :
  heap st !! r = Some im → heap (set_image st r im') !! r = Some im'.
Proof.
  intros H. simpl. apply list_lookup_insert_eq. by eapply lookup_lt_Some.
Qed.






(** * Further properties of the code *)

(** ** The three client functions *)

Lemma analyze_image_outcome (w : World) (cfg : Main.Config) (image_path : string)
    (features : option (list string)) (st : State) :
  Main.analyze_image w cfg image_path features st
  = client_outcome w "analyze_image" (analyze_request cfg features) image_path st.
Proof.
  unfold Main.analyze_image, client_outcome, analyze_request. munfold.
  destruct (fs st !! image_path) as [data|]; [|reflexivity]. simpl.
  match goal with |- context [server w ?q] => destruct (server w q) as [msg|r] end;
    [reflexivity|]. simpl.
  destruct (decide (400 ≤ status_code r < 600)); [reflexivity|]. simpl.
  by destruct (resp_json r).
Qed.

Lemma read_image_text_outcome (w : World) (cfg : Main.Config) (image_path : string)
    (st : State) :
  Main.read_image_text w cfg image_path st
  = client_outcome w "read_image_text" (read_request cfg) image_path st.
Proof.
  unfold Main.read_image_text, client_outcome, read_request. munfold.
  destruct (fs st !! image_path) as [data|]; [|reflexivity]. simpl.
  match goal with |- context [server w ?q] => destruct (server w q) as [msg|r] end;
    [reflexivity|]. simpl.
  destruct (decide (400 ≤ status_code r < 600)); [reflexivity|]. simpl.
  by destruct (resp_json r).
Qed.

Lemma detect_faces_outcome (w : World) (cfg : Main.Config) (image_path : string)
    (st : State) :
  Main.detect_faces w cfg image_path st
  = client_outcome w "detect_faces" (faces_request cfg) image_path st.
Proof.
  unfold Main.detect_faces, client_outcome, faces_request. munfold.
  destruct (fs st !! image_path) as [data|]; [|reflexivity]. simpl.
  match goal with |- context [server w ?q] => destruct (server w q) as [msg|r] end;
    [reflexivity|]. simpl.
  destruct (decide (400 ≤ status_code r < 600)); [reflexivity|]. simpl.
  by destruct (resp_json r).
Qed.

(** The requests written out are the requests the functions build. *)
Lemma analyze_request_written_out (cfg : Main.Config) (features : option (list string))
    (data : FileData) :
  analyze_request cfg features data
  = analyze_post (Main.ENDPOINT cfg) (Main.API_KEY cfg) features data.
Proof. by destruct features as [[|f l]|]. Qed.

Lemma read_request_written_out (cfg : Main.Config) (data : FileData) :
  read_request cfg data = read_post (Main.ENDPOINT cfg) (Main.API_KEY cfg) data.
Proof. reflexivity. Qed.

Lemma faces_request_written_out (cfg : Main.Config) (data : FileData) :
  faces_request cfg data = faces_post (Main.ENDPOINT cfg) (Main.API_KEY cfg) data.
Proof. reflexivity. Qed.

(** Each entry of [clients] is a function with its name and its request. *)
Lemma clients_outcome (w : World) (cfg : Main.Config) (features : option (list string))
    (fn : string) (f : string → M (option json_doc)) (q : FileData → Request) :
  (fn, f, q) ∈ clients w cfg features →
  ∀ image_path st, f image_path st = client_outcome w fn q image_path st.
Proof.
  unfold clients. intros H image_path st.
  repeat (apply elem_of_cons in H as [H|H]); [..|by apply elem_of_nil in H];
    injection H as -> -> ->.
  - rewrite analyze_image_outcome. unfold client_outcome.
    destruct (fs st !! image_path) as [data|]; [|done].
    by rewrite analyze_request_written_out.
  - apply read_image_text_outcome.
  - apply detect_faces_outcome.
Qed.

Lemma client_outcome_returns (w : World) (fn : string) (request : FileData → Request)
    (image_path : string) (st : State) :
  ∃ res st',
    client_outcome w fn request image_path st = (Ret res, st') ∧
    io_only st st' ∧
    network st' = network st ++ match fs st !! image_path with
                                | Some data => [Post (request data)]
                                | None => []
                                end.
Proof.
  unfold client_outcome.
  destruct (fs st !! image_path) as [data|].
  - destruct (server w (request data)) as [msg|r].
    + by do 2 eexists.
    + destruct (decide (400 ≤ status_code r < 600)).
      * by do 2 eexists.
      * destruct (resp_json r) as [msg|d]; by do 2 eexists.
  - do 2 eexists. split; [reflexivity|]. split; [done|]. simpl. by rewrite app_nil_r.
Qed.

(** X1: the three client functions never raise: in every world and state
    each one returns and leaves the image objects and the files as they
    were.  It does not call [requests.post] when the image file cannot be
    read, and otherwise calls it exactly once, whatever the reply, with its
    own URL and parameters, the subscription key and the content type as
    headers, and the file's content as the body. *)
Theorem clients_never_raise (w : World) (cfg : Main.Config)
    (features : option (list string)) (fn : string) (f : string → M (option json_doc))
    (q : FileData → Request) (image_path : string) (st : State) :
  (fn, f, q) ∈ clients w cfg features →
  ∃ res st',
    f image_path st = (Ret res, st') ∧
    io_only st st' ∧
    network st' = network st ++ match fs st !! image_path with
                                | Some data => [Post (q data)]
                                | None => []
                                end.
Proof.
  intros H. rewrite (clients_outcome w cfg features fn f q H).
  apply client_outcome_returns.
Qed.

Lemma clients_never_raise_witness :
  ∃ res st',
    Main.detect_faces world_faces_down config0 "faces_sample.jpg" start = (Ret res, st') ∧
    io_only start st' ∧
    network st'
    = [Post {| req_url := "https://vision.example/face/v1.0/detect";
               req_headers := [("Ocp-Apim-Subscription-Key", "secret");
                               ("Content-Type", "application/octet-stream")];
               req_params := [("returnFaceId", "true");
                              ("returnFaceLandmarks", "false");
                              ("returnFaceAttributes", "age,gender,emotion,smile");
                              ("recognitionModel", "recognition_04")];
               req_data := Picture (blank 4 4) |}].
Proof.
  apply (clients_never_raise world_faces_down config0 None "detect_faces"
           (Main.detect_faces world_faces_down config0)
           (faces_post "https://vision.example/" "secret") "faces_sample.jpg" start).
  unfold clients. apply elem_of_cons. right. apply elem_of_cons. right.
  apply elem_of_cons. by left.
Defined.

Lemma client_outcome_result (w : World) (fn : string) (request : FileData → Request)
    (image_path : string) (st st' : State) (doc : json_doc) :
  client_outcome w fn request image_path st = (Ret (Some doc), st') ↔
  ∃ data r,
    fs st !! image_path = Some data ∧
    server w (request data) = Replied r ∧
    ¬ (400 ≤ status_code r < 600) ∧
    resp_json r = inr (Some doc) ∧
    st' = sent st [Post (request data)].
Proof.
  unfold client_outcome. split.
  - destruct (fs st !! image_path) as [data|]; [|done].
    destruct (server w (request data)) as [msg|r] eqn:Hs; [done|].
    destruct (decide (400 ≤ status_code r < 600)); [done|].
    destruct (resp_json r) as [msg|d] eqn:Hj; [done|].
    intros [= -> <-]. by exists data, r.
  - intros (data & r & -> & -> & Hr & -> & ->).
    by destruct (decide (400 ≤ status_code r < 600)).
Qed.

(** [None] with nothing printed comes from a body of [null] only. *)
Lemma client_outcome_silent (w : World) (fn : string) (request : FileData → Request)
    (image_path : string) (st st' : State) :
  client_outcome w fn request image_path st = (Ret None, st') ∧ stdout st' = stdout st ↔
  ∃ data r,
    fs st !! image_path = Some data ∧
    server w (request data) = Replied r ∧
    ¬ (400 ≤ status_code r < 600) ∧
    resp_json r = inr None ∧
    st' = sent st [Post (request data)].
Proof.
  assert (Hgrow : ∀ (l : list (list piece)) x, l ++ [x] ≠ l).
  { intros l x H. apply (f_equal length) in H. rewrite length_app in H. simpl in H. lia. }
  unfold client_outcome. split.
  - intros [H Hout]. revert H Hout.
    destruct (fs st !! image_path) as [data|];
      [|intros [= <-]; simpl; intros Hout; by apply Hgrow in Hout].
    destruct (server w (request data)) as [msg|r] eqn:Hs;
      [intros [= <-]; simpl; intros Hout; by apply Hgrow in Hout|].
    destruct (decide (400 ≤ status_code r < 600));
      [intros [= <-]; simpl; intros Hout; by apply Hgrow in Hout|].
    destruct (resp_json r) as [msg|d] eqn:Hj;
      [intros [= <-]; simpl; intros Hout; by apply Hgrow in Hout|].
    intros [= -> <-] _. by exists data, r.
  - intros (data & r & -> & -> & Hr & -> & ->).
    by destruct (decide (400 ≤ status_code r < 600)).
Qed.

Lemma client_outcome_none (w : World) (fn : string) (request : FileData → Request)
    (image_path : string) (st st' : State) :
  client_outcome w fn request image_path st = (Ret None, st') →
  stdout st' = stdout st ∨
  ∃ e, stdout st' = stdout st ++ [[Lit ("Error in " +:+ fn +:+ ": " +:+ str_exn e)]].
Proof.
  unfold client_outcome.
  destruct (fs st !! image_path) as [data|].
  - destruct (server w (request data)) as [msg|r].
    + intros [= <-]. right. by exists (RequestException msg).
    + destruct (decide (400 ≤ status_code r < 600)).
      * intros [= <-]. right. by exists (HTTPError r).
      * destruct (resp_json r) as [msg|d].
        -- intros [= <-]. right. by exists (JSONDecodeError msg).
        -- intros [= _ <-]. by left.
  - intros [= <-]. right. by exists (FileNotFoundError image_path).
Qed.

(** X2: what a client function returns.  It returns a document exactly
    when the image file was read, the service replied, the status is not 4xx
    or 5xx and the body decodes to that document; then [requests.post] was
    called once and nothing was printed.  It returns [None] with nothing
    printed exactly in the same circumstances with a body of [null]: the
    value of [response.json()] is returned as it is.  Every other [None]
    comes with exactly one printed line, "Error in <function>: <message>". *)
Theorem client_result_iff (w : World) (cfg : Main.Config) (features : option (list string))
    (fn : string) (f : string → M (option json_doc)) (q : FileData → Request)
    (image_path : string) (st st' : State) :
  (fn, f, q) ∈ clients w cfg features →
  (∀ doc,
     f image_path st = (Ret (Some doc), st') ↔
     ∃ data r,
       fs st !! image_path = Some data ∧ server w (q data) = Replied r ∧
       ¬ (400 ≤ status_code r < 600) ∧ resp_json r = inr (Some doc) ∧
       st' = sent st [Post (q data)]) ∧
  (f image_path st = (Ret None, st') ∧ stdout st' = stdout st ↔
   ∃ data r,
     fs st !! image_path = Some data ∧ server w (q data) = Replied r ∧
     ¬ (400 ≤ status_code r < 600) ∧ resp_json r = inr None ∧
     st' = sent st [Post (q data)]) ∧
  (f image_path st = (Ret None, st') →
   stdout st' = stdout st ∨
   ∃ e, stdout st' = stdout st ++ [[Lit ("Error in " +:+ fn +:+ ": " +:+ str_exn e)]]).
Proof.
  intros H. rewrite (clients_outcome w cfg features fn f q H).
  split; [intros doc; apply client_outcome_result|].
  split; [apply client_outcome_silent | apply client_outcome_none].
Qed.

Lemma client_result_iff_witness :
  Main.read_image_text world_null config0 "text_sample.jpg" start
  = (Ret None, sent start [Post (read_post "https://vision.example/" "secret"
                                   (Picture (blank 4 4)))]) ∧
  stdout (sent start [Post (read_post "https://vision.example/" "secret"
                              (Picture (blank 4 4)))]) = stdout start.
Proof.
  assert (Hin : ("read_image_text", Main.read_image_text world_null config0,
                 read_post "https://vision.example/" "secret")
                ∈ clients world_null config0 None).
  { unfold clients. apply elem_of_cons. right. apply elem_of_cons. by left. }
  destruct (client_result_iff world_null config0 None "read_image_text"
              (Main.read_image_text world_null config0)
              (read_post "https://vision.example/" "secret") "text_sample.jpg" start
              (sent start [Post (read_post "https://vision.example/" "secret"
                                   (Picture (blank 4 4)))]) Hin) as (_ & H & _).
  apply H. exists (Picture (blank 4 4)), (reply_null 200 "OK").
  split; [reflexivity|]. split; [reflexivity|]. split; [simpl; lia|]. by split.
Defined.

(** ** C6: no faces found, or no result *)



(** The two other complete runs: no face found, and a failed detection,
    which has before the common message the line that [detect_faces]
    prints. *)
Example demo_face_detection_no_faces :
  ∃ st', Main.demo_face_detection world_no_faces config0 "faces_sample.jpg" start = (Ret tt, st') ∧
         stdout st' = [[Lit (nl +:+ "=== Face Detection Demo ===")];
                       [Lit "Displaying Faces Image - Size: (4, 4)"];
                       [Lit "Failed to detect faces or no faces found."]].
Proof. eexists. split; by vm_compute. Qed.

Example demo_face_detection_failed :
  ∃ st', Main.demo_face_detection world_faces_down config0 "faces_sample.jpg" start = (Ret tt, st') ∧
         stdout st' = [[Lit (nl +:+ "=== Face Detection Demo ===")];
                       [Lit "Displaying Faces Image - Size: (4, 4)"];
                       [Lit "Error in detect_faces: 500 Server Error: Internal Server Error for url: https://vision.example/"];
                       [Lit "Failed to detect faces or no faces found."]].
Proof. eexists. split; by vm_compute. Qed.



(** ** What a run can and cannot touch *)

Section Effects.
Context (R : State → State → Prop) (may_write : string → bool).
Hypothesis R_refl : ∀ st, R st st.
Hypothesis R_trans : ∀ a b c, R a b → R b c → R a c.
Hypothesis K_print : ∀ l, keeps R (print l).
Hypothesis K_issue : ∀ c, keeps R (issue c).
Hypothesis K_alloc : ∀ im, keeps R (alloc im).
Hypothesis K_rectangle : ∀ r x0 y0 x1 y1 ink width,
  keeps R (Main.ImageDraw_rectangle r x0 y0 x1 y1 ink width).
Hypothesis K_text : ∀ r x y text ink font, keeps R (Main.ImageDraw_text r x y text ink font).
Hypothesis K_write : ∀ p d, may_write p = true → keeps R (write_file p d).

Lemma eff_deref (r : nat) : keeps R (deref r).
Proof.
  intros st o st' H. unfold deref in H.
  destruct (heap st !! r); injection H as _ <-; apply R_refl.
Qed.

Lemma eff_read_file (path : string) : keeps R (read_file path).
Proof.
  intros st o st' H. unfold read_file in H.
  destruct (fs st !! path); injection H as _ <-; apply R_refl.
Qed.

Lemma eff_Image_open (path : string) : keeps R (Main.Image_open path).
Proof.
  intros st o st' H. unfold Main.Image_open in H.
  destruct (fs st !! path) as [[s|im]|].
  - injection H as _ <-. apply R_refl.
  - by eapply K_alloc.
  - injection H as _ <-. apply R_refl.
Qed.

Lemma eff_display_image (image_path title : string) :
  keeps R (Main.display_image image_path title).
Proof.
  unfold Main.display_image. apply (keeps_try_except _ R_trans).
  - apply (keeps_bind _ R_trans); [apply eff_Image_open | intros img].
    apply (keeps_bind _ R_trans); [apply eff_deref | intros im].
    apply (keeps_bind _ R_trans); [apply K_print | intros _].
    by apply keeps_ret.
  - intros e. apply (keeps_bind _ R_trans); [apply K_print | intros _].
    by apply keeps_ret.
Qed.

Lemma eff_Image_copy (r : nat) : keeps R (Main.Image_copy r).
Proof.
  unfold Main.Image_copy.
  apply (keeps_bind _ R_trans); [apply eff_deref | intros im]. apply K_alloc.
Qed.

Lemma eff_select_font (w : World) : keeps R (Main.select_font w).
Proof.
  intros st o st' H. unfold Main.select_font, Main.ImageFont_truetype, try_except in H.
  destruct (fonts w !! "arial.ttf"); injection H as _ <-; apply R_refl.
Qed.

Lemma eff_draw_annotation (r : nat) (font : Font) (a : Main.Annotation) :
  keeps R (Main.draw_annotation r font a).
Proof.
  unfold Main.draw_annotation.
  apply (keeps_bind _ R_trans); [by apply keeps_lift|].
  intros [[[x y] w] h].
  apply (keeps_bind _ R_trans); [apply K_rectangle | intros _]. apply K_text.
Qed.

Lemma eff_draw_annotations (r : nat) (font : Font) (annotations : list Main.Annotation) :
  keeps R (for_each annotations (λ _ a, Main.draw_annotation r font a) tt).
Proof.
  apply (keeps_for_each _ R_refl R_trans). intros _ a. apply eff_draw_annotation.
Qed.

Lemma eff_truncate_file (w : World) (path : string) :
  may_write path = true → keeps R (Main.truncate_file w path).
Proof.
  intros Hp st o st' H. unfold Main.truncate_file in H.
  destruct (fs st !! path); [by eapply K_write|].
  destruct (save_cleans_up w); [|by eapply K_write].
  injection H as _ <-. apply R_refl.
Qed.

Lemma eff_Image_save (w : World) (r : nat) (path : string) :
  may_write path = true → keeps R (Main.Image_save w r path).
Proof.
  intros Hp. unfold Main.Image_save.
  apply (keeps_bind _ R_trans); [apply eff_deref | intros im].
  destruct (encoder w path) as [e|encode]; [by apply keeps_raise|].
  destruct (writable w path); [|by apply keeps_raise].
  destruct (encode im) as [e|f]; [|by apply K_write].
  apply (keeps_bind _ R_trans); [by apply eff_truncate_file | intros _].
  by apply keeps_raise.
Qed.

Lemma eff_save_image_with_annotations (w : World) (r : nat)
    (annotations : list Main.Annotation) (output_path : string) :
  may_write output_path = true →
  keeps R (Main.save_image_with_annotations w r annotations output_path).
Proof.
  intros Hp. unfold Main.save_image_with_annotations.
  apply (keeps_bind _ R_trans); [apply eff_select_font | intros font].
  apply (keeps_bind _ R_trans); [apply eff_draw_annotations | intros _].
  apply (keeps_bind _ R_trans); [by apply eff_Image_save | intros _].
  apply (keeps_bind _ R_trans); [apply K_print | intros _].
  by apply keeps_ret.
Qed.

Lemma eff_annotate_copy (w : World) (img : option nat)
    (annotations : list Main.Annotation) (output_path : string) :
  img = None ∨ may_write output_path = true →
  keeps R (Main.annotate_copy w img annotations output_path).
Proof.
  intros Hp. unfold Main.annotate_copy.
  destruct (Main.img_and_annotations img annotations) as [r|] eqn:E;
    [|by apply keeps_ret].
  destruct Hp as [->|Hp]; [done|].
  apply (keeps_bind _ R_trans); [apply eff_Image_copy | intros c].
  apply (keeps_bind _ R_trans); [by apply eff_save_image_with_annotations | intros _].
  by apply keeps_ret.
Qed.

Lemma eff_report_image_analysis (w : World) (img : option nat) (results : option json_doc) :
  img = None ∨ may_write "objects_detected.jpg" = true →
  keeps R (Main.report_image_analysis w img results).
Proof.
  intros Hp. unfold Main.report_image_analysis.
  destruct (Main.py_not results); [apply K_print|].
  destruct results as [[d|l]|]; try apply K_print.
  apply (keeps_bind _ R_trans); [|intros _].
  { destruct (doc_caption d); [apply K_print | by apply keeps_ret]. }
  apply (keeps_bind _ R_trans); [|intros _].
  { destruct (doc_tags d) as [tags|]; [|by apply keeps_ret].
    apply (keeps_bind _ R_trans); [apply K_print | intros _].
    apply (keeps_for_each _ R_refl R_trans). intros _ tag. apply K_print. }
  apply (keeps_bind _ R_trans); [|intros _; apply K_print].
  destruct (doc_objects d) as [objects|]; [|by apply keeps_ret].
  apply (keeps_bind _ R_trans); [apply K_print | intros _].
  apply (keeps_bind _ R_trans); [|intros annotations; by apply eff_annotate_copy].
  apply (keeps_for_each _ R_refl R_trans). intros annotations obj.
  unfold Main.object_annotation.
  apply (keeps_bind _ R_trans); [by apply keeps_lift | intros tag0].
  apply (keeps_bind _ R_trans); [apply K_print | intros _]. by apply keeps_ret.
Qed.

Lemma eff_line_annotation (annotations : list Main.Annotation) (line : line_t) :
  keeps R (Main.line_annotation annotations line).
Proof.
  unfold Main.line_annotation.
  apply (keeps_bind _ R_trans); [apply K_print | intros _].
  apply (keeps_bind _ R_trans); [by apply keeps_lift | intros b]. by apply keeps_ret.
Qed.

Lemma eff_report_ocr (w : World) (img : option nat) (ocr_results : option json_doc) :
  img = None ∨ may_write "text_detected.jpg" = true →
  keeps R (Main.report_ocr w img ocr_results).
Proof.
  intros Hp. unfold Main.report_ocr.
  destruct ocr_results as [[[? ? ? ? [rr|] ?]|l]|]; try apply K_print.
  apply (keeps_bind _ R_trans); [apply K_print | intros _].
  apply (keeps_bind _ R_trans); [|intros annotations].
  { apply (keeps_for_each _ R_refl R_trans). intros annotations block.
    apply (keeps_for_each _ R_refl R_trans). apply eff_line_annotation. }
  apply (keeps_bind _ R_trans); [by apply eff_annotate_copy | intros _]. apply K_print.
Qed.

Lemma eff_face_annotation (s : nat * list Main.Annotation) (face : face_t) :
  keeps R (Main.face_annotation s face).
Proof.
  unfold Main.face_annotation. destruct s as [i annotations].
  apply (keeps_bind _ R_trans); [by apply keeps_lift | intros emotion].
  apply (keeps_bind _ R_trans); [apply K_print | intros _].
  apply (keeps_bind _ R_trans); [by apply keeps_lift | intros g]. by apply keeps_ret.
Qed.

Lemma eff_report_faces (w : World) (img : option nat) (face_results : option json_doc) :
  img = None ∨ may_write "faces_detected.jpg" = true →
  keeps R (Main.report_faces w img face_results).
Proof.
  intros Hp. unfold Main.report_faces.
  destruct (Main.py_not face_results); [apply K_print|].
  destruct face_results as [[d|faces]|]; [| |by apply keeps_ret].
  - apply (keeps_bind _ R_trans); [apply K_print | intros _]. by apply keeps_raise.
  - apply (keeps_bind _ R_trans); [apply K_print | intros _].
    apply (keeps_bind _ R_trans);
      [apply (keeps_for_each _ R_refl R_trans), eff_face_annotation|].
    intros [n annotations].
    apply (keeps_bind _ R_trans); [by apply eff_annotate_copy | intros _]. apply K_print.
Qed.

Lemma eff_report_description (description_results : option json_doc) :
  keeps R (Main.report_description description_results).
Proof.
  unfold Main.report_description.
  destruct description_results as [[[[c|] ? ? dense ? ?]|l]|]; try apply K_print.
  apply (keeps_bind _ R_trans); [apply K_print | intros _].
  apply (keeps_bind _ R_trans); [|intros _; apply K_print].
  destruct dense as [captions|]; [|by apply keeps_ret].
  apply (keeps_bind _ R_trans); [apply K_print | intros _].
  apply (keeps_bind _ R_trans); [|intros _; by apply keeps_ret].
  apply (keeps_for_each _ R_refl R_trans). intros i caption.
  apply (keeps_bind _ R_trans); [apply K_print | intros _]. by apply keeps_ret.
Qed.

Lemma eff_client (w : World) (fn : string) (request : FileData → Request)
    (image_path : string) (st st' : State) (o : Outcome (option json_doc)) :
  client_outcome w fn request image_path st = (o, st') → R st st'.
Proof.
  assert (Hp : ∀ s l, R s (printed s [l])) by (intros s l; by eapply K_print).
  assert (Hi : ∀ s c, R s (sent s [c])) by (intros s c; by eapply K_issue).
  unfold client_outcome.
  destruct (fs st !! image_path) as [data|]; [|intros [= _ <-]; apply Hp].
  destruct (server w (request data)) as [msg|r].
  { intros [= _ <-]. eapply R_trans; [apply Hi | apply Hp]. }
  destruct (decide (400 ≤ status_code r < 600)).
  { intros [= _ <-]. eapply R_trans; [apply Hi | apply Hp]. }
  destruct (resp_json r); intros [= _ <-]; [|apply Hi].
  eapply R_trans; [apply Hi | apply Hp].
Qed.

Lemma eff_demo_image_analysis (w : World) (cfg : Main.Config) (image_path : string) :
  may_write "objects_detected.jpg" = true →
  keeps R (Main.demo_image_analysis w cfg image_path).
Proof.
  intros Hp. unfold Main.demo_image_analysis.
  apply (keeps_bind _ R_trans); [apply K_print | intros _].
  apply (keeps_bind _ R_trans); [apply eff_display_image | intros img].
  apply (keeps_bind _ R_trans); [|intros results; apply eff_report_image_analysis; by right].
  intros st o st' H. rewrite analyze_image_outcome in H. by eapply eff_client.
Qed.

Lemma eff_demo_ocr (w : World) (cfg : Main.Config) (image_path : string) :
  may_write "text_detected.jpg" = true →
  keeps R (Main.demo_ocr w cfg image_path).
Proof.
  intros Hp. unfold Main.demo_ocr.
  apply (keeps_bind _ R_trans); [apply K_print | intros _].
  apply (keeps_bind _ R_trans); [apply eff_display_image | intros img].
  apply (keeps_bind _ R_trans); [|intros results; apply eff_report_ocr; by right].
  intros st o st' H. rewrite read_image_text_outcome in H. by eapply eff_client.
Qed.

Lemma eff_demo_face_detection (w : World) (cfg : Main.Config) (image_path : string) :
  may_write "faces_detected.jpg" = true →
  keeps R (Main.demo_face_detection w cfg image_path).
Proof.
  intros Hp. unfold Main.demo_face_detection.
  apply (keeps_bind _ R_trans); [apply K_print | intros _].
  apply (keeps_bind _ R_trans); [apply eff_display_image | intros img].
  apply (keeps_bind _ R_trans); [|intros results; apply eff_report_faces; by right].
  intros st o st' H. rewrite detect_faces_outcome in H. by eapply eff_client.
Qed.

Lemma eff_demo_image_description (w : World) (cfg : Main.Config) (image_path : string) :
  keeps R (Main.demo_image_description w cfg image_path).
Proof.
  unfold Main.demo_image_description, Main.generate_description.
  apply (keeps_bind _ R_trans); [apply K_print | intros _].
  apply (keeps_bind _ R_trans); [apply eff_display_image | intros img].
  apply (keeps_bind _ R_trans); [|intros results; apply eff_report_description].
  intros st o st' H. rewrite analyze_image_outcome in H. by eapply eff_client.
Qed.

Lemma eff_run_azure_vision_demo (w : World) (cfg : Main.Config) :
  may_write "objects_detected.jpg" = true →
  keeps R (Main.run_azure_vision_demo w cfg).
Proof.
  intros Hp. unfold Main.run_azure_vision_demo.
  apply (keeps_bind _ R_trans); [apply K_print | intros _].
  apply (keeps_bind _ R_trans); [|intros _].
  { destruct (_ || _); [|by apply keeps_ret].
    apply (keeps_bind _ R_trans); [apply K_print | intros _]. apply K_print. }
  apply (keeps_bind _ R_trans); [by apply eff_demo_image_analysis | intros _].
  repeat (apply (keeps_bind _ R_trans); [apply K_print | intros _]).
  apply K_print.
Qed.

Lemma eff_main (w : World) :
  may_write "objects_detected.jpg" = true → keeps R (Main.main w).
Proof.
  intros Hp. unfold Main.main.
  apply (keeps_bind _ R_trans); [by apply keeps_lift | intros cfg].
  by apply eff_run_azure_vision_demo.
Qed.
End Effects.

(** A drawing primitive leaves the state alone or replaces the one image
    object by a raster of the same size. *)
Lemma paint_same_size (mask : Z → Z → bool) (ink : Color) (im : Image) :
  same_size im (paint mask ink im).
Proof.
  unfold same_size, paint, Image in *. apply list_eq. intros i.
  rewrite !list_lookup_fmap, list_lookup_imap.
  destruct (im !! i) as [row|]; simpl; [|done].
  by rewrite length_imap.
Qed.

Lemma ImageDraw_rectangle_state (r : nat) (x0 y0 x1 y1 : num) (ink : Color) (width : Z)
    (st st' : State) (o : Outcome unit) :
  Main.ImageDraw_rectangle r x0 y0 x1 y1 ink width st = (o, st') →
  st' = st ∨
  ∃ im im', heap st !! r = Some im ∧ same_size im im' ∧ st' = set_image st r im'.
Proof.
  unfold Main.ImageDraw_rectangle, mbind, M_bind, deref, lift, store, draw_rectangle.
  destruct (heap st !! r) as [im|] eqn:E; [|intros [= _ <-]; by left].
  destruct (decide _); [intros [= _ <-]; by left|].
  destruct (decide _); [intros [= _ <-]; by left|].
  intros [= _ <-]. right. eexists im, _. split; [done|]. split; [|reflexivity].
  apply paint_same_size.
Qed.

Lemma ImageDraw_text_state (r : nat) (x y : num) (text : string) (ink : Color) (font : Font)
    (st st' : State) (o : Outcome unit) :
  Main.ImageDraw_text r x y text ink font st = (o, st') →
  st' = st ∨
  ∃ im im', heap st !! r = Some im ∧ same_size im im' ∧ st' = set_image st r im'.
Proof.
  unfold Main.ImageDraw_text, mbind, M_bind, deref, store, draw_text.
  destruct (heap st !! r) as [im|] eqn:E; [|intros [= _ <-]; by left].
  intros [= _ <-]. right. eexists im, _. split; [done|]. split; [|reflexivity].
  apply paint_same_size.
Qed.

(** *** Nothing but image objects: [draw_only] *)

Lemma draw_only_refl (st : State) : draw_only st st.
Proof. by repeat split. Qed.

Lemma draw_only_trans (a b c : State) : draw_only a b → draw_only b c → draw_only a c.
Proof. intros (?&?&?) (?&?&?). repeat split; congruence. Qed.

Lemma draw_only_rectangle r x0 y0 x1 y1 ink width :
  keeps draw_only (Main.ImageDraw_rectangle r x0 y0 x1 y1 ink width).
Proof.
  intros st o st' H.
  apply ImageDraw_rectangle_state in H as [->|(im & im' & _ & _ & ->)]; by repeat split.
Qed.

Lemma draw_only_text r x y text ink font :
  keeps draw_only (Main.ImageDraw_text r x y text ink font).
Proof.
  intros st o st' H.
  apply ImageDraw_text_state in H as [->|(im & im' & _ & _ & ->)]; by repeat split.
Qed.

(** *** The network: [net_same] *)

Lemma net_same_refl (st : State) : net_same st st.
Proof. done. Qed.

Lemma net_same_trans (a b c : State) : net_same a b → net_same b c → net_same a c.
Proof. unfold net_same. congruence. Qed.

Lemma net_same_print l : keeps net_same (print l).
Proof. by intros st o st' [= _ <-]. Qed.

Lemma net_same_alloc im : keeps net_same (alloc im).
Proof. by intros st o st' [= _ <-]. Qed.

Lemma net_same_write (p : string) (d : FileData) : keeps net_same (write_file p d).
Proof. by intros st o st' [= _ <-]. Qed.

Lemma net_same_rectangle r x0 y0 x1 y1 ink width :
  keeps net_same (Main.ImageDraw_rectangle r x0 y0 x1 y1 ink width).
Proof. intros st o st' H. by apply draw_only_rectangle in H as (_ & ? & _). Qed.

Lemma net_same_text r x y text ink font :
  keeps net_same (Main.ImageDraw_text r x y text ink font).
Proof. intros st o st' H. by apply draw_only_text in H as (_ & ? & _). Qed.

(** *** The network and the files: [net_fs_same] *)

Lemma net_fs_same_refl (st : State) : net_fs_same st st.
Proof. done. Qed.

Lemma net_fs_same_trans (a b c : State) :
  net_fs_same a b → net_fs_same b c → net_fs_same a c.
Proof. intros [? ?] [? ?]. split; congruence. Qed.

Lemma net_fs_same_print l : keeps net_fs_same (print l).
Proof. by intros st o st' [= _ <-]. Qed.

Lemma net_fs_same_alloc im : keeps net_fs_same (alloc im).
Proof. by intros st o st' [= _ <-]. Qed.

Lemma net_fs_same_rectangle r x0 y0 x1 y1 ink width :
  keeps net_fs_same (Main.ImageDraw_rectangle r x0 y0 x1 y1 ink width).
Proof. intros st o st' H. by apply draw_only_rectangle in H as (_ & ? & ?). Qed.

Lemma net_fs_same_text r x y text ink font :
  keeps net_fs_same (Main.ImageDraw_text r x y text ink font).
Proof. intros st o st' H. by apply draw_only_text in H as (_ & ? & ?). Qed.

Lemma net_fs_same_no_write (p : string) (d : FileData) :
  (λ _ : string, false) p = true → keeps net_fs_same (write_file p d).
Proof. done. Qed.

(** *** Files other than one: [fs_frame] *)

Lemma fs_frame_refl (p : string) (st : State) : fs_frame p st st.
Proof. done. Qed.

Lemma fs_frame_trans (p : string) (a b c : State) :
  fs_frame p a b → fs_frame p b c → fs_frame p a c.
Proof. intros H1 H2 q Hq. by rewrite H2, H1. Qed.

Lemma fs_frame_print p l : keeps (fs_frame p) (print l).
Proof. by intros st o st' [= _ <-]. Qed.

Lemma fs_frame_issue p c : keeps (fs_frame p) (issue c).
Proof. by intros st o st' [= _ <-]. Qed.

Lemma fs_frame_alloc p im : keeps (fs_frame p) (alloc im).
Proof. by intros st o st' [= _ <-]. Qed.

Lemma fs_frame_rectangle p r x0 y0 x1 y1 ink width :
  keeps (fs_frame p) (Main.ImageDraw_rectangle r x0 y0 x1 y1 ink width).
Proof.
  intros st o st' H. apply draw_only_rectangle in H as (_ & _ & H).
  intros q _. by rewrite H.
Qed.

Lemma fs_frame_text p r x y text ink font :
  keeps (fs_frame p) (Main.ImageDraw_text r x y text ink font).
Proof.
  intros st o st' H. apply draw_only_text in H as (_ & _ & H).
  intros q _. by rewrite H.
Qed.

Lemma fs_frame_write (p q : string) (d : FileData) :
  bool_decide (q = p) = true → keeps (fs_frame p) (write_file q d).
Proof.
  intros Hq%bool_decide_eq_true st o st' [= _ <-]. subst q.
  intros q Hq. simpl. by rewrite lookup_insert_ne.
Qed.

(** *** Sizes of image objects: [sizes_kept] *)

Lemma same_size_refl (im : Image) : same_size im im.
Proof. done. Qed.

Lemma same_size_trans (a b c : Image) : same_size a b → same_size b c → same_size a c.
Proof. unfold same_size. congruence. Qed.

Lemma sizes_kept_refl (st : State) : sizes_kept st st.
Proof. intros r im H. by exists im. Qed.

Lemma sizes_kept_trans (a b c : State) : sizes_kept a b → sizes_kept b c → sizes_kept a c.
Proof.
  intros H1 H2 r im Hr.
  destruct (H1 r im Hr) as (im1 & Hr1 & S1).
  destruct (H2 r im1 Hr1) as (im2 & Hr2 & S2).
  exists im2. split; [done|]. by eapply same_size_trans.
Qed.

Lemma sizes_kept_print l : keeps sizes_kept (print l).
Proof. intros st o st' [= _ <-] r im H. by exists im. Qed.

Lemma sizes_kept_alloc im : keeps sizes_kept (alloc im).
Proof.
  intros st o st' [= _ <-] r im0 Hr. exists im0. split; [|done].
  simpl. by apply lookup_app_l_Some.
Qed.

Lemma sizes_kept_write (p : string) (d : FileData) : keeps sizes_kept (write_file p d).
Proof. intros st o st' [= _ <-] r im H. by exists im. Qed.

Lemma sizes_kept_set_image (st : State) (r : nat) (im im' : Image) :
  heap st !! r = Some im → same_size im im' → sizes_kept st (set_image st r im').
Proof.
  intros Hr Hs r0 im0 Hr0. simpl.
  destruct (decide (r0 = r)) as [->|Hne].
  - exists im'. rewrite list_lookup_insert_eq by (by eapply lookup_lt_Some).
    split; [done|]. congruence.
  - exists im0. by rewrite list_lookup_insert_ne.
Qed.

Lemma sizes_kept_rectangle r x0 y0 x1 y1 ink width :
  keeps sizes_kept (Main.ImageDraw_rectangle r x0 y0 x1 y1 ink width).
Proof.
  intros st o st' H.
  apply ImageDraw_rectangle_state in H as [->|(im & im' & Hr & Hs & ->)];
    [apply sizes_kept_refl | by eapply sizes_kept_set_image].
Qed.

Lemma sizes_kept_text r x y text ink font :
  keeps sizes_kept (Main.ImageDraw_text r x y text ink font).
Proof.
  intros st o st' H.
  apply ImageDraw_text_state in H as [->|(im & im' & Hr & Hs & ->)];
    [apply sizes_kept_refl | by eapply sizes_kept_set_image].
Qed.

(** ** display_image *)

(** X3: [display_image] never raises and never touches the network or the
    files.  It returns [None] exactly when the file is missing or is not an
    image, having printed one line "Error displaying image: ..."; otherwise
    it returns a new image object holding the file's raster.  Image objects
    that existed before are unchanged. *)
Theorem display_image_returns (image_path title : string) (st : State) :
  ∃ res st',
    Main.display_image image_path title st = (Ret res, st') ∧
    net_fs_same st st' ∧
    (∀ r im, heap st !! r = Some im → heap st' !! r = Some im) ∧
    (res = None ↔ ¬ ∃ im, fs st !! image_path = Some (Picture im)) ∧
    (res = None →
     ∃ e, st' = printed st [[Lit ("Error displaying image: " +:+ str_exn e)]]) ∧
    (∀ r, res = Some r →
          heap st !! r = None ∧
          ∃ im, fs st !! image_path = Some (Picture im) ∧ heap st' !! r = Some im).
Proof.
  unfold Main.display_image, Main.Image_open, try_except, mbind, M_bind, alloc, deref, print.
  destruct (fs st !! image_path) as [[s|im]|] eqn:Hf; simpl.
  - do 2 eexists. split; [reflexivity|]. split; [done|]. split; [done|]. split; [|split].
    + split; [|done]. intros _ [im [=]].
    + intros _. by exists (UnidentifiedImageError image_path).
    + done.
  - rewrite lookup_app_r by done. rewrite Nat.sub_diag. simpl.
    do 2 eexists. split; [reflexivity|]. split; [done|]. split; [|split; [|split]].
    + intros r im0 Hr. simpl. by apply lookup_app_l_Some.
    + split; [done|]. intros H. exfalso. apply H. by exists im.
    + done.
    + intros r [= <-]. split; [by apply lookup_ge_None|].
      exists im. split; [done|]. simpl.
      rewrite lookup_app_r by done. by rewrite Nat.sub_diag.
  - do 2 eexists. split; [reflexivity|]. split; [done|]. split; [done|]. split; [|split].
    + split; [|done]. intros _ [im [=]].
    + intros _. by exists (FileNotFoundError image_path).
    + done.
Qed.

(** ** The renderer *)

Lemma draw_loop_draw_only (r : nat) (font : Font) (annotations : list Main.Annotation) :
  keeps draw_only (for_each annotations (λ _ a, Main.draw_annotation r font a) tt).
Proof.
  apply (eff_draw_annotations draw_only draw_only_refl draw_only_trans
           draw_only_rectangle draw_only_text).
Qed.

Lemma draw_annotation_drawn (r : nat) (font : Font) (a : Main.Annotation)
    (st : State) (im : Image) :
  valid_annotation a → heap st !! r = Some im →
  Main.draw_annotation r font a st = (Ret tt, set_image st r (draw_one font im a)).
Proof.
  intros (x & y & w & h & Hbox & Hw & Hh) Hr.
  unfold Main.draw_annotation, draw_one. rewrite Hbox.
  unfold mbind at 1, M_bind at 1, lift at 1. simpl.
  assert (Hx : num_int x ≤ num_int (num_add x w)).
  { apply num_int_mono. rewrite num_val_add.
    rewrite <- (Qplus_0_r (num_val x)) at 1. by apply Qplus_le_r. }
  assert (Hy : num_int y ≤ num_int (num_add y h)).
  { apply num_int_mono. rewrite num_val_add.
    rewrite <- (Qplus_0_r (num_val y)) at 1. by apply Qplus_le_r. }
  unfold Main.ImageDraw_rectangle, Main.ImageDraw_text, draw_rectangle,
    mbind, M_bind, lift, deref, store.
  rewrite Hr.
  destruct (decide (num_int (num_add x w) < num_int x)); [lia|].
  destruct (decide (num_int (num_add y h) < num_int y)); [lia|].
  simpl. rewrite list_lookup_insert_eq by (by eapply lookup_lt_Some).
  unfold set_image. simpl. by rewrite list_insert_insert_eq.
Qed.

Lemma draw_annotations_drawn (r : nat) (font : Font) (annotations : list Main.Annotation)
    (st : State) (im : Image) :
  Forall valid_annotation annotations → heap st !! r = Some im →
  for_each annotations (λ _ a, Main.draw_annotation r font a) tt st
  = (Ret tt, set_image st r (drawn font annotations im)).
Proof.
  intros Hall. revert st im.
  induction Hall as [|a l Ha Hl IH]; intros st im Hr.
  - simpl. by rewrite set_image_same.
  - rewrite for_each_cons.
    rewrite (bind_ret_run _ _ _ _ _ (draw_annotation_drawn r font a st im Ha Hr)).
    rewrite (IH (set_image st r (draw_one font im a)) (draw_one font im a))
      by (by eapply lookup_set_image).
    by rewrite set_image_set_image.
Qed.

Lemma set_image_allocated (st : State) (im im' : Image) :
  set_image (allocated st im) (length (heap st)) im' = allocated st im'.
Proof.
  unfold set_image, allocated. simpl. f_equal.
  rewrite insert_app_r_alt by done. by rewrite Nat.sub_diag.
Qed.

(** What [annotate_copy] does when there is an image and something to draw:
    the copy is a new object, the annotations are drawn on it, and it is
    saved. *)
Lemma annotate_copy_run (w : World) (r : nat) (annotations : list Main.Annotation)
    (path : string) (st : State) (im : Image) (encode : Encoder) (f : nat → nat → Color) :
  heap st !! r = Some im →
  annotations ≠ [] →
  Forall valid_annotation annotations →
  encoder w path = inr encode → writable w path = true →
  encode (drawn (chosen_font w) annotations im) = inr f →
  Main.annotate_copy w (Some r) annotations path st
  = (Ret tt,
     printed (wrote (allocated st (drawn (chosen_font w) annotations im)) path
                (Picture (decoded f (drawn (chosen_font w) annotations im))))
       [[Lit ("Annotated image saved to " +:+ path)]]).
Proof.
  intros Hr Hne Hall He Hw Henc.
  unfold Main.annotate_copy, Main.img_and_annotations.
  destruct annotations as [|a l]; [done|].
  assert (Hcopy : Main.Image_copy r st = (Ret (length (heap st)), allocated st im)).
  { unfold Main.Image_copy, mbind, M_bind, deref, alloc. by rewrite Hr. }
  rewrite (bind_ret_run _ _ _ _ _ Hcopy).
  assert (Hnew : heap (allocated st im) !! length (heap st) = Some im).
  { simpl. rewrite lookup_app_r by done. by rewrite Nat.sub_diag. }
  unfold Main.save_image_with_annotations.
  set (im' := drawn (chosen_font w) (a :: l) im) in *.
  assert (Hsave : (Main.select_font w ≫= λ font,
            for_each (a :: l) (λ _ annotation,
              Main.draw_annotation (length (heap st)) font annotation) tt ≫= λ _,
            Main.Image_save w (length (heap st)) path ≫= λ _,
            print [Lit ("Annotated image saved to " +:+ path)] ≫= λ _,
            mret (length (heap st))) (allocated st im)
          = (Ret (length (heap st)),
             printed (wrote (allocated st im') path (Picture (decoded f im')))
               [[Lit ("Annotated image saved to " +:+ path)]])).
  { rewrite (bind_ret_run _ _ _ _ _ (select_font_run w _)).
    rewrite (bind_ret_run _ _ _ _ _
               (draw_annotations_drawn _ (chosen_font w) (a :: l) _ im Hall Hnew)).
    fold im'. rewrite set_image_allocated.
    rewrite (save_and_return_run w _ path (allocated st im') im').
    - by rewrite He, Hw, Henc.
    - simpl. rewrite lookup_app_r by done. by rewrite Nat.sub_diag. }
  by rewrite (bind_ret_run _ _ _ _ _ Hsave).
Qed.

(** Without an image, or with nothing to draw, [annotate_copy] does nothing. *)
Lemma annotate_copy_nothing (w : World) (img : option nat)
    (annotations : list Main.Annotation) (path : string) (st : State) :
  img = None ∨ annotations = [] →
  Main.annotate_copy w img annotations path st = (Ret tt, st).
Proof.
  unfold Main.annotate_copy, Main.img_and_annotations.
  intros [->| ->]; [done|]. by destruct img.
Qed.

Lemma decoded_same_size (f : nat → nat → Color) (im : Image) :
  same_size im (decoded f im).
Proof.
  unfold same_size, decoded, Image in *. apply list_eq. intros i.
  rewrite !list_lookup_fmap, list_lookup_imap.
  destruct (im !! i) as [row|]; simpl; [|done].
  by rewrite length_imap.
Qed.

Lemma save_image_with_annotations_inv (w : World) (r : nat) (annotations : list Main.Annotation)
    (output_path : string) (st st' : State) (o : Outcome nat) :
  Main.save_image_with_annotations w r annotations output_path st = (o, st') →
  network st' = network st ∧
  (∀ q, q ≠ output_path → fs st' !! q = fs st !! q) ∧
  match o with
  | Ret r' =>
      r' = r ∧
      ∃ im' encode f,
        heap st' !! r = Some im' ∧
        encoder w output_path = inr encode ∧ writable w output_path = true ∧
        encode im' = inr f ∧
        fs st' = <[output_path := Picture (decoded f im')]> (fs st) ∧
        stdout st' = stdout st ++ [[Lit ("Annotated image saved to " +:+ output_path)]]
  | Raise _ =>
      stdout st' = stdout st ∧
      (fs st' = fs st ∨ fs st' = <[output_path := Blob ""]> (fs st))
  end.
Proof.
  unfold Main.save_image_with_annotations. intros H.
  apply bind_inv in H as [(font & st1 & Hfont & H)|(e & Hfont & ->)];
    rewrite select_font_run in Hfont; [|done]. injection Hfont as <- <-.
  apply bind_inv in H as [([] & st2 & Hloop & H)|(e & Hloop & ->)].
  2:{ apply draw_loop_draw_only in Hloop as (Ho & Hn & Hf).
      split; [done|]. split; [by rewrite Hf|]. split; [done|]. by left. }
  apply draw_loop_draw_only in Hloop as (Ho & Hn & Hf).
  destruct (heap st2 !! r) as [im'|] eqn:Hr.
  - rewrite (save_and_return_run w r output_path st2 im' Hr) in H.
    destruct (encoder w output_path) as [e0|encode] eqn:He.
    { injection H as <- <-. split; [done|]. split; [by rewrite Hf|].
      split; [done|]. by left. }
    destruct (writable w output_path) eqn:Hw.
    2:{ injection H as <- <-. split; [done|]. split; [by rewrite Hf|].
        split; [done|]. by left. }
    destruct (encode im') as [e|f] eqn:Henc.
    + injection H as <- <-.
      assert (Hw' : truncated w st2 output_path = st2
                    ∨ truncated w st2 output_path = wrote st2 output_path (Blob "")).
      { unfold truncated. destruct (fs st2 !! output_path); [by right|].
        destruct (save_cleans_up w); [by left | by right]. }
      destruct Hw' as [-> | ->]; simpl.
      * split; [done|]. split; [by rewrite Hf|]. split; [done|]. by left.
      * split; [done|]. split.
        { intros q Hq. by rewrite lookup_insert_ne, Hf. }
        split; [done|]. right. by rewrite Hf.
    + injection H as <- <-. simpl. split; [done|]. split.
      { intros q Hq. by rewrite lookup_insert_ne, Hf. }
      split; [done|]. exists im', encode, f. by rewrite Hf, Ho.
  - revert H. unfold Main.Image_save, mbind, M_bind, deref. rewrite Hr.
    intros [= <- <-]. split; [done|]. split; [by rewrite Hf|]. split; [done|]. by left.
Qed.



(** X5: rendering never changes the size of an image: whatever the
    annotations and whether the render returns or raises, every image object
    has afterwards as many rows, of the same lengths, as before; and when
    the render returns, the image in the output file has the size of the
    image that was passed in. *)
Theorem render_keeps_size (w : World) (r : nat) (annotations : list Main.Annotation)
    (output_path : string) (st st' : State) (o : Outcome nat) :
  Main.save_image_with_annotations w r annotations output_path st = (o, st') →
  (∀ r0 im, heap st !! r0 = Some im →
            ∃ im', heap st' !! r0 = Some im' ∧ same_size im im') ∧
  (∀ r' im, o = Ret r' → heap st !! r = Some im →
            ∃ im', fs st' !! output_path = Some (Picture im') ∧ same_size im im').
Proof.
  intros H.
  assert (Hs : sizes_kept st st').
  { revert H.
    apply (eff_save_image_with_annotations sizes_kept (λ _, true)
             sizes_kept_refl sizes_kept_trans sizes_kept_print
             sizes_kept_rectangle sizes_kept_text
             (λ p d _, sizes_kept_write p d)). done. }
  split; [exact Hs|].
  intros r' im -> Hr.
  apply save_image_with_annotations_inv in H
    as (_ & _ & _ & im' & encode & f & Hr' & _ & _ & _ & Hf & _).
  destruct (Hs r im Hr) as (im2 & Hr2 & Hsize).
  exists (decoded f im'). rewrite Hf, lookup_insert_eq. split; [done|].
  assert (im2 = im') as -> by congruence.
  eapply same_size_trans; [exact Hsize | apply decoded_same_size].
Qed.

Lemma render_keeps_size_witness :
  ∃ im', fs (Main.save_image_with_annotations world_offline 0 [corner_annotation]
               "objects_detected.jpg" loaded).2 !! "objects_detected.jpg"
         = Some (Picture im') ∧ same_size (blank 4 4) im'.
Proof.
  destruct (render_keeps_size world_offline 0 [corner_annotation]
              "objects_detected.jpg" loaded
              (Main.save_image_with_annotations world_offline 0 [corner_annotation]
                 "objects_detected.jpg" loaded).2 (Ret 0%nat)) as (_ & H).
  - by vm_compute.
  - by apply (H 0%nat (blank 4 4)).
Defined.

(** One annotation on an existing image object: it is drawn, or [ValueError]
    is raised and the state is as it was. *)
Lemma draw_annotation_cases (r : nat) (font : Font) (a : Main.Annotation)
    (st : State) (im : Image) :
  heap st !! r = Some im →
  (length (Main.box a) = 4%nat ∧
   ∃ im', Main.draw_annotation r font a st = (Ret tt, set_image st r im')) ∨
  (∃ msg, Main.draw_annotation r font a st = (Raise (ValueError msg), st)).
Proof.
  intros Hr. unfold Main.draw_annotation.
  destruct (Main.box a) as [|x [|y [|w [|h [|? ?]]]]]; try (right; by eexists).
  unfold Main.ImageDraw_rectangle, Main.ImageDraw_text, draw_rectangle,
    mbind, M_bind, lift, deref, store. simpl. rewrite Hr.
  destruct (decide _); [right; by eexists|].
  destruct (decide _); [right; by eexists|].
  left. split; [done|]. simpl.
  rewrite list_lookup_insert_eq by (by eapply lookup_lt_Some).
  eexists. unfold set_image. simpl. by rewrite list_insert_insert_eq.
Qed.

Lemma draw_loop_bad_box (r : nat) (font : Font) (annotations : list Main.Annotation)
    (st : State) (im : Image) :
  heap st !! r = Some im →
  Exists (λ a, length (Main.box a) ≠ 4%nat) annotations →
  ∃ msg st', for_each annotations (λ _ a, Main.draw_annotation r font a) tt st
             = (Raise (ValueError msg), st').
Proof.
  intros Hr Hex. revert st im Hr.
  induction annotations as [|a l IH]; intros st im Hr; [by apply Exists_nil in Hex|].
  simpl. unfold mbind, M_bind.
  destruct (draw_annotation_cases r font a st im Hr) as [[Hlen [im' ->]]|[msg ->]];
    [|by eauto].
  apply Exists_cons in Hex as [Hbad|Hex]; [done|].
  apply (IH Hex (set_image st r im') im'). by eapply lookup_set_image.
Qed.

(** X6: an annotation whose box does not hold exactly four numbers makes the
    render raise [ValueError]; no file is written and the line "Annotated
    image saved to ..." is not printed, although the annotations before the
    bad one may already have been drawn on the image object. *)
Theorem render_rejects_bad_box (w : World) (r : nat) (annotations : list Main.Annotation)
    (output_path : string) (st : State) (im : Image) :
  heap st !! r = Some im →
  Exists (λ a, length (Main.box a) ≠ 4%nat) annotations →
  ∃ msg st',
    Main.save_image_with_annotations w r annotations output_path st
    = (Raise (ValueError msg), st') ∧
    fs st' = fs st ∧ stdout st' = stdout st.
Proof.
  intros Hr Hex.
  destruct (draw_loop_bad_box r (chosen_font w) annotations st im Hr Hex)
    as (msg & st' & Hloop).
  exists msg, st'.
  assert (Hrun : Main.save_image_with_annotations w r annotations output_path st
                 = (Raise (ValueError msg), st')).
  { unfold Main.save_image_with_annotations.
    unfold mbind at 1, M_bind at 1. rewrite select_font_run.
    unfold mbind at 1, M_bind at 1. by rewrite Hloop. }
  split; [done|]. by apply draw_loop_draw_only in Hloop as (Ho & _ & Hf).
Qed.

Lemma render_rejects_bad_box_witness :
  ∃ msg st',
    Main.save_image_with_annotations world_offline 0
      [corner_annotation; {| Main.box := [NInt 1; NInt 1]; Main.label := "Dog" |}]
      "objects_detected.jpg" loaded
    = (Raise (ValueError msg), st') ∧
    fs st' = fs loaded ∧ stdout st' = stdout loaded.
Proof.
  apply (render_rejects_bad_box world_offline 0 _ "objects_detected.jpg" loaded (blank 4 4)).
  - reflexivity.
  - apply Exists_cons_tl, Exists_cons_hd. simpl. lia.
Defined.

(** ** The annotation box of demo_ocr *)

(** X7: the box of an OCR line is computed exactly when the bounding box
    holds at least 6 numbers, and otherwise [IndexError] is raised; the
    result depends only on the numbers at positions 0, 1, 2 and 5. *)
Theorem ocr_line_box_needs_six (bb : list num) :
  ((6 ≤ length bb)%nat ↔ ∃ b, ocr_line_box bb = Ret b) ∧
  ((length bb < 6)%nat ↔ ocr_line_box bb = Raise (IndexError "list index out of range")) ∧
  (∀ bb' : list num,
     bb' !! 0%nat = bb !! 0%nat → bb' !! 1%nat = bb !! 1%nat →
     bb' !! 2%nat = bb !! 2%nat → bb' !! 5%nat = bb !! 5%nat →
     ocr_line_box bb' = ocr_line_box bb).
Proof.
  split; [|split].
  - destruct bb as [|x0 [|y0 [|x1 [|y1 [|x2 [|y2 r]]]]]]; simpl;
      (split; [intros H; try lia; by eexists | intros [b H]; try done; lia]).
  - destruct bb as [|x0 [|y0 [|x1 [|y1 [|x2 [|y2 r]]]]]]; simpl;
      (split; [intros H; try lia; done | intros H; try done; lia]).
  - intros bb' H0 H1 H2 H5.
    unfold ocr_line_box, list_getitem. by rewrite H0, H1, H2, H5.
Qed.

(** ** Loops *)

(** *** demo_ocr *)

Lemma ocr_line_box_ok (line : line_t) :
  line_ok line → ocr_line_box (line_boundingBox line) = Ret (Main.box (line_annotation_of line)).
Proof.
  unfold line_ok, line_annotation_of. simpl.
  destruct (line_boundingBox line) as [|x0 [|y0 [|x1 [|y1 [|x2 [|y2 r]]]]]]; simpl;
    intros H; try lia. reflexivity.
Qed.

Lemma ocr_line_box_short (line : line_t) :
  ¬ line_ok line →
  ocr_line_box (line_boundingBox line) = Raise (IndexError "list index out of range").
Proof.
  unfold line_ok.
  destruct (line_boundingBox line) as [|x0 [|y0 [|x1 [|y1 [|x2 [|y2 r]]]]]]; simpl;
    intros H; try done. lia.
Qed.

Lemma line_annotation_ok (line : line_t) (annotations : list Main.Annotation) (st : State) :
  line_ok line →
  Main.line_annotation annotations line st
  = (Ret (annotations ++ [line_annotation_of line]), printed st [line_printed line]).
Proof.
  intros Hok. unfold Main.line_annotation, mbind, M_bind, lift.
  rewrite print_run, (ocr_line_box_ok line Hok). by destruct line.
Qed.

Lemma line_annotation_short (line : line_t) (annotations : list Main.Annotation)
    (st : State) :
  ¬ line_ok line →
  Main.line_annotation annotations line st
  = (Raise (IndexError "list index out of range"), printed st [line_printed line]).
Proof.
  intros Hbad. unfold Main.line_annotation, mbind, M_bind, lift.
  by rewrite print_run, (ocr_line_box_short line Hbad).
Qed.

Lemma line_loop_ok (lines : list line_t) (annotations : list Main.Annotation) (st : State) :
  Forall line_ok lines →
  for_each lines Main.line_annotation annotations st
  = (Ret (annotations ++ (line_annotation_of <$> lines)),
     printed st (line_printed <$> lines)).
Proof.
  intros Hall. revert annotations st.
  induction Hall as [|line l Hok Hl IH]; intros annotations st; simpl.
  - by rewrite app_nil_r, printed_nil.
  - unfold mbind, M_bind. rewrite (line_annotation_ok line annotations st Hok).
    by rewrite IH, printed_printed, <- app_assoc.
Qed.

Lemma line_loop_short (good rest : list line_t) (bad : line_t)
    (annotations : list Main.Annotation) (st : State) :
  Forall line_ok good → ¬ line_ok bad →
  for_each (good ++ bad :: rest) Main.line_annotation annotations st
  = (Raise (IndexError "list index out of range"),
     printed st (line_printed <$> (good ++ [bad]))).
Proof.
  intros Hgood Hbad. rewrite for_each_app. unfold mbind at 1, M_bind at 1.
  rewrite (line_loop_ok good annotations st Hgood). simpl.
  unfold mbind, M_bind. rewrite (line_annotation_short bad _ _ Hbad).
  by rewrite printed_printed, fmap_app.
Qed.

Lemma report_ocr_loop (w : World) (img : option nat) (d : analyze_doc)
    (rr : readResult_t) (st : State) :
  doc_readResult d = Some rr →
  Main.report_ocr w img (Some (DAnalyze d)) st
  = (annotations ← for_each (all_lines rr) Main.line_annotation [];
     _ ← Main.annotate_copy w img annotations "text_detected.jpg";
     print [Lit (nl +:+ "OCR processing completed!")])
      (printed st [[Lit (nl +:+ "Extracted Text:")]]).
Proof.
  intros Hrr. destruct d as [c t o dc rd k]. simpl in Hrr. subst rd.
  unfold Main.report_ocr, all_lines.
  unfold mbind at 1, M_bind at 1. rewrite print_run.
  unfold mbind at 1 3, M_bind at 1 3.
  by rewrite <- for_each_concat, for_each_fmap.
Qed.

(** The loop of [demo_ocr] prints one line per line of text and collects
    one annotation per line. *)
Lemma report_ocr_lines (w : World) (img : option nat) (d : analyze_doc)
    (rr : readResult_t) (st : State) :
  doc_readResult d = Some rr →
  Forall line_ok (all_lines rr) →
  Main.report_ocr w img (Some (DAnalyze d)) st
  = (_ ← Main.annotate_copy w img (line_annotation_of <$> all_lines rr) "text_detected.jpg";
     print [Lit (nl +:+ "OCR processing completed!")])
      (printed st ([Lit (nl +:+ "Extracted Text:")] :: (line_printed <$> all_lines rr))).
Proof.
  intros Hrr Hall. rewrite (report_ocr_loop w img d rr st Hrr).
  unfold mbind at 1, M_bind at 1. rewrite (line_loop_ok _ [] _ Hall).
  by rewrite printed_printed.
Qed.

(** X8: when every line of the read result has a bounding box of at least
    6 numbers, [demo_ocr] prints the header and one line "- <text>" per line
    of text, in reading order across the blocks.  With an image object, at
    least one line, boxes whose width and height are not negative, texts in
    ASCII and a save that succeeds, it then creates one new image object, the
    copy, on which one annotation per line is drawn, in the same order,
    labelled with the line's text; writes the encoder's version of that copy
    to text_detected.jpg; and prints the two closing lines.  The original
    image object is not changed.  Without an image, or without any line, it
    only prints. *)
Theorem demo_ocr_one_annotation_per_line (w : World) (d : analyze_doc)
    (rr : readResult_t) (st : State) :
  doc_readResult d = Some rr →
  Forall line_ok (all_lines rr) →
  (∀ r im encode f,
     heap st !! r = Some im →
     all_lines rr ≠ [] →
     Forall drawable (line_annotation_of <$> all_lines rr) →
     encoder w "text_detected.jpg" = inr encode →
     writable w "text_detected.jpg" = true →
     let copy := drawn (chosen_font w) (line_annotation_of <$> all_lines rr) im in
     encode copy = inr f →
     Main.report_ocr w (Some r) (Some (DAnalyze d)) st
     = (Ret tt,
        printed
          (wrote (allocated
                    (printed st ([Lit (nl +:+ "Extracted Text:")]
                                 :: (line_printed <$> all_lines rr)))
                    copy)
             "text_detected.jpg" (Picture (decoded f copy)))
          [[Lit "Annotated image saved to text_detected.jpg"];
           [Lit (nl +:+ "OCR processing completed!")]])) ∧
  (∀ img,
     img = None ∨ all_lines rr = [] →
     Main.report_ocr w img (Some (DAnalyze d)) st
     = (Ret tt,
        printed st ([Lit (nl +:+ "Extracted Text:")]
                    :: (line_printed <$> all_lines rr)
                    ++ [[Lit (nl +:+ "OCR processing completed!")]]))).
Proof.
  intros Hrr Hall. split.
  - intros r im encode f Hr Hne Hvalid He Hw copy Henc.
    rewrite (report_ocr_lines w (Some r) d rr st Hrr Hall).
    erewrite bind_ret_run.
    2:{ apply (annotate_copy_run w r _ _ _ im encode f); try done.
        - intros H. by apply fmap_nil_inv in H.
        - eapply Forall_impl; [exact Hvalid | by intros a [Ha _]]. }
    by rewrite print_run, printed_printed.
  - intros img Himg.
    rewrite (report_ocr_lines w img d rr st Hrr Hall).
    erewrite bind_ret_run.
    2:{ apply annotate_copy_nothing. destruct Himg as [->|H]; [by left|].
        right. by rewrite H. }
    by rewrite print_run, printed_printed.
Qed.

Lemma demo_ocr_one_annotation_per_line_witness :
  ∃ st' copy out,
    Main.report_ocr world_offline (Some 0%nat) (Some (DAnalyze corner_lines_doc)) loaded
    = (Ret tt, st') ∧
    heap st' = [blank 4 4; copy] ∧ getpixel copy 0 0 = Some red ∧
    fs st' !! "text_detected.jpg" = Some (Picture out) ∧
    getpixel out 0 0 = Some (254, 0, 0) ∧
    stdout st' = [[Lit (nl +:+ "Extracted Text:")]; [Lit "- STOP"]; [Lit "- GO"];
                  [Lit "Annotated image saved to text_detected.jpg"];
                  [Lit (nl +:+ "OCR processing completed!")]].
Proof.
  destruct (demo_ocr_one_annotation_per_line world_offline corner_lines_doc
              {| read_blocks :=
                   [ {| block_lines := [a_text_line "STOP" corner_box] |};
                     {| block_lines := [a_text_line "GO" corner_box] |} ] |}
              loaded eq_refl) as [H _].
  { repeat constructor; unfold line_ok; simpl; lia. }
  do 3 eexists. split.
  - apply (H 0%nat (blank 4 4) jpeg_encoder); try reflexivity; try discriminate.
    repeat (constructor; [split; [|reflexivity]|]); [..|constructor];
      exists (NInt 0), (NInt 0), (NInt 3), (NInt 3); by repeat split.
  - split; [reflexivity|]. split; [reflexivity|]. split; [by vm_compute|].
    split; reflexivity.
Defined.

(** X9: a line whose bounding box holds fewer than 6 numbers makes
    [demo_ocr] stop with an uncaught [IndexError], after it has printed the
    text of the lines up to and including that one; no annotated image is
    written and no image object is changed or created. *)
Theorem demo_ocr_short_box (w : World) (img : option nat) (d : analyze_doc)
    (rr : readResult_t) (good rest : list line_t) (bad : line_t) (st : State) :
  doc_readResult d = Some rr →
  all_lines rr = good ++ bad :: rest →
  Forall line_ok good →
  (length (line_boundingBox bad) < 6)%nat →
  Main.report_ocr w img (Some (DAnalyze d)) st
  = (Raise (IndexError "list index out of range"),
     printed st ([Lit (nl +:+ "Extracted Text:")] :: (line_printed <$> (good ++ [bad])))).
Proof.
  intros Hrr Hlines Hgood Hbad. rewrite (report_ocr_loop w img d rr st Hrr), Hlines.
  unfold mbind at 1, M_bind at 1. rewrite (line_loop_short good rest bad); [|done|].
  - by rewrite printed_printed.
  - unfold line_ok. lia.
Qed.

Lemma demo_ocr_short_box_witness :
  Main.report_ocr world_offline None (Some (DAnalyze short_box_doc)) start
  = (Raise (IndexError "list index out of range"),
     printed start [[Lit (nl +:+ "Extracted Text:")]; [Lit "- STOP"]; [Lit "- GO"]]).
Proof.
  apply (demo_ocr_short_box world_offline None short_box_doc
           {| read_blocks :=
                [ {| block_lines := [a_text_line "STOP" upright_box] |};
                  {| block_lines := [a_text_line "GO" [NInt 1; NInt 2; NInt 3; NInt 4]] |} ] |}
           [a_text_line "STOP" upright_box] [] (a_text_line "GO" [NInt 1; NInt 2; NInt 3; NInt 4])
           start eq_refl eq_refl).
  - repeat constructor; unfold line_ok; simpl; lia.
  - simpl. lia.
Defined.

(** *** demo_face_detection *)

Lemma dominant_emotion_ok (face : face_t) :
  fa_emotion (face_attributes face) ≠ [] →
  dominant_emotion (fa_emotion (face_attributes face)) = Ret (emotion_of face).
Proof.
  unfold emotion_of, dominant_emotion, py_max.
  by destruct (fa_emotion (face_attributes face)).
Qed.

Lemma first_upper_ok (gender : string) :
  gender ≠ "" → first_upper gender = Ret (initial_of gender).
Proof. by destruct gender. Qed.

Lemma face_annotation_ok (i : nat) (annotations : list Main.Annotation) (face : face_t)
    (st : State) :
  face_ok face →
  Main.face_annotation (i, annotations) face st
  = (Ret (S i, annotations ++ [face_annotation_of face]), printed st [face_printed i face]).
Proof.
  intros [He Hg]. unfold Main.face_annotation, mbind, M_bind, lift.
  by rewrite (dominant_emotion_ok face He), print_run, (first_upper_ok _ Hg).
Qed.

Lemma face_loop_ok (faces : list face_t) (i : nat) (annotations : list Main.Annotation)
    (st : State) :
  Forall face_ok faces →
  for_each faces Main.face_annotation (i, annotations) st
  = (Ret ((i + length faces)%nat, annotations ++ (face_annotation_of <$> faces)),
     printed st (imap (λ j, face_printed (i + j)) faces)).
Proof.
  intros Hall. revert i annotations st.
  induction Hall as [|face l Hok Hl IH]; intros i annotations st.
  - simpl. by rewrite Nat.add_0_r, app_nil_r, printed_nil.
  - rewrite for_each_cons. unfold mbind, M_bind.
    rewrite (face_annotation_ok i annotations face st Hok).
    rewrite IH, printed_printed, <- app_assoc. simpl. rewrite Nat.add_0_r.
    do 3 f_equal; [lia|].
    apply imap_ext. intros j f _. simpl. f_equal. lia.
Qed.

Lemma report_faces_loop (w : World) (img : option nat) (faces : list face_t) (st : State) :
  faces ≠ [] →
  Main.report_faces w img (Some (DFaces faces)) st
  = ('(_, annotations) ← for_each faces Main.face_annotation (0%nat, []);
     _ ← Main.annotate_copy w img annotations "faces_detected.jpg";
     print [Lit (nl +:+ "Face detection completed!")])
      (printed st [[Lit (nl +:+ "Detected " +:+ pretty (length faces) +:+ " faces:")]]).
Proof.
  intros Hne. unfold Main.report_faces, Main.py_not.
  rewrite bool_decide_eq_false_2 by done.
  unfold mbind at 1, M_bind at 1. by rewrite print_run.
Qed.

(** The loop of [demo_face_detection] prints one line per face and collects
    one annotation per face. *)
Lemma report_faces_lines (w : World) (img : option nat)
    (faces : list face_t) (st : State) :
  faces ≠ [] →
  Forall face_ok faces →
  Main.report_faces w img (Some (DFaces faces)) st
  = (_ ← Main.annotate_copy w img (face_annotation_of <$> faces) "faces_detected.jpg";
     print [Lit (nl +:+ "Face detection completed!")])
      (printed st ([Lit (nl +:+ "Detected " +:+ pretty (length faces) +:+ " faces:")]
                   :: imap face_printed faces)).
Proof.
  intros Hne Hall. rewrite (report_faces_loop w img faces st Hne).
  unfold mbind at 1, M_bind at 1. rewrite (face_loop_ok faces 0 [] _ Hall).
  by rewrite printed_printed.
Qed.

(** X10: for a non-empty list of faces that all have an emotion score and a
    gender, written in ASCII, [demo_face_detection] prints "Detected <n>
    faces:" and one line per face, numbered from 1, with the age, the
    capitalized gender and the dominant emotion.  With an image object,
    face rectangles whose width and height are not negative and a save that
    succeeds, it then creates one new image object, the copy, on which one
    annotation per face is drawn, in order, with the face rectangle as the
    box and the label "Age: <age truncated to an integer>, <first letter of
    the gender, in upper case>"; writes the encoder's version of that copy
    to faces_detected.jpg; and prints the two closing lines.  Without an
    image it only prints. *)
Theorem demo_face_detection_one_annotation_per_face (w : World) (faces : list face_t)
    (st : State) :
  faces ≠ [] →
  Forall face_ok faces →
  Forall face_ascii faces →
  (∀ r im encode f,
     heap st !! r = Some im →
     Forall drawable (face_annotation_of <$> faces) →
     encoder w "faces_detected.jpg" = inr encode →
     writable w "faces_detected.jpg" = true →
     let copy := drawn (chosen_font w) (face_annotation_of <$> faces) im in
     encode copy = inr f →
     Main.report_faces w (Some r) (Some (DFaces faces)) st
     = (Ret tt,
        printed
          (wrote (allocated
                    (printed st ([Lit (nl +:+ "Detected " +:+ pretty (length faces)
                                       +:+ " faces:")]
                                 :: imap face_printed faces))
                    copy)
             "faces_detected.jpg" (Picture (decoded f copy)))
          [[Lit "Annotated image saved to faces_detected.jpg"];
           [Lit (nl +:+ "Face detection completed!")]])) ∧
  Main.report_faces w None (Some (DFaces faces)) st
  = (Ret tt,
     printed st ([Lit (nl +:+ "Detected " +:+ pretty (length faces) +:+ " faces:")]
                 :: imap face_printed faces
                 ++ [[Lit (nl +:+ "Face detection completed!")]])).
Proof.
  intros Hne Hall _. split.
  - intros r im encode f Hr Hvalid He Hw copy Henc.
    rewrite (report_faces_lines w (Some r) faces st Hne Hall).
    erewrite bind_ret_run.
    2:{ apply (annotate_copy_run w r _ _ _ im encode f); try done.
        - intros H. by apply fmap_nil_inv in H.
        - eapply Forall_impl; [exact Hvalid | by intros a [Ha _]]. }
    by rewrite print_run, printed_printed.
  - rewrite (report_faces_lines w None faces st Hne Hall).
    erewrite bind_ret_run by (apply annotate_copy_nothing; by left).
    by rewrite print_run, printed_printed.
Qed.

Lemma demo_face_detection_one_annotation_per_face_witness :
  ∃ st' copy out,
    Main.report_faces world_offline (Some 0%nat) (Some (DFaces [a_face])) loaded
    = (Ret tt, st') ∧
    heap st' = [blank 4 4; copy] ∧
    getpixel copy 0 0 = Some black ∧ getpixel copy 1 1 = Some red ∧
    fs st' !! "faces_detected.jpg" = Some (Picture out) ∧
    getpixel out 1 1 = Some (254, 0, 0) ∧
    stdout st' = [[Lit (nl +:+ "Detected 1 faces:")];
                  [Lit "- Face 1: Age ~"; Num "" (NFloat (317 # 10));
                   Lit ", Female, Emotion: happiness"];
                  [Lit "Annotated image saved to faces_detected.jpg"];
                  [Lit (nl +:+ "Face detection completed!")]] ∧
    face_annotation_of a_face
    = {| Main.box := [NInt 1; NInt 1; NInt 2; NInt 2]; Main.label := "Age: 31, F" |}.
Proof.
  destruct (demo_face_detection_one_annotation_per_face world_offline [a_face] loaded)
    as [H _].
  { discriminate. }
  { repeat constructor; discriminate. }
  { constructor; [reflexivity | constructor]. }
  do 3 eexists. split.
  - apply (H 0%nat (blank 4 4) jpeg_encoder); try reflexivity.
    constructor; [|constructor]. split; [|reflexivity].
    exists (NInt 1), (NInt 1), (NInt 2), (NInt 2). by repeat split.
  - split; [reflexivity|]. split; [reflexivity|]. split; [reflexivity|].
    split; [by vm_compute|]. split; [reflexivity|]. split; reflexivity.
Defined.

(** X11: a face without any emotion score makes [demo_face_detection] stop
    with the uncaught [ValueError] of [max] on an empty sequence, before
    anything is printed for that face; a face whose gender is the empty
    string makes it stop with an uncaught [IndexError], after the line for
    that face was printed.  In both cases the faces before it were printed
    and no image is annotated. *)
Theorem demo_face_detection_bad_face (w : World) (img : option nat)
    (good rest : list face_t) (bad : face_t) (st : State) :
  Forall face_ok good →
  (fa_emotion (face_attributes bad) = [] →
   Main.report_faces w img (Some (DFaces (good ++ bad :: rest))) st
   = (Raise (ValueError "max() arg is an empty sequence"),
      printed st ([Lit (nl +:+ "Detected " +:+ pretty (length (good ++ bad :: rest))
                       +:+ " faces:")]
                  :: imap face_printed good))) ∧
  (fa_emotion (face_attributes bad) ≠ [] → fa_gender (face_attributes bad) = "" →
   Main.report_faces w img (Some (DFaces (good ++ bad :: rest))) st
   = (Raise (IndexError "string index out of range"),
      printed st ([Lit (nl +:+ "Detected " +:+ pretty (length (good ++ bad :: rest))
                       +:+ " faces:")]
                  :: imap face_printed (good ++ [bad])))).
Proof.
  intros Hgood.
  assert (Hne : good ++ bad :: rest ≠ []) by (by destruct good).
  split.
  - intros Hemo. rewrite (report_faces_loop w img _ st Hne).
    unfold mbind at 1, M_bind at 1. rewrite for_each_app.
    unfold mbind at 1, M_bind at 1. rewrite (face_loop_ok good 0 [] _ Hgood).
    rewrite for_each_cons. unfold mbind at 1, M_bind at 1.
    unfold Main.face_annotation, mbind, M_bind, lift. rewrite Hemo. simpl.
    by rewrite printed_printed.
  - intros Hemo Hgen. rewrite (report_faces_loop w img _ st Hne).
    unfold mbind at 1, M_bind at 1. rewrite for_each_app.
    unfold mbind at 1, M_bind at 1. rewrite (face_loop_ok good 0 [] _ Hgood).
    rewrite for_each_cons. unfold mbind at 1, M_bind at 1.
    unfold Main.face_annotation, mbind, M_bind, lift.
    rewrite (dominant_emotion_ok bad Hemo), print_run, Hgen. simpl.
    rewrite !printed_printed, imap_app. simpl. rewrite Nat.add_0_r.
    unfold face_printed. by rewrite Hgen.
Qed.

Lemma demo_face_detection_bad_face_witness :
  Main.report_faces world_offline None
    (Some (DFaces [a_face; a_face_without_emotion])) start
  = (Raise (ValueError "max() arg is an empty sequence"),
     printed start [[Lit (nl +:+ "Detected 2 faces:")];
                    [Lit "- Face 1: Age ~"; Num "" (NFloat (317 # 10));
                     Lit ", Female, Emotion: happiness"]]).
Proof.
  destruct (demo_face_detection_bad_face world_offline None [a_face] []
              a_face_without_emotion start) as [H _].
  - repeat constructor; discriminate.
  - exact (H eq_refl).
Defined.

(** *** demo_image_description *)

Lemma region_loop (captions : list caption_t) (i : nat) (st : State) :
  for_each captions
    (λ i caption,
       _ ← print [Lit ("- Region " +:+ pretty (S i) +:+ ": " +:+ cap_text caption
                       +:+ " (Confidence: ");
                  Num ".2f" (cap_confidence caption); Lit ")"];
       mret (S i)) i st
  = (Ret (i + length captions)%nat,
     printed st (imap (λ j, region_printed (i + j)) captions)).
Proof.
  revert i st. induction captions as [|c l IH]; intros i st.
  - simpl. by rewrite Nat.add_0_r, printed_nil.
  - rewrite for_each_cons. unfold mbind at 1, M_bind at 1.
    unfold mbind at 1, M_bind at 1. rewrite print_run. unfold mret at 1, M_ret at 1.
    rewrite IH, printed_printed. simpl. rewrite Nat.add_0_r.
    do 3 f_equal; [lia|].
    apply imap_ext. intros j f _. simpl. f_equal. lia.
Qed.

(** X12: [demo_image_description] never raises on an analyze response.
    With a caption it prints the caption, then, when dense captions are
    present, a header and one numbered line per region, then the closing
    line.  Without a caption it prints only "Failed to generate
    description.", even when dense captions are present. *)
Theorem demo_image_description_report (d : analyze_doc) (st : State) :
  (∀ c, doc_caption d = Some c →
        Main.report_description (Some (DAnalyze d)) st
        = (Ret tt,
           printed st (caption_printed c ::
                       match doc_denseCaptions d with
                       | Some captions =>
                           [Lit (nl +:+ "Detailed Region Descriptions:")]
                           :: imap region_printed captions
                       | None => []
                       end ++
                       [[Lit (nl +:+ "Image description completed!")]]))) ∧
  (doc_caption d = None →
   Main.report_description (Some (DAnalyze d)) st
   = (Ret tt, printed st [[Lit "Failed to generate description."]])).
Proof.
  destruct d as [cap t o dense rd k]. simpl. split.
  - intros c ->. unfold Main.report_description.
    unfold mbind at 1, M_bind at 1. rewrite print_run.
    destruct dense as [captions|].
    + unfold mbind, M_bind. rewrite print_run, region_loop. unfold mret, M_ret.
      rewrite print_run, !printed_printed. simpl. rewrite <- ?app_assoc. reflexivity.
    + unfold mbind, M_bind, mret, M_ret. by rewrite print_run, printed_printed.
  - by intros ->.
Qed.

Lemma demo_image_description_report_witness :
  Main.report_description (Some (DAnalyze sample_doc)) start
  = (Ret tt,
     printed start [[Lit (nl +:+ "Image Caption: a cat (Confidence: ");
                     Num ".2f" (NFloat (8 # 10)); Lit ")"];
                    [Lit (nl +:+ "Detailed Region Descriptions:")];
                    [Lit "- Region 1: a cat (Confidence: "; Num ".2f" (NFloat (8 # 10)); Lit ")"];
                    [Lit "- Region 2: a tail (Confidence: "; Num ".2f" (NFloat (5 # 10)); Lit ")"];
                    [Lit (nl +:+ "Image description completed!")]]) ∧
  Main.report_description (Some (DAnalyze dense_only_doc)) start
  = (Ret tt, printed start [[Lit "Failed to generate description."]]).
Proof.
  split.
  - destruct (demo_image_description_report sample_doc start) as [H _].
    exact (H _ eq_refl).
  - destruct (demo_image_description_report dense_only_doc start) as [_ H].
    exact (H eq_refl).
Defined.

(** *** demo_image_analysis *)

Lemma object_annotation_ok (obj : object_t) (annotations : list Main.Annotation)
    (st : State) :
  object_ok obj →
  Main.object_annotation annotations obj st
  = (Ret (annotations ++ [object_annotation_of obj]), printed st [object_printed obj]).
Proof.
  unfold object_ok, Main.object_annotation, object_annotation_of, object_printed,
    mbind, M_bind, lift, list_getitem.
  destruct (obj_tags obj) as [|tag0 tags]; [done|]. intros _. reflexivity.
Qed.

Lemma object_loop_ok (objects : list object_t) (annotations : list Main.Annotation)
    (st : State) :
  Forall object_ok objects →
  for_each objects Main.object_annotation annotations st
  = (Ret (annotations ++ (object_annotation_of <$> objects)),
     printed st (object_printed <$> objects)).
Proof.
  intros Hall. revert annotations st.
  induction Hall as [|obj l Hok Hl IH]; intros annotations st.
  - simpl. by rewrite app_nil_r, printed_nil.
  - rewrite for_each_cons. unfold mbind, M_bind.
    rewrite (object_annotation_ok obj annotations st Hok).
    by rewrite IH, printed_printed, <- app_assoc.
Qed.

Lemma analysis_preamble_run (d : analyze_doc) (st : State) :
  (_ ← match doc_caption d with
       | Some c =>
           print [Lit (nl +:+ "Image Caption: " +:+ cap_text c +:+ " (Confidence: ");
                  Num ".2f" (cap_confidence c); Lit ")"]
       | None => mret tt
       end;
   match doc_tags d with
   | Some tags =>
       _ ← print [Lit (nl +:+ "Tags detected:")];
       for_each tags (λ _ tag,
         print [Lit ("- " +:+ tag_name tag +:+ " (Confidence: ");
                Num ".2f" (tag_confidence tag); Lit ")"]) tt
   | None => mret tt
   end) st
  = (Ret tt, printed st (analysis_preamble d)).
Proof.
  unfold analysis_preamble.
  destruct (doc_caption d) as [c|], (doc_tags d) as [tags|].
  - rewrite (bind_ret_run _ _ _ _ _ (print_run _ _)).
    rewrite (bind_ret_run _ _ _ _ _ (print_run _ _)).
    by rewrite for_each_print, !printed_printed.
  - by rewrite (bind_ret_run _ _ _ _ _ (print_run _ _)).
  - rewrite (bind_ret_run _ _ _ _ _ (ret_run tt _)).
    rewrite (bind_ret_run _ _ _ _ _ (print_run _ _)).
    by rewrite for_each_print, !printed_printed.
  - rewrite (bind_ret_run _ _ _ _ _ (ret_run tt _)).
    by rewrite printed_nil.
Qed.

Lemma report_image_analysis_objects (w : World) (img : option nat) (d : analyze_doc)
    (objects : list object_t) (st : State) :
  doc_objects d = Some objects →
  Main.report_image_analysis w img (Some (DAnalyze d)) st
  = (annotations ← for_each objects Main.object_annotation [];
     _ ← Main.annotate_copy w img annotations "objects_detected.jpg";
     print [Lit (nl +:+ "Image analysis completed!")])
      (printed st (analysis_preamble d ++ [[Lit (nl +:+ "Objects detected:")]])).
Proof.
  intros Hobj. unfold Main.report_image_analysis, Main.py_not, Main.doc_len.
  rewrite Hobj. rewrite bool_decide_eq_false_2 by (simpl; lia).
  rewrite <- bind_assoc_run.
  rewrite (bind_ret_run _ _ _ _ _ (analysis_preamble_run d st)).
  rewrite !bind_assoc_run.
  rewrite (bind_ret_run _ _ _ _ _ (print_run _ _)).
  rewrite printed_printed. apply bind_assoc_run.
Qed.

Lemma report_image_analysis_no_objects (w : World) (img : option nat) (d : analyze_doc)
    (st : State) :
  doc_objects d = None → Main.doc_len d ≠ 0%nat →
  Main.report_image_analysis w img (Some (DAnalyze d)) st
  = (Ret tt, printed st (analysis_preamble d ++ [[Lit (nl +:+ "Image analysis completed!")]])).
Proof.
  intros Hobj Hlen. unfold Main.report_image_analysis, Main.py_not.
  rewrite Hobj. rewrite bool_decide_eq_false_2 by done.
  rewrite <- bind_assoc_run.
  rewrite (bind_ret_run _ _ _ _ _ (analysis_preamble_run d st)).
  rewrite (bind_ret_run _ _ _ _ _ (ret_run tt _)).
  by rewrite print_run, printed_printed.
Qed.

(** The loop of [demo_image_analysis] prints one line per object and
    collects one annotation per object. *)
Lemma report_image_analysis_lines (w : World) (img : option nat) (d : analyze_doc)
    (objects : list object_t) (st : State) :
  doc_objects d = Some objects →
  Forall object_ok objects →
  Main.report_image_analysis w img (Some (DAnalyze d)) st
  = (_ ← Main.annotate_copy w img (object_annotation_of <$> objects)
           "objects_detected.jpg";
     print [Lit (nl +:+ "Image analysis completed!")])
      (printed st (analysis_preamble d ++ [Lit (nl +:+ "Objects detected:")]
                                          :: (object_printed <$> objects))).
Proof.
  intros Hobj Hall.
  rewrite (report_image_analysis_objects w img d objects st Hobj).
  unfold mbind at 1, M_bind at 1. rewrite (object_loop_ok objects [] _ Hall).
  rewrite printed_printed, <- app_assoc. reflexivity.
Qed.

(** X13: when the response has an "objects" key and every object has a tag,
    [demo_image_analysis] prints the caption and the tags that are present,
    the header "Objects detected:" and one line per object.  With an image
    object, at least one object, rectangles whose width and height are not
    negative, names in ASCII and a save that succeeds, it then creates one
    new image object, the copy, on which one annotation per object is drawn,
    in order, with the object's rectangle as the box and the name of its
    first tag as the label; writes the encoder's version of that copy to
    objects_detected.jpg; and prints the two closing lines.  Without an
    image, or without any object, it only prints; and for a response that has
    other keys but no "objects" key it prints the caption and the tags that
    are present and the closing line. *)
Theorem demo_image_analysis_one_annotation_per_object (w : World) (d : analyze_doc)
    (st : State) :
  (∀ objects,
     doc_objects d = Some objects →
     Forall object_ok objects →
     (∀ r im encode f,
        heap st !! r = Some im →
        objects ≠ [] →
        Forall drawable (object_annotation_of <$> objects) →
        encoder w "objects_detected.jpg" = inr encode →
        writable w "objects_detected.jpg" = true →
        let copy := drawn (chosen_font w) (object_annotation_of <$> objects) im in
        encode copy = inr f →
        Main.report_image_analysis w (Some r) (Some (DAnalyze d)) st
        = (Ret tt,
           printed
             (wrote (allocated
                       (printed st (analysis_preamble d
                                    ++ [Lit (nl +:+ "Objects detected:")]
                                       :: (object_printed <$> objects)))
                       copy)
                "objects_detected.jpg" (Picture (decoded f copy)))
             [[Lit "Annotated image saved to objects_detected.jpg"];
              [Lit (nl +:+ "Image analysis completed!")]])) ∧
     (∀ img,
        img = None ∨ objects = [] →
        Main.report_image_analysis w img (Some (DAnalyze d)) st
        = (Ret tt,
           printed st (analysis_preamble d
                       ++ [Lit (nl +:+ "Objects detected:")]
                          :: (object_printed <$> objects)
                       ++ [[Lit (nl +:+ "Image analysis completed!")]])))) ∧
  (∀ img,
     doc_objects d = None → Main.doc_len d ≠ 0%nat →
     Main.report_image_analysis w img (Some (DAnalyze d)) st
     = (Ret tt,
        printed st (analysis_preamble d ++ [[Lit (nl +:+ "Image analysis completed!")]]))).
Proof.
  split.
  - intros objects Hobj Hall. split.
    + intros r im encode f Hr Hne Hvalid He Hw copy Henc.
      rewrite (report_image_analysis_lines w (Some r) d objects st Hobj Hall).
      erewrite bind_ret_run.
      2:{ apply (annotate_copy_run w r _ _ _ im encode f); try done.
          - intros H. by apply fmap_nil_inv in H.
          - eapply Forall_impl; [exact Hvalid | by intros a [Ha _]]. }
      by rewrite print_run, printed_printed.
    + intros img Himg.
      rewrite (report_image_analysis_lines w img d objects st Hobj Hall).
      erewrite bind_ret_run.
      2:{ apply annotate_copy_nothing. destruct Himg as [->|H]; [by left|].
          right. by rewrite H. }
      rewrite print_run, printed_printed. do 2 f_equal.
      by rewrite <- app_assoc.
  - intros img. apply report_image_analysis_no_objects.
Qed.

Lemma demo_image_analysis_one_annotation_per_object_witness :
  (∃ st' copy out,
     Main.report_image_analysis world_offline (Some 0%nat) (Some (DAnalyze one_object_doc))
       loaded = (Ret tt, st') ∧
     heap st' = [blank 4 4; copy] ∧ getpixel copy 0 0 = Some red ∧
     fs st' !! "objects_detected.jpg" = Some (Picture out) ∧
     getpixel out 0 0 = Some (254, 0, 0) ∧
     stdout st' = [[Lit (nl +:+ "Objects detected:")];
                   [Lit "- cat (Confidence: "; Num ".2f" (NFloat (9 # 10)); Lit ")"];
                   [Lit "Annotated image saved to objects_detected.jpg"];
                   [Lit (nl +:+ "Image analysis completed!")]]) ∧
  object_annotation_of (an_object "cat" 1)
  = {| Main.box := [NInt 0; NInt 0; NInt 2; NInt 2]; Main.label := "cat" |} ∧
  Main.report_image_analysis world_offline (Some 0%nat) (Some (DAnalyze empty_doc)) loaded
  = (Ret tt, printed loaded [[Lit (nl +:+ "Image analysis completed!")]]).
Proof.
  split; [|split; [reflexivity|]].
  - destruct (demo_image_analysis_one_annotation_per_object world_offline
                one_object_doc loaded) as [H _].
    destruct (H [an_object "cat" 1] eq_refl) as [H1 _].
    { repeat constructor. discriminate. }
    do 3 eexists. split.
    + apply (H1 0%nat (blank 4 4) jpeg_encoder); try reflexivity; try discriminate.
      constructor; [|constructor]. split; [|reflexivity].
      exists (NInt 0), (NInt 0), (NInt 2), (NInt 2). by repeat split.
    + split; [reflexivity|]. split; [reflexivity|]. split; [by vm_compute|].
      split; reflexivity.
  - destruct (demo_image_analysis_one_annotation_per_object world_offline
                empty_doc loaded) as [_ H].
    apply (H (Some 0%nat) eq_refl). discriminate.
Defined.

(** X14: an object without any tag makes [demo_image_analysis] stop with an
    uncaught [IndexError], after the lines for the objects before it; no
    image is annotated. *)
Theorem demo_image_analysis_untagged_object (w : World) (img : option nat)
    (d : analyze_doc) (good rest : list object_t) (bad : object_t) (st : State) :
  doc_objects d = Some (good ++ bad :: rest) →
  Forall object_ok good →
  obj_tags bad = [] →
  Main.report_image_analysis w img (Some (DAnalyze d)) st
  = (Raise (IndexError "list index out of range"),
     printed st (analysis_preamble d ++ [Lit (nl +:+ "Objects detected:")]
                                         :: (object_printed <$> good))).
Proof.
  intros Hobj Hgood Hbad. rewrite (report_image_analysis_objects w img d _ st Hobj).
  unfold mbind at 1, M_bind at 1. rewrite for_each_app.
  unfold mbind at 1, M_bind at 1. rewrite (object_loop_ok good [] _ Hgood).
  rewrite for_each_cons. unfold mbind at 1, M_bind at 1.
  unfold Main.object_annotation, mbind, M_bind, lift, list_getitem. rewrite Hbad. simpl.
  rewrite printed_printed, <- app_assoc. reflexivity.
Qed.

Lemma demo_image_analysis_untagged_object_witness :
  Main.report_image_analysis world_offline None (Some (DAnalyze sample_doc)) start
  = (Raise (IndexError "list index out of range"),
     printed start [[Lit (nl +:+ "Image Caption: a cat (Confidence: ");
                     Num ".2f" (NFloat (8 # 10)); Lit ")"];
                    [Lit (nl +:+ "Objects detected:")];
                    [Lit "- cat (Confidence: "; Num ".2f" (NFloat (9 # 10)); Lit ")"]]).
Proof.
  apply (demo_image_analysis_untagged_object world_offline None sample_doc
           [an_object "cat" 1] [] (an_object "dog" 0) start eq_refl).
  - repeat constructor. discriminate.
  - reflexivity.
Defined.

(** ** Which files and which requests a demo leaves behind *)

Lemma fs_same_refl (st : State) : fs_same st st.
Proof. done. Qed.

Lemma fs_same_trans (a b c : State) : fs_same a b → fs_same b c → fs_same a c.
Proof. unfold fs_same. congruence. Qed.

Lemma fs_same_print l : keeps fs_same (print l).
Proof. by intros st o st' [= _ <-]. Qed.

Lemma fs_same_issue c : keeps fs_same (issue c).
Proof. by intros st o st' [= _ <-]. Qed.

Lemma fs_same_alloc im : keeps fs_same (alloc im).
Proof. by intros st o st' [= _ <-]. Qed.

Lemma fs_same_rectangle r x0 y0 x1 y1 ink width :
  keeps fs_same (Main.ImageDraw_rectangle r x0 y0 x1 y1 ink width).
Proof. intros st o st' H. by apply draw_only_rectangle in H as (_ & _ & ?). Qed.

Lemma fs_same_text r x y text ink font :
  keeps fs_same (Main.ImageDraw_text r x y text ink font).
Proof. intros st o st' H. by apply draw_only_text in H as (_ & _ & ?). Qed.

Lemma fs_same_no_write (p : string) (d : FileData) :
  (λ _ : string, false) p = true → keeps fs_same (write_file p d).
Proof. done. Qed.

(** X15: each demo writes at most its own output file: after
    [demo_image_analysis], [demo_ocr] or [demo_face_detection], and after the
    whole of main.py, every file other than objects_detected.jpg,
    text_detected.jpg or faces_detected.jpg respectively is as it was, however
    the run ends; [demo_image_description] writes no file at all. *)
Theorem demos_write_only_their_file (w : World) (cfg : Main.Config) (image_path : string)
    (st st' : State) (o : Outcome unit) :
  (Main.demo_image_analysis w cfg image_path st = (o, st') →
   ∀ q, q ≠ "objects_detected.jpg" → fs st' !! q = fs st !! q) ∧
  (Main.demo_ocr w cfg image_path st = (o, st') →
   ∀ q, q ≠ "text_detected.jpg" → fs st' !! q = fs st !! q) ∧
  (Main.demo_face_detection w cfg image_path st = (o, st') →
   ∀ q, q ≠ "faces_detected.jpg" → fs st' !! q = fs st !! q) ∧
  (Main.demo_image_description w cfg image_path st = (o, st') → fs st' = fs st) ∧
  (Main.main w st = (o, st') →
   ∀ q, q ≠ "objects_detected.jpg" → fs st' !! q = fs st !! q).
Proof.
  repeat split.
  - apply (eff_demo_image_analysis (fs_frame "objects_detected.jpg")
             (λ q, bool_decide (q = "objects_detected.jpg"))
             (fs_frame_refl _) (fs_frame_trans _) (fs_frame_print _) (fs_frame_issue _)
             (fs_frame_alloc _) (fs_frame_rectangle _) (fs_frame_text _)
             (fs_frame_write _)). done.
  - apply (eff_demo_ocr (fs_frame "text_detected.jpg")
             (λ q, bool_decide (q = "text_detected.jpg"))
             (fs_frame_refl _) (fs_frame_trans _) (fs_frame_print _) (fs_frame_issue _)
             (fs_frame_alloc _) (fs_frame_rectangle _) (fs_frame_text _)
             (fs_frame_write _)). done.
  - apply (eff_demo_face_detection (fs_frame "faces_detected.jpg")
             (λ q, bool_decide (q = "faces_detected.jpg"))
             (fs_frame_refl _) (fs_frame_trans _) (fs_frame_print _) (fs_frame_issue _)
             (fs_frame_alloc _) (fs_frame_rectangle _) (fs_frame_text _)
             (fs_frame_write _)). done.
  - apply (eff_demo_image_description fs_same fs_same_refl fs_same_trans
             fs_same_print fs_same_issue fs_same_alloc).
  - apply (eff_main (fs_frame "objects_detected.jpg")
             (λ q, bool_decide (q = "objects_detected.jpg"))
             (fs_frame_refl _) (fs_frame_trans _) (fs_frame_print _) (fs_frame_issue _)
             (fs_frame_alloc _) (fs_frame_rectangle _) (fs_frame_text _)
             (fs_frame_write _)). done.
Qed.

Lemma demos_write_only_their_file_witness :
  fs (Main.main world_one_object start).2 !! "sample_image.jpg"
  = Some (Picture (blank 4 4)).
Proof.
  destruct (demos_write_only_their_file world_one_object config0 "sample_image.jpg" start
              (Main.main world_one_object start).2
              (Main.main world_one_object start).1) as (_ & _ & _ & _ & H).
  rewrite (H (surjective_pairing _) "sample_image.jpg"); [reflexivity | discriminate].
Defined.

(** The whole run does write that one file when an object is found; the
    outline in it is the encoder's version of the red that was drawn. *)
Example main_writes_objects_detected :
  ∃ im, fs (Main.main world_one_object start).2 !! "objects_detected.jpg"
        = Some (Picture im) ∧
        fs start !! "objects_detected.jpg" = None ∧
        getpixel im 0 0 = Some (254, 0, 0).
Proof. eexists. split; [by vm_compute|]. split; [by vm_compute | reflexivity]. Qed.

Lemma display_image_inv (image_path title : string) (st st' : State) (o : Outcome (option nat)) :
  Main.display_image image_path title st = (o, st') →
  net_fs_same st st' ∧
  ((¬ ∃ im, fs st !! image_path = Some (Picture im)) → o = Ret None).
Proof.
  intros H. split.
  - revert H. apply (eff_display_image net_fs_same net_fs_same_refl net_fs_same_trans
                       net_fs_same_print net_fs_same_alloc).
  - intros Hno. revert H.
    unfold Main.display_image, Main.Image_open, try_except, mbind, M_bind.
    destruct (fs st !! image_path) as [[s|im]|].
    + by intros [= <- _].
    + exfalso. apply Hno. by exists im.
    + by intros [= <- _].
Qed.

Lemma client_outcome_fs (w : World) (fn : string) (request : FileData → Request)
    (image_path : string) (st st' : State) (o : Outcome (option json_doc)) :
  client_outcome w fn request image_path st = (o, st') → fs st' = fs st.
Proof.
  apply (eff_client fs_same fs_same_trans fs_same_print fs_same_issue).
Qed.

(** X16: when the image file is missing or is not an image, so that
    [display_image] yields [None], no demo writes any file, whatever the
    service answers and however the run ends. *)
Theorem no_image_no_output_file (w : World) (cfg : Main.Config) (image_path : string)
    (st st' : State) (o : Outcome unit) :
  (¬ ∃ im, fs st !! image_path = Some (Picture im)) →
  (Main.demo_image_analysis w cfg image_path st = (o, st') → fs st' = fs st) ∧
  (Main.demo_ocr w cfg image_path st = (o, st') → fs st' = fs st) ∧
  (Main.demo_face_detection w cfg image_path st = (o, st') → fs st' = fs st).
Proof.
  intros Hno.
  assert (Hkeep : ∀ (client : M (option json_doc)) (report : option nat → option json_doc → M unit)
                    (title : list piece) (name : string) (st0 : State),
            fs st0 = fs st →
            (∀ s s' r, client s = (r, s') → fs s' = fs s) →
            (∀ res, keeps fs_same (report None res)) →
            (_ ← print title; img ← Main.display_image image_path name;
             res ← client; report img res) st0 = (o, st') →
            fs st' = fs st).
  { intros client report title name st0 Hst0 Hclient Hreport H.
    apply bind_inv in H as [([] & st1 & Hp & H)|(e & Hp & _)]; [|by injection Hp].
    injection Hp as <-.
    apply bind_inv in H as [(img & st2 & Hd & H)|(e & Hd & _)].
    2:{ apply display_image_inv in Hd as [[_ Hfs] _]. simpl in Hfs. congruence. }
    apply display_image_inv in Hd as [[_ Hfs] Himg]. simpl in Hfs.
    assert (Hnone : img = None).
    { assert (Ret img = Ret None) as [= ->]; [|done].
      apply Himg. simpl. by rewrite Hst0. }
    subst img.
    apply bind_inv in H as [(res & st3 & Hc & H)|(e & Hc & _)].
    - apply Hclient in Hc. apply Hreport in H. unfold fs_same in H. congruence.
    - apply Hclient in Hc. congruence. }
  split; [|split]; intros H.
  - eapply (Hkeep _ (Main.report_image_analysis w)); [done| | |exact H].
    + intros s s' r Hc. rewrite analyze_image_outcome in Hc. by eapply client_outcome_fs.
    + intros res. apply (eff_report_image_analysis fs_same (λ _, false)
                           fs_same_refl fs_same_trans fs_same_print fs_same_alloc
                           fs_same_rectangle fs_same_text fs_same_no_write). by left.
  - eapply (Hkeep _ (Main.report_ocr w)); [done| | |exact H].
    + intros s s' r Hc. rewrite read_image_text_outcome in Hc. by eapply client_outcome_fs.
    + intros res. apply (eff_report_ocr fs_same (λ _, false)
                           fs_same_refl fs_same_trans fs_same_print fs_same_alloc
                           fs_same_rectangle fs_same_text fs_same_no_write). by left.
  - eapply (Hkeep _ (Main.report_faces w)); [done| | |exact H].
    + intros s s' r Hc. rewrite detect_faces_outcome in Hc. by eapply client_outcome_fs.
    + intros res. apply (eff_report_faces fs_same (λ _, false)
                           fs_same_refl fs_same_trans fs_same_print fs_same_alloc
                           fs_same_rectangle fs_same_text fs_same_no_write). by left.
Qed.

Lemma no_image_no_output_file_witness :
  fs (Main.demo_image_analysis world_one_object config0 "sample_image.jpg"
        start_not_an_image).2
  = fs start_not_an_image.
Proof.
  destruct (no_image_no_output_file world_one_object config0 "sample_image.jpg"
              start_not_an_image
              (Main.demo_image_analysis world_one_object config0 "sample_image.jpg"
                 start_not_an_image).2
              (Main.demo_image_analysis world_one_object config0 "sample_image.jpg"
                 start_not_an_image).1) as (H & _).
  - intros [im Him]. vm_compute in Him. discriminate.
  - apply H. apply surjective_pairing.
Defined.

(** In that run the request is still sent and the object is still reported. *)
Example not_an_image_still_analyzed :
  stdout (Main.demo_image_analysis world_one_object config0 "sample_image.jpg"
            start_not_an_image).2
  = [[Lit (nl +:+ "=== Image Analysis Demo ===")];
     [Lit "Error displaying image: cannot identify image file 'sample_image.jpg'"];
     [Lit (nl +:+ "Objects detected:")];
     [Lit "- cat (Confidence: "; Num ".2f" (NFloat (9 # 10)); Lit ")"];
     [Lit (nl +:+ "Image analysis completed!")]].
Proof. by vm_compute. Qed.

Lemma client_outcome_network (w : World) (fn : string) (request : FileData → Request)
    (image_path : string) (st st' : State) (o : Outcome (option json_doc)) :
  client_outcome w fn request image_path st = (o, st') →
  network st' = network st ++ match fs st !! image_path with
                              | Some data => [Post (request data)]
                              | None => []
                              end.
Proof.
  unfold client_outcome.
  destruct (fs st !! image_path) as [data|];
    [|intros [= _ <-]; simpl; by rewrite app_nil_r].
  destruct (server w (request data)) as [msg|r]; [by intros [= _ <-]|].
  destruct (decide (400 ≤ status_code r < 600)); [by intros [= _ <-]|].
  by destruct (resp_json r); intros [= _ <-].
Qed.

Lemma display_image_never_raises (image_path title : string) (st st' : State) (e : Exn) :
  Main.display_image image_path title st ≠ (Raise e, st').
Proof.
  unfold Main.display_image, Main.Image_open, try_except, mbind, M_bind, alloc, deref, print.
  destruct (fs st !! image_path) as [[s|im]|]; simpl; [done| |done].
  rewrite lookup_app_r by done. by rewrite Nat.sub_diag.
Qed.

Lemma demo_image_analysis_network (w : World) (cfg : Main.Config) (image_path : string)
    (st st' : State) (o : Outcome unit) :
  Main.demo_image_analysis w cfg image_path st = (o, st') →
  network st' = network st ++ match fs st !! image_path with
                              | Some data => [Post (analyze_request cfg demo_features data)]
                              | None => []
                              end.
Proof.
  unfold Main.demo_image_analysis. intros H.
  apply bind_inv in H as [([] & st1 & Hp & H)|(e & Hp & _)]; [|by injection Hp].
  injection Hp as <-.
  apply bind_inv in H as [(img & st2 & Hd & H)|(e & Hd & _)].
  2:{ by apply display_image_never_raises in Hd. }
  apply display_image_inv in Hd as [[Hn Hf] _]. simpl in Hn, Hf.
  apply bind_inv in H as [(res & st3 & Hc & H)|(e & Hc & ->)];
    rewrite analyze_image_outcome in Hc;
    pose proof (client_outcome_network _ _ _ _ _ _ _ Hc) as Hnet;
    rewrite Hf, Hn in Hnet.
  - assert (Hrep : net_same st3 st').
    { revert H. apply (eff_report_image_analysis net_same (λ _, true)
                         net_same_refl net_same_trans net_same_print net_same_alloc
                         net_same_rectangle net_same_text (λ p d _, net_same_write p d)).
      by right. }
    unfold net_same in Hrep. by rewrite Hrep.
  - done.
Qed.

Lemma main_network (w : World) (st st' : State) (o : Outcome unit) :
  Main.main w st = (o, st') →
  network st' = network st ++ match Main.load_module w, fs st !! "sample_image.jpg" with
                              | Ret cfg, Some data =>
                                  [Post (analyze_request cfg demo_features data)]
                              | _, _ => []
                              end.
Proof.
  unfold Main.main. intros H.
  apply bind_inv in H as [(cfg & st0 & Hl & H)|(e & Hl & _)]; unfold lift in Hl.
  2:{ injection Hl as -> <-. by rewrite app_nil_r. }
  injection Hl as -> <-.
  unfold Main.run_azure_vision_demo in H.
  apply bind_inv in H as [([] & st1 & Hp & H)|(e & Hp & _)]; [|by injection Hp].
  injection Hp as <-.
  apply bind_inv in H as [([] & st2 & Hw & H)|(e & Hw & _)].
  2:{ exfalso. revert Hw. destruct (_ || _); [|done].
      unfold mbind, M_bind, print. done. }
  assert (Hst2 : net_fs_same st st2).
  { revert Hw. destruct (_ || _).
    - unfold mbind, M_bind, print. by intros [= <-].
    - by intros [= <-]. }
  destruct Hst2 as [Hn2 Hf2].
  apply bind_inv in H as [([] & st3 & Hd & H)|(e & Hd & ->)];
    apply demo_image_analysis_network in Hd; rewrite Hn2, Hf2 in Hd.
  - assert (Hn : network st' = network st3); [|by rewrite Hn].
    revert H. unfold mbind, M_bind, print. by intros [= _ <-].
  - done.
Qed.

(** X17: python main.py calls [requests.post] at most once, and never the
    SDK client.  When both variables are in the process environment and
    sample_image.jpg can be read, the one call has the URL
    <VISION_ENDPOINT>computervision/imageanalysis:analyze, the parameters
    features=tags,objects,caption,denseCaptions,smartCrops, language=en and
    gender-neutral-caption=false, the headers Ocp-Apim-Subscription-Key:
    <VISION_KEY> and Content-Type: application/octet-stream, and the file's
    content as the body; otherwise there is no call.  This holds for every
    value of the two variables, the placeholder values included: the warning
    that the demo "will run with mock data" changes nothing in the call. *)
Theorem main_posts_once (w : World) (st st' : State) (o : Outcome unit) :
  Main.main w st = (o, st') →
  network st'
  = network st ++
    match environ w !! "VISION_ENDPOINT", environ w !! "VISION_KEY",
          fs st !! "sample_image.jpg" with
    | Some endpoint, Some key, Some data =>
        [Post {| req_url := endpoint +:+ "computervision/imageanalysis:analyze";
                 req_headers := [("Ocp-Apim-Subscription-Key", key);
                                 ("Content-Type", "application/octet-stream")];
                 req_params := [("features", "tags,objects,caption,denseCaptions,smartCrops");
                                ("language", "en");
                                ("gender-neutral-caption", "false")];
                 req_data := data |}]
    | _, _, _ => []
    end.
Proof.
  intros H. rewrite (main_network w st st' o H).
  unfold Main.load_module, Main.environ_getitem.
  destruct (environ w !! "VISION_ENDPOINT") as [endpoint|]; [|done].
  destruct (environ w !! "VISION_KEY") as [key|]; [|done].
  by destruct (fs st !! "sample_image.jpg").
Qed.

Lemma main_posts_once_witness :
  network (Main.main world_placeholders start).2
  = [Post (main_post "https://your-resource-name.cognitiveservices.azure.com/"
             "your_api_key_here" (Picture (blank 4 4)))].
Proof.
  rewrite (main_posts_once world_placeholders start
             (Main.main world_placeholders start).2
             (Main.main world_placeholders start).1 (surjective_pairing _)).
  reflexivity.
Defined.

(** With the placeholder values the warning is printed and the run goes on. *)
Example main_placeholders_output :
  take 4 (stdout (Main.main world_placeholders start).2)
  = [[Lit "===== Azure Computer Vision API Demo ====="];
     [Lit (nl +:+ "WARNING: Please set your actual Azure API key and endpoint before running this demo.")];
     [Lit "The demo will run with mock data for demonstration purposes."];
     [Lit (nl +:+ "=== Image Analysis Demo ===")]].
Proof. by vm_compute. Qed.

(** ** The SDK samples *)

Lemma not_set_or (endpoint key : option string) :
  endpoint = None ∨ endpoint = Some "" ∨ key = None ∨ key = Some "" →
  OCRpy.not_set endpoint || OCRpy.not_set key = true.
Proof. intros H. apply orb_true_iff. rewrite !not_set_spec. tauto. Qed.

Lemma set_and (endpoint key : string) :
  endpoint ≠ "" → key ≠ "" →
  OCRpy.not_set (Some endpoint) || OCRpy.not_set (Some key) = false.
Proof. intros He Hk. apply orb_false_iff. by destruct endpoint, key. Qed.

(** X18: caption.py and objects.py check the configuration the way OCR.py
    does: whenever the endpoint or the key is missing or empty (once the
    .env file is taken into account) they print the two-line message and
    exit, before the image file is read and before any call to the
    service. *)
Theorem sdk_samples_check_configuration (w : World)
    (service : SdkCall → string + Objectspy.ObjectsAnalysisResult) (st : State) :
  OCRpy.getenv w "VISION_ENDPOINT" = None ∨ OCRpy.getenv w "VISION_ENDPOINT" = Some "" ∨
  OCRpy.getenv w "VISION_KEY" = None ∨ OCRpy.getenv w "VISION_KEY" = Some "" →
  Captionpy.caption w st = (Raise SystemExit, printed st missing_variable_message) ∧
  Objectspy.sample_objects_image_file w service st
  = (Raise SystemExit, printed st missing_variable_message).
Proof.
  intros H%not_set_or.
  unfold Captionpy.caption, Objectspy.sample_objects_image_file. rewrite H.
  split; unfold mbind, M_bind, print, raise, printed, missing_variable_message; simpl;
    by rewrite <- app_assoc.
Qed.

Lemma sdk_samples_check_configuration_witness :
  Captionpy.caption world_no_key sdk_start
  = (Raise SystemExit, printed sdk_start missing_variable_message) ∧
  Objectspy.sample_objects_image_file world_no_key (λ _, inr objects_result) sdk_start
  = (Raise SystemExit, printed sdk_start missing_variable_message).
Proof.
  apply (sdk_samples_check_configuration world_no_key (λ _, inr objects_result) sdk_start).
  right. right. left. reflexivity.
Defined.

(** X19: the SDK samples catch nothing.  With the configuration present, a
    missing image file ends OCR.py and caption.py with [FileNotFoundError]
    before any call to the service, and an error of the service ends them
    with [HttpResponseError] after exactly one call; in both cases nothing
    has been printed. *)
Theorem sdk_samples_propagate_errors (w : World) (st : State) (endpoint key : string) :
  OCRpy.getenv w "VISION_ENDPOINT" = Some endpoint → endpoint ≠ "" →
  OCRpy.getenv w "VISION_KEY" = Some key → key ≠ "" →
  (fs st !! "text_sample.jpg" = None →
   OCRpy.OCR w st = (Raise (FileNotFoundError "text_sample.jpg"), st)) ∧
  (fs st !! "scene_sample.jpg" = None →
   Captionpy.caption w st = (Raise (FileNotFoundError "scene_sample.jpg"), st)) ∧
  (∀ data msg,
     fs st !! "text_sample.jpg" = Some data →
     sdk_service w (ocr_call endpoint key data) = inl msg →
     OCRpy.OCR w st
     = (Raise (HttpResponseError msg), sent st [Analyze (ocr_call endpoint key data)])) ∧
  (∀ data msg,
     fs st !! "scene_sample.jpg" = Some data →
     sdk_service w (ocr_call endpoint key data) = inl msg →
     Captionpy.caption w st
     = (Raise (HttpResponseError msg), sent st [Analyze (ocr_call endpoint key data)])).
Proof.
  intros He Hne Hk Hnk. pose proof (set_and endpoint key Hne Hnk) as Hset.
  unfold OCRpy.OCR, Captionpy.caption. rewrite He, Hk, Hset.
  unfold OCRpy.client_analyze, ocr_call, mbind, M_bind, read_file, issue, raise.
  repeat split.
  - by intros ->.
  - by intros ->.
  - intros data msg -> Hs. simpl. by rewrite Hs.
  - intros data msg -> Hs. simpl. by rewrite Hs.
Qed.

Lemma sdk_samples_propagate_errors_witness :
  OCRpy.OCR world_sdk_down start
  = (Raise (HttpResponseError "(401) Access denied"),
     sent start [Analyze (ocr_call "https://vision.example/" "secret" (Picture (blank 4 4)))]) ∧
  Captionpy.caption world_sdk_down start
  = (Raise (FileNotFoundError "scene_sample.jpg"), start).
Proof.
  destruct (sdk_samples_propagate_errors world_sdk_down start "https://vision.example/"
              "secret" eq_refl ltac:(discriminate) eq_refl ltac:(discriminate))
    as (_ & Hc & Ho & _).
  split.
  - by apply Ho.
  - by apply Hc.
Defined.

(** X20: with the configuration present, the image read and a result from
    the service, caption.py always returns: it makes one call, asking for
    CAPTION, READ and TAGS with a gender-neutral caption, and prints the two
    header lines followed by the caption line when the result has a caption;
    the read result and the tags are never looked at.  OCR.py behaves the same
    on a result without read result, with the line " Read:" added. *)
Theorem caption_sample_output (w : World) (st : State) (endpoint key : string)
    (data : FileData) (res : ImageAnalysisResult) :
  OCRpy.getenv w "VISION_ENDPOINT" = Some endpoint → endpoint ≠ "" →
  OCRpy.getenv w "VISION_KEY" = Some key → key ≠ "" →
  sdk_service w (ocr_call endpoint key data) = inr res →
  (fs st !! "scene_sample.jpg" = Some data →
   Captionpy.caption w st
   = (Ret tt, printed (sent st [Analyze (ocr_call endpoint key data)]) (caption_output res))) ∧
  (fs st !! "text_sample.jpg" = Some data → result_read res = None →
   OCRpy.OCR w st
   = (Ret tt, printed (sent st [Analyze (ocr_call endpoint key data)])
                (caption_output res ++ [[Lit " Read:"]]))).
Proof.
  intros He Hne Hk Hnk Hs. pose proof (set_and endpoint key Hne Hnk) as Hset.
  unfold OCRpy.OCR, Captionpy.caption. rewrite He, Hk, Hset.
  unfold OCRpy.client_analyze, ocr_call in *.
  unfold mbind, M_bind, read_file, issue, raise, print, caption_output, printed, sent.
  split.
  - intros ->. simpl. rewrite Hs. simpl.
    destruct (result_caption res); simpl; by rewrite <- ?app_assoc.
  - intros -> Hr. simpl. rewrite Hs. simpl. rewrite Hr.
    destruct (result_caption res); simpl; by rewrite <- ?app_assoc.
Qed.

Lemma caption_sample_output_witness :
  Captionpy.caption (world_sdk caption_only) sdk_start
  = (Ret tt,
     printed (sent sdk_start [Analyze (ocr_call "https://vision.example/" "secret"
                                                (Picture (blank 4 4)))])
       [[Lit "Image analysis results:"]; [Lit " Caption:"];
        [Lit "   'a cat', Confidence "; Num ".4f" (NFloat (8 # 10))]]) ∧
  OCRpy.OCR (world_sdk caption_only) sdk_start
  = (Ret tt,
     printed (sent sdk_start [Analyze (ocr_call "https://vision.example/" "secret"
                                                (Picture (blank 4 4)))])
       [[Lit "Image analysis results:"]; [Lit " Caption:"];
        [Lit "   'a cat', Confidence "; Num ".4f" (NFloat (8 # 10))]; [Lit " Read:"]]).
Proof.
  destruct (caption_sample_output (world_sdk caption_only) sdk_start
              "https://vision.example/" "secret" (Picture (blank 4 4)) caption_only
              eq_refl ltac:(discriminate) eq_refl ltac:(discriminate) eq_refl) as [Hc Ho].
  split.
  - by apply Hc.
  - by apply Ho.
Defined.

Lemma print_object_ok (object : Objectspy.DetectedObject) (st : State) :
  detected_ok object →
  Objectspy.print_object object st = (Ret tt, printed st [detected_printed object]).
Proof.
  unfold detected_ok, Objectspy.print_object, detected_printed, mbind, M_bind, lift,
    list_getitem.
  destruct (Objectspy.dobj_tags object) as [|tag0 tags]; [done|]. intros _. simpl.
  by destruct (Objectspy.dobj_bounding_box object) as [[[x y] bw] bh].
Qed.

Lemma print_objects_ok (objects : list Objectspy.DetectedObject) (st : State) :
  Forall detected_ok objects →
  for_each objects (λ _ object, Objectspy.print_object object) tt st
  = (Ret tt, printed st (detected_printed <$> objects)).
Proof.
  intros Hall. revert st. induction Hall as [|object l Hok Hl IH]; intros st.
  - simpl. by rewrite printed_nil.
  - rewrite for_each_cons, (bind_ret_run _ _ _ _ _ (print_object_ok object st Hok)).
    by rewrite IH, printed_printed.
Qed.

Lemma print_objects_untagged (good rest : list Objectspy.DetectedObject)
    (bad : Objectspy.DetectedObject) (st : State) :
  Forall detected_ok good → Objectspy.dobj_tags bad = [] →
  for_each (good ++ bad :: rest) (λ _ object, Objectspy.print_object object) tt st
  = (Raise (IndexError "list index out of range"), printed st (detected_printed <$> good)).
Proof.
  intros Hgood Hbad.
  rewrite for_each_app, (bind_ret_run _ _ _ _ _ (print_objects_ok good st Hgood)).
  rewrite for_each_cons. apply bind_raise_run.
  unfold Objectspy.print_object, mbind, M_bind, lift, list_getitem. by rewrite Hbad.
Qed.

Lemma objects_sample_run (w : World)
    (service : SdkCall → string + Objectspy.ObjectsAnalysisResult) (st : State)
    (endpoint key : string) (data : FileData) (res : Objectspy.ObjectsAnalysisResult) :
  OCRpy.getenv w "VISION_ENDPOINT" = Some endpoint → endpoint ≠ "" →
  OCRpy.getenv w "VISION_KEY" = Some key → key ≠ "" →
  fs st !! "sample.jpg" = Some data →
  service (objects_call endpoint key data) = inr res →
  Objectspy.sample_objects_image_file w service st
  = (_ ← match Objectspy.result_objects res with
         | Some objects => for_each objects (λ _ object, Objectspy.print_object object) tt
         | None => mret tt
         end;
     _ ← print [Lit " Image height: "; Num "" (NInt (Objectspy.metadata_height res))];
     _ ← print [Lit " Image width: "; Num "" (NInt (Objectspy.metadata_width res))];
     print [Lit (" Model version: " +:+ Objectspy.model_version res)])
      (printed (sent st [Analyze (objects_call endpoint key data)])
         [[Lit "Image analysis results:"]; [Lit " Objects:"]]).
Proof.
  intros He Hne Hk Hnk Hf Hs. pose proof (set_and endpoint key Hne Hnk) as Hset.
  unfold Objectspy.sample_objects_image_file. rewrite He, Hk, Hset.
  unfold Objectspy.client_analyze, objects_call in *.
  unfold mbind at 1, M_bind at 1, read_file. rewrite Hf.
  unfold mbind at 1 2, M_bind at 1 2, issue. simpl. rewrite Hs.
  unfold mbind at 1, M_bind at 1. simpl.
  unfold mbind at 1, M_bind at 1, print at 1. simpl.
  unfold printed, sent. simpl. rewrite <- app_assoc. reflexivity.
Qed.

(** X21: with the configuration present, the image read and a result from
    the service, objects.py prints the two header lines, one line per
    detected object with the name and confidence of its first tag and its
    bounding box, and then the image height, the image width and the model
    version.  An object without a tag makes it stop with an uncaught
    [IndexError] after the lines of the objects before it, so that the
    height, the width and the model version are not printed. *)
Theorem objects_sample_output (w : World)
    (service : SdkCall → string + Objectspy.ObjectsAnalysisResult) (st : State)
    (endpoint key : string) (data : FileData) (res : Objectspy.ObjectsAnalysisResult) :
  OCRpy.getenv w "VISION_ENDPOINT" = Some endpoint → endpoint ≠ "" →
  OCRpy.getenv w "VISION_KEY" = Some key → key ≠ "" →
  fs st !! "sample.jpg" = Some data →
  service (objects_call endpoint key data) = inr res →
  (∀ objects, Objectspy.result_objects res = Some objects → Forall detected_ok objects →
     Objectspy.sample_objects_image_file w service st
     = (Ret tt,
        printed (sent st [Analyze (objects_call endpoint key data)])
          ([[Lit "Image analysis results:"]; [Lit " Objects:"]]
           ++ (detected_printed <$> objects) ++ metadata_output res))) ∧
  (Objectspy.result_objects res = None →
   Objectspy.sample_objects_image_file w service st
   = (Ret tt,
      printed (sent st [Analyze (objects_call endpoint key data)])
        ([[Lit "Image analysis results:"]; [Lit " Objects:"]] ++ metadata_output res))) ∧
  (∀ good bad rest,
     Objectspy.result_objects res = Some (good ++ bad :: rest) →
     Forall detected_ok good → Objectspy.dobj_tags bad = [] →
     Objectspy.sample_objects_image_file w service st
     = (Raise (IndexError "list index out of range"),
        printed (sent st [Analyze (objects_call endpoint key data)])
          ([[Lit "Image analysis results:"]; [Lit " Objects:"]]
           ++ (detected_printed <$> good)))).
Proof.
  intros He Hne Hk Hnk Hf Hs.
  rewrite (objects_sample_run w service st endpoint key data res He Hne Hk Hnk Hf Hs).
  split; [|split].
  - intros objects -> Hall.
    rewrite (bind_ret_run _ _ _ _ _ (print_objects_ok objects _ Hall)).
    rewrite !(bind_ret_run _ _ _ _ _ (print_run _ _)), print_run.
    rewrite !printed_printed. unfold metadata_output.
    by rewrite <- ?app_assoc.
  - intros ->.
    rewrite (bind_ret_run _ _ _ _ _ (ret_run tt _)).
    rewrite !(bind_ret_run _ _ _ _ _ (print_run _ _)), print_run.
    by rewrite !printed_printed.
  - intros good bad rest -> Hgood Hbad.
    rewrite (bind_raise_run _ _ _ _ _ (print_objects_untagged good rest bad _ Hgood Hbad)).
    by rewrite printed_printed.
Qed.

Lemma objects_sample_output_witness :
  Objectspy.sample_objects_image_file (world_sdk no_block) (λ _, inr objects_result) sdk_start
  = (Raise (IndexError "list index out of range"),
     printed (sent sdk_start [Analyze (objects_call "https://vision.example/" "secret"
                                                    (Picture (blank 4 4)))])
       [[Lit "Image analysis results:"]; [Lit " Objects:"];
        [Lit "   'cat', "; Poly [(0, 0); (2, 2)]; Lit ", Confidence: ";
         Num ".4f" (NFloat (9 # 10))]]).
Proof.
  destruct (objects_sample_output (world_sdk no_block) (λ _, inr objects_result) sdk_start
              "https://vision.example/" "secret" (Picture (blank 4 4)) objects_result
              eq_refl ltac:(discriminate) eq_refl ltac:(discriminate) eq_refl eq_refl)
    as (_ & _ & H).
  apply (H [a_detected "cat" 1] (a_detected "dog" 0) [] eq_refl).
  - repeat constructor. discriminate.
  - reflexivity.
Defined.

Lemma display_image_returns_witness :
  ∃ res st',
    Main.display_image "no_such_file.jpg" "Original Image" start = (Ret res, st') ∧
    net_fs_same start st' ∧ res = None.
Proof.
  destruct (display_image_returns "no_such_file.jpg" "Original Image" start)
    as (res & st' & Hrun & Hsame & _ & Hnone & _).
  exists res, st'. split; [done|]. split; [done|].
  apply Hnone. intros [im Him]. vm_compute in Him. discriminate.
Defined.

Lemma ocr_line_box_needs_six_witness :
  (∃ b, ocr_line_box upright_box = Ret b) ∧
  ocr_line_box [NInt 1; NInt 2; NInt 3; NInt 4; NInt 5]
  = Raise (IndexError "list index out of range").
Proof.
  split.
  - apply (proj1 (ocr_line_box_needs_six upright_box)). simpl. lia.
  - apply (proj1 (proj2 (ocr_line_box_needs_six [NInt 1; NInt 2; NInt 3; NInt 4; NInt 5]))).
    simpl. lia.
Defined.
